(** * The GL renderer's shader cache (gl-shaders.c)

    A shallow embedding of the shader part of the GL renderer: the
    requirements key and its comparison, the generated shader sources, the
    creation of a program with its error paths, the destruction of a
    program, and the report written to a new subscriber of the shader log
    scope.

    Conventions of the embedding.
    - [GLuint] and [GLint] values are integers of [Z]; [GL_NONE] is 0.
    - The GL implementation is a class of oracles, [gl_driver]: what a query
      answers is a function of the calls made so far.  The context records
      those calls, the latest first, and the names of the live shader and
      program objects.
    - Heap objects of type [struct gl_shader] are identified by their
      address; the intrusive [wl_list] of the renderer is the list of the
      linked objects, head first.
    - Memory allocation ([zalloc], [asprintf], [open_memstream]) is taken to
      succeed, and so is the creation of a GL object name.  The branches the
      code takes when they fail are kept in the definitions. *)

From Stdlib Require Import ZArith List String Ascii Bool Lia DecimalString.
From Stdlib Require HexadecimalString.
Import ListNotations.

Local Open Scope Z_scope.

Infix "+++" := String.append (right associativity, at level 60).

(** ** Text helpers: what the printf conversions of the code render *)

Definition nl : string := String "010"%char EmptyString.

(** [%d]. *)
Definition fmt_d (z : Z) : string := NilZero.string_of_int (Z.to_int z).

(** [%u]: the value as an unsigned 32-bit number. *)
Definition fmt_u (z : Z) : string := fmt_d (z mod 4294967296).

Fixpoint spaces (n : nat) : string :=
  match n with
  | O => EmptyString
  | S n' => String " "%char (spaces n')
  end.

(** A conversion with a minimum field width, padded on the left. *)
Definition pad_left (width : nat) (s : string) : string :=
  spaces (width - String.length s) +++ s.

(** [%6d] and [%6u]. *)
Definition fmt_6d (z : Z) : string := pad_left 6 (fmt_d z).

Definition fmt_6u (z : Z) : string := pad_left 6 (fmt_u z).

(** [%s] given a pointer that may be NULL. *)
Definition fmt_s (o : option string) : string :=
  match o with
  | Some s => s
  | None => "(null)"%string
  end.

(** [asprintf]: the formatted text in a fresh buffer; [None] stands for the
    negative return value. *)
Definition asprintf (text : string) : option string := Some text.

(** ** The requirements key

    The enumeration and the structure are declared in
    gl-renderer-internal.h, which is not among the sources: the enumerators
    are those of the switch in [gl_shader_texture_variant_to_string], the
    fields those the code reads. *)

Inductive gl_shader_texture_variant : Type :=
| SHADER_VARIANT_NONE
| SHADER_VARIANT_RGBX
| SHADER_VARIANT_RGBA
| SHADER_VARIANT_Y_U_V
| SHADER_VARIANT_Y_UV
| SHADER_VARIANT_Y_XUXV
| SHADER_VARIANT_XYUV
| SHADER_VARIANT_SOLID
| SHADER_VARIANT_EXTERNAL.

Record gl_shader_requirements : Type := mk_requirements {
  variant : gl_shader_texture_variant;
  green_tint : bool
}.

Definition all_variants : list gl_shader_texture_variant :=
  [SHADER_VARIANT_NONE; SHADER_VARIANT_RGBX; SHADER_VARIANT_RGBA;
   SHADER_VARIANT_Y_U_V; SHADER_VARIANT_Y_UV; SHADER_VARIANT_Y_XUXV;
   SHADER_VARIANT_XYUV; SHADER_VARIANT_SOLID; SHADER_VARIANT_EXTERNAL].

Definition all_requirements : list gl_shader_requirements :=
  flat_map (fun v => [mk_requirements v false; mk_requirements v true])
           all_variants.

(** The switch of CASERET lines: every enumerator yields its own spelling.
    The match is exhaustive, so the line after the switch has no
    counterpart. *)
Definition gl_shader_texture_variant_to_string
    (v : gl_shader_texture_variant) : string :=
  match v with
  | SHADER_VARIANT_NONE => "SHADER_VARIANT_NONE"
  | SHADER_VARIANT_RGBX => "SHADER_VARIANT_RGBX"
  | SHADER_VARIANT_RGBA => "SHADER_VARIANT_RGBA"
  | SHADER_VARIANT_Y_U_V => "SHADER_VARIANT_Y_U_V"
  | SHADER_VARIANT_Y_UV => "SHADER_VARIANT_Y_UV"
  | SHADER_VARIANT_Y_XUXV => "SHADER_VARIANT_Y_XUXV"
  | SHADER_VARIANT_XYUV => "SHADER_VARIANT_XYUV"
  | SHADER_VARIANT_SOLID => "SHADER_VARIANT_SOLID"
  | SHADER_VARIANT_EXTERNAL => "SHADER_VARIANT_EXTERNAL"
  end%string.

(** ["%s %cgreen"] *)
Definition create_shader_description_string
    (req : gl_shader_requirements) : option string :=
  match asprintf (gl_shader_texture_variant_to_string (variant req)
                  +++ " "
                  +++ (if green_tint req then "+" else "-")
                  +++ "green")%string with
  | None => None
  | Some str => Some str
  end.

(** ["#define DEF_GREEN_TINT %s\n#define DEF_VARIANT %s\n"] *)
Definition create_shader_config_string
    (req : gl_shader_requirements) : option string :=
  match asprintf ("#define DEF_GREEN_TINT "
                  +++ (if green_tint req then "true" else "false")
                  +++ nl
                  +++ "#define DEF_VARIANT "
                  +++ gl_shader_texture_variant_to_string (variant req)
                  +++ nl)%string with
  | None => None
  | Some str => Some str
  end.

(** ** Comparing two keys *)

(** [memcmp]: the difference of the first pair of bytes that differ among
    the first [n], zero when there is none. *)
Fixpoint memcmp (a b : list Z) (n : nat) : Z :=
  match n, a, b with
  | S n', x :: a', y :: b' => if x =? y then memcmp a' b' n' else x - y
  | _, _, _ => 0
  end.

(** Modelled from the spec: the declaration of [struct gl_shader_requirements]
    (gl-renderer-internal.h) is not among the sources.  The spec gives the key
    the two fields [variant] and [green_tint] and has keys compared bit for
    bit; the object is taken to be one 32-bit word holding the enumerator's
    number in bits 0 to 3 and the flag in bit 4, every other bit zero. *)
Definition variant_number (v : gl_shader_texture_variant) : Z :=
  match v with
  | SHADER_VARIANT_NONE => 0
  | SHADER_VARIANT_RGBX => 1
  | SHADER_VARIANT_RGBA => 2
  | SHADER_VARIANT_Y_U_V => 3
  | SHADER_VARIANT_Y_UV => 4
  | SHADER_VARIANT_Y_XUXV => 5
  | SHADER_VARIANT_XYUV => 6
  | SHADER_VARIANT_SOLID => 7
  | SHADER_VARIANT_EXTERNAL => 8
  end.

(** Modelled from the spec: the 32-bit word of a key, see above. *)
Definition requirements_word (r : gl_shader_requirements) : Z :=
  Z.lor (Z.land (variant_number (variant r)) 15)
        (Z.shiftl (Z.b2z (green_tint r)) 4).

(** Modelled from the spec: [sizeof(struct gl_shader_requirements)], the
    four bytes of that word. *)
Definition sizeof_requirements : nat := 4.

(** Modelled from the spec: the bytes of the object, lowest address first
    (little endian). *)
Definition requirements_bytes (r : gl_shader_requirements) : list Z :=
  let w := requirements_word r in
  [Z.land w 255;
   Z.land (Z.shiftr w 8) 255;
   Z.land (Z.shiftr w 16) 255;
   Z.land (Z.shiftr w 24) 255].

Definition gl_shader_requirements_cmp
    (a b : gl_shader_requirements) : Z :=
  memcmp (requirements_bytes a) (requirements_bytes b) sizeof_requirements.

(** ** The GL context *)

Definition GLuint : Type := Z.
Definition GLint : Type := Z.
Definition GL_NONE : GLuint := 0.

Inductive shader_type : Type := GL_VERTEX_SHADER | GL_FRAGMENT_SHADER.

(** The entry points of GLES2 the code calls, with their arguments.  A call
    that creates an object carries the name it returned, a status query the
    status it read. *)
Inductive gl_call : Type :=
| CreateShader (type : shader_type) (name : GLuint)
| ShaderSource (s : GLuint) (sources : list string)
| CompileShader (s : GLuint)
| GetShaderiv_COMPILE_STATUS (s : GLuint) (status : bool)
| GetShaderInfoLog (s : GLuint) (bufsize : nat)
| DeleteShader (s : GLuint)
| CreateProgram (name : GLuint)
| AttachShader (p s : GLuint)
| BindAttribLocation (p : GLuint) (index : Z) (name : string)
| LinkProgram (p : GLuint)
| GetProgramiv_LINK_STATUS (p : GLuint) (status : bool)
| GetProgramInfoLog (p : GLuint) (bufsize : nat)
| DeleteProgram (p : GLuint)
| GetUniformLocation (p : GLuint) (name : string).

Record gl_context : Type := mk_gl_context {
  gl_shaders : list GLuint;    (* names of the live shader objects *)
  gl_programs : list GLuint;   (* names of the live program objects *)
  gl_calls : list gl_call      (* the calls made so far, latest first *)
}.

(** What the implementation answers, given the calls made before the
    question. *)
Class gl_driver : Type := {
  driver_compile_status : list gl_call -> GLuint -> bool;
  driver_shader_info_log : list gl_call -> GLuint -> string;
  driver_link_status : list gl_call -> GLuint -> bool;
  driver_program_info_log : list gl_call -> GLuint -> string;
  driver_uniform_location : list gl_call -> GLuint -> string -> GLint
}.

Definition max_of (l : list Z) : Z := fold_right Z.max 0 l.

(** An object name: not zero and not the name of a live object. *)
Definition gl_gen_name (g : gl_context) : GLuint :=
  max_of (gl_shaders g ++ gl_programs g) + 1.

(** ** The renderer and its shaders *)

Record timespec : Type := mk_timespec { tv_sec : Z; tv_nsec : Z }.

Module Shader.
(** [struct gl_shader], without its list link: the fields the code reads
    and writes. *)
Record gl_shader : Type := mk {
  key : gl_shader_requirements;
  program : GLuint;
  vertex_shader : GLuint;
  fragment_shader : GLuint;
  proj_uniform : GLint;
  tex_uniforms : GLint * GLint * GLint;
  alpha_uniform : GLint;
  color_uniform : GLint;
  last_used : timespec
}.

(** What [zalloc] hands out. *)
Definition zero : gl_shader :=
  mk (mk_requirements SHADER_VARIANT_NONE false) 0 0 0 0 (0, 0, 0) 0 0
     (mk_timespec 0 0).

Definition set_key (v : gl_shader_requirements) (s : gl_shader) :=
  mk v (program s) (vertex_shader s) (fragment_shader s) (proj_uniform s)
     (tex_uniforms s) (alpha_uniform s) (color_uniform s) (last_used s).
Definition set_program (v : GLuint) (s : gl_shader) :=
  mk (key s) v (vertex_shader s) (fragment_shader s) (proj_uniform s)
     (tex_uniforms s) (alpha_uniform s) (color_uniform s) (last_used s).
Definition set_vertex_shader (v : GLuint) (s : gl_shader) :=
  mk (key s) (program s) v (fragment_shader s) (proj_uniform s)
     (tex_uniforms s) (alpha_uniform s) (color_uniform s) (last_used s).
Definition set_fragment_shader (v : GLuint) (s : gl_shader) :=
  mk (key s) (program s) (vertex_shader s) v (proj_uniform s)
     (tex_uniforms s) (alpha_uniform s) (color_uniform s) (last_used s).
Definition set_uniforms (proj : GLint) (tex : GLint * GLint * GLint)
    (alpha color : GLint) (s : gl_shader) :=
  mk (key s) (program s) (vertex_shader s) (fragment_shader s) proj
     tex alpha color (last_used s).
End Shader.

Abbreviation gl_shader := Shader.gl_shader.

(** The address of a [struct gl_shader]. *)
Definition ptr : Type := Z.

(** The renderer ([struct gl_renderer], the fields the shader code reads
    and writes), the GL context it owns and the compositor's log. *)
Record world : Type := mk_world {
  shader_scope_enabled : bool;           (* is gr->shader_scope subscribed to *)
  shader_scope_out : list string;        (* what was printed to gr->shader_scope *)
  shader_list : list (ptr * gl_shader);  (* gr->shader_list, head first *)
  presentation_clock : timespec;         (* the clock of gr->compositor *)
  gl : gl_context;
  log_out : list string                  (* what weston_log printed *)
}.

Definition set_shader_scope_out (v : list string) (w : world) : world :=
  mk_world (shader_scope_enabled w) v (shader_list w) (presentation_clock w)
           (gl w) (log_out w).
Definition set_shader_list (v : list (ptr * gl_shader)) (w : world) : world :=
  mk_world (shader_scope_enabled w) (shader_scope_out w) v
           (presentation_clock w) (gl w) (log_out w).
Definition set_gl (v : gl_context) (w : world) : world :=
  mk_world (shader_scope_enabled w) (shader_scope_out w) (shader_list w)
           (presentation_clock w) v (log_out w).
Definition set_log_out (v : list string) (w : world) : world :=
  mk_world (shader_scope_enabled w) (shader_scope_out w) (shader_list w)
           (presentation_clock w) (gl w) v.

(** ** Code that changes the world *)

Definition M (A : Type) : Type := world -> A * world.

Definition ret {A : Type} (a : A) : M A := fun w => (a, w).

Definition bind {A B : Type} (m : M A) (f : A -> M B) : M B :=
  fun w => let (a, w') := m w in f a w'.

Notation "x <- m ;; k" := (bind m (fun x => k))
  (at level 61, m at next level, right associativity).
Notation "m ;; k" := (bind m (fun _ => k))
  (at level 61, right associativity).

Definition weston_log (text : string) : M unit :=
  fun w => (tt, set_log_out (log_out w ++ [text]) w).

Definition weston_log_continue (text : string) : M unit :=
  fun w => (tt, set_log_out (log_out w ++ [text]) w).

Definition weston_log_scope_is_enabled : M bool :=
  fun w => (shader_scope_enabled w, w).

Definition weston_log_scope_printf (text : string) : M unit :=
  fun w => (tt, set_shader_scope_out (shader_scope_out w ++ [text]) w).

Definition weston_compositor_read_presentation_clock : M timespec :=
  fun w => (presentation_clock w, w).

(** [zalloc(sizeof *shader)]: an address no linked shader has. *)
Definition zalloc : M (option ptr) :=
  fun w => (Some (max_of (map fst (shader_list w)) + 1), w).

(** [wl_list_insert(&gr->shader_list, &shader->link)]: right after the
    head. *)
Definition wl_list_insert (p : ptr) (shader : gl_shader) : M unit :=
  fun w => (tt, set_shader_list ((p, shader) :: shader_list w) w).

(** [wl_list_remove(&shader->link)] *)
Definition wl_list_remove (p : ptr) : M unit :=
  fun w => (tt, set_shader_list
                  (filter (fun e => negb (fst e =? p)) (shader_list w)) w).

(** ** GLES2 entry points *)

Definition gl_record (c : gl_call) (g : gl_context) : gl_context :=
  mk_gl_context (gl_shaders g) (gl_programs g) (c :: gl_calls g).

Definition gl_call_void (c : gl_call) : M unit :=
  fun w => (tt, set_gl (gl_record c (gl w)) w).

(** What fits a buffer of [bufsize] bytes, with its terminator. *)
Definition truncate_log (bufsize : nat) (text : string) : string :=
  substring 0 (bufsize - 1) text.

Section GL.
Context {drv : gl_driver}.

Definition glCreateShader (type : shader_type) : M GLuint :=
  fun w =>
    let name := gl_gen_name (gl w) in
    (name, set_gl (gl_record (CreateShader type name)
                     (mk_gl_context (name :: gl_shaders (gl w))
                                    (gl_programs (gl w))
                                    (gl_calls (gl w)))) w).

Definition glShaderSource (s : GLuint) (sources : list string) : M unit :=
  gl_call_void (ShaderSource s sources).

Definition glCompileShader (s : GLuint) : M unit :=
  gl_call_void (CompileShader s).

Definition glGetShaderiv_COMPILE_STATUS (s : GLuint) : M bool :=
  fun w =>
    let status := driver_compile_status (gl_calls (gl w)) s in
    (status, set_gl (gl_record (GetShaderiv_COMPILE_STATUS s status) (gl w)) w).

Definition glGetShaderInfoLog (s : GLuint) (bufsize : nat) : M string :=
  fun w =>
    let msg := truncate_log bufsize
                 (driver_shader_info_log (gl_calls (gl w)) s) in
    (msg, set_gl (gl_record (GetShaderInfoLog s bufsize) (gl w)) w).

Definition glDeleteShader (s : GLuint) : M unit :=
  fun w =>
    (tt, set_gl (gl_record (DeleteShader s)
                   (mk_gl_context (remove Z.eq_dec s (gl_shaders (gl w)))
                                  (gl_programs (gl w))
                                  (gl_calls (gl w)))) w).

Definition glCreateProgram : M GLuint :=
  fun w =>
    let name := gl_gen_name (gl w) in
    (name, set_gl (gl_record (CreateProgram name)
                     (mk_gl_context (gl_shaders (gl w))
                                    (name :: gl_programs (gl w))
                                    (gl_calls (gl w)))) w).

Definition glAttachShader (p s : GLuint) : M unit :=
  gl_call_void (AttachShader p s).

Definition glBindAttribLocation (p : GLuint) (index : Z) (name : string)
    : M unit :=
  gl_call_void (BindAttribLocation p index name).

Definition glLinkProgram (p : GLuint) : M unit :=
  gl_call_void (LinkProgram p).

Definition glGetProgramiv_LINK_STATUS (p : GLuint) : M bool :=
  fun w =>
    let status := driver_link_status (gl_calls (gl w)) p in
    (status, set_gl (gl_record (GetProgramiv_LINK_STATUS p status) (gl w)) w).

Definition glGetProgramInfoLog (p : GLuint) (bufsize : nat) : M string :=
  fun w =>
    let msg := truncate_log bufsize
                 (driver_program_info_log (gl_calls (gl w)) p) in
    (msg, set_gl (gl_record (GetProgramInfoLog p bufsize) (gl w)) w).

Definition glDeleteProgram (p : GLuint) : M unit :=
  fun w =>
    (tt, set_gl (gl_record (DeleteProgram p)
                   (mk_gl_context (gl_shaders (gl w))
                                  (remove Z.eq_dec p (gl_programs (gl w)))
                                  (gl_calls (gl w)))) w).

Definition glGetUniformLocation (p : GLuint) (name : string) : M GLint :=
  fun w =>
    let location := driver_uniform_location (gl_calls (gl w)) p name in
    (location, set_gl (gl_record (GetUniformLocation p name) (gl w)) w).
End GL.

(** ** What the shader code takes from elsewhere *)

(** [vertex-shader.h] and [fragment-shader.h], generated from vertex.glsl
    and fragment.glsl: two constant texts. *)
Class shader_sources : Type := {
  vertex_shader : string;
  fragment_shader : string
}.

(** Modelled from the spec: [timespec_sub_to_msec] of
    shared/timespec-util.h is not among the sources.  The spec has a record
    of the report show the time elapsed since the entry was last used, as
    of the time of the report: the whole milliseconds from [b] to [a], cut
    toward zero as C divides. *)
Definition timespec_sub_to_msec (a b : timespec) : Z :=
  Z.quot ((tv_sec a - tv_sec b) * 1000000000 + (tv_nsec a - tv_nsec b))
         1000000.

(** What an [int] keeps of a wider integer stored in it, and of a product
    that leaves its range: the 32 low bits, read in two's complement. *)
Definition to_int (z : Z) : Z :=
  (z + 2147483648) mod 4294967296 - 2147483648.

(** ** The arithmetic in double of the report

    A finite binary64 number is [num / 2 ^ scale], negated when
    [negative]. *)
Record double : Type := mk_double {
  negative : bool;
  num : Z;
  scale : Z
}.

(** The integer nearest [a / b] for [0 <= a] and [0 < b]; of two equally
    near, the even one. *)
Definition round_half_even (a b : Z) : Z :=
  let q := a / b in
  let r := a mod b in
  if 2 * r <? b then q
  else if b <? 2 * r then q + 1
  else if Z.even q then q else q + 1.

(** [n / 1000.0] for an [int]: [n] and 1000 are binary64 numbers as they
    stand, and the quotient is the binary64 number nearest [n / 1000], of
    two equally near the one with the even significand.  The scale [k] is
    the one at which the significand has its 53 bits,
    [2 ^ 52 <= |n| * 2 ^ k / 1000 < 2 ^ 53]; no quotient of an [int] by
    1000 is too small or too large for that. *)
Definition int_div_1000 (n : Z) : double :=
  let a := Z.abs n in
  let k := 62 - Z.log2 a in
  let k := if a * 2 ^ k / 1000 <? 2 ^ 53 then k else k - 1 in
  mk_double (n <? 0) (round_half_even (a * 2 ^ k) 1000) k.

(** [%.1f]: the sign, and the decimal number with one digit after the
    point that is nearest the number given, of two equally near the one
    with the even last digit. *)
Definition fmt_1f (x : double) : string :=
  let tenths := round_half_even (10 * num x) (2 ^ scale x) in
  ((if negative x then "-" else "")
   +++ fmt_d (tenths / 10) +++ "." +++ fmt_d (tenths mod 10))%string.

(** ** compile_shader and its dump of a rejected source *)

(** The lines of a text that a newline ends, and what follows the last
    newline: the pieces [strchr(cur, '\n')] cuts the text into. *)
Fixpoint split_lines (s : string) : list string * string :=
  match s with
  | EmptyString => ([], EmptyString)
  | String c s' =>
      let (lines, rest) := split_lines s' in
      if Ascii.eqb c "010"%char then (EmptyString :: lines, rest)
      else match lines with
           | [] => ([], String c rest)
           | l :: lines' => (String c l :: lines', rest)
           end
  end.

(** [if (new_line) fprintf(fp, "%6d: ", line++);] on the stream written so
    far, the line counter and the flag. *)
Definition dump_line_number (st : string * Z * bool) : string * Z * bool :=
  let '(out, line, new_line) := st in
  if new_line then (out +++ fmt_6d line +++ ": ", line + 1, new_line) else st.

(** One turn of the loop over the sources. *)
Definition dump_source (st : string * Z * bool) (source : string)
    : string * Z * bool :=
  let (lines, rest) := split_lines source in
  let st :=
    fold_left (fun st l =>
                 let '(out, line, _) := dump_line_number st in
                 (out +++ l +++ nl, line, true))
              lines st in
  let '(out, line, _) := dump_line_number st in
  (out +++ rest, line, false).

(** What the memory stream holds once the loop is over. *)
Definition dump_text (sources : list string) : string :=
  let '(dumpstr, _, _) := fold_left dump_source sources (EmptyString, 1, true) in
  dumpstr.

Definition dump_program_with_line_numbers (sources : list string) : M unit :=
  weston_log_continue (dump_text sources +++ nl).

Section Shaders.
Context {drv : gl_driver} {src : shader_sources}.

Definition compile_shader (type : shader_type) (sources : list string)
    : M GLuint :=
  s <- glCreateShader type ;;
  glShaderSource s sources ;;
  glCompileShader s ;;
  status <- glGetShaderiv_COMPILE_STATUS s ;;
  if negb status then
    msg <- glGetShaderInfoLog s 512 ;;
    weston_log ("shader info: " +++ msg +++ nl) ;;
    weston_log ("shader source:" +++ nl) ;;
    dump_program_with_line_numbers sources ;;
    ret GL_NONE
  else
    ret s.

(** ** gl_shader_create *)

(** The three labels at the end of the function; each falls through to
    the next. *)
Definition error_vertex : M (option ptr) :=
  ret None.

Definition error_fragment (shader : gl_shader) : M (option ptr) :=
  glDeleteShader (Shader.vertex_shader shader) ;;
  error_vertex.

Definition error_link (shader : gl_shader) : M (option ptr) :=
  glDeleteProgram (Shader.program shader) ;;
  glDeleteShader (Shader.fragment_shader shader) ;;
  error_fragment shader.

Definition gl_shader_create (requirements : gl_shader_requirements)
    : M (option ptr) :=
  verbose <- weston_log_scope_is_enabled ;;
  allocated <- zalloc ;;
  match allocated with
  | None =>
      weston_log ("could not create shader" +++ nl) ;;
      error_vertex
  | Some p =>
      let shader := Shader.set_key requirements Shader.zero in
      (if verbose : bool then
         weston_log_scope_printf
           ("Compiling shader program for: "
            +++ fmt_s (create_shader_description_string requirements)
            +++ nl)
       else ret tt) ;;
      vs <- compile_shader GL_VERTEX_SHADER [vertex_shader] ;;
      let shader := Shader.set_vertex_shader vs shader in
      if vs =? GL_NONE then error_vertex
      else
        match create_shader_config_string (Shader.key shader) with
        | None => error_fragment shader
        | Some conf =>
            fs <- compile_shader GL_FRAGMENT_SHADER
                    ["#version 100" +++ nl; conf; fragment_shader] ;;
            let shader := Shader.set_fragment_shader fs shader in
            if fs =? GL_NONE then error_fragment shader
            else
              prog <- glCreateProgram ;;
              let shader := Shader.set_program prog shader in
              glAttachShader prog vs ;;
              glAttachShader prog fs ;;
              glBindAttribLocation prog 0 "position" ;;
              glBindAttribLocation prog 1 "texcoord" ;;
              glLinkProgram prog ;;
              status <- glGetProgramiv_LINK_STATUS prog ;;
              if negb status then
                msg <- glGetProgramInfoLog prog 512 ;;
                weston_log ("link info: " +++ msg +++ nl) ;;
                error_link shader
              else
                glDeleteShader vs ;;
                glDeleteShader fs ;;
                proj <- glGetUniformLocation prog "proj" ;;
                tex <- glGetUniformLocation prog "tex" ;;
                tex1 <- glGetUniformLocation prog "tex1" ;;
                tex2 <- glGetUniformLocation prog "tex2" ;;
                alpha <- glGetUniformLocation prog "alpha" ;;
                color <- glGetUniformLocation prog "unicolor" ;;
                let shader :=
                  Shader.set_uniforms proj (tex, tex1, tex2) alpha color
                                      shader in
                wl_list_insert p shader ;;
                ret (Some p)
        end
  end.

(** ** gl_shader_destroy *)

(** The object a pointer into the list points to. *)
Fixpoint shader_at (p : ptr) (l : list (ptr * gl_shader))
    : option gl_shader :=
  match l with
  | [] => None
  | (q, shader) :: l' => if q =? p then Some shader else shader_at p l'
  end.

(** The pointer is one of a linked shader; given any other the C has no
    defined behaviour, and the world is left as it is. *)
Definition gl_shader_destroy (p : ptr) : M unit :=
  fun w =>
    match shader_at p (shader_list w) with
    | None => (tt, w)
    | Some shader =>
        (enabled <- weston_log_scope_is_enabled ;;
         (if enabled : bool then
            weston_log_scope_printf
              ("Deleting shader program for: "
               +++ fmt_s (create_shader_description_string
                            (Shader.key shader))
               +++ nl)
          else ret tt) ;;
         glDeleteProgram (Shader.program shader) ;;
         wl_list_remove p) w
    end.

(** ** The report for a new subscriber of the shader scope *)

Definition bar : string :=
  "-----------------------------------------------------------------------------".

Definition weston_log_subscription_printf (subs : list string)
    (text : string) : list string :=
  subs ++ [text].

(** One turn of the loop over the shaders: [msecs] is an [int], and the
    line is ["%6u: (%.1f) %s\n"] given the program, [msecs / 1000.0] and
    the description. *)
Definition report_line (now : timespec) (shader : gl_shader) : string :=
  let msecs := to_int (timespec_sub_to_msec now (Shader.last_used shader)) in
  let desc := create_shader_description_string (Shader.key shader) in
  fmt_6u (Shader.program shader) +++ ": ("
  +++ fmt_1f (int_div_1000 msecs) +++ ") "
  +++ fmt_s desc +++ nl.

Definition gl_shader_scope_new_subscription (subs : list string)
    : M (list string) :=
  now <- weston_compositor_read_presentation_clock ;;
  let subs :=
    weston_log_subscription_printf subs
      ("Vertex shader body:" +++ nl
       +++ bar +++ nl +++ vertex_shader +++ nl
       +++ "Fragment shader body:" +++ nl
       +++ bar +++ nl +++ fragment_shader +++ nl +++ bar +++ nl) in
  let subs :=
    weston_log_subscription_printf subs
      ("Cached GLSL programs:" +++ nl
       +++ "    id: (used secs ago) description +/-flags" +++ nl) in
  fun w =>
    let '(subs, count) :=
      fold_left (fun (acc : list string * Z) (e : ptr * gl_shader) =>
                   let (subs, count) := acc in
                   let count := count + 1 in
                   (weston_log_subscription_printf subs
                      (report_line now (snd e)), count))
                (shader_list w) (subs, 0) in
    (weston_log_subscription_printf subs
       ("Total: " +++ fmt_d count +++ " programs." +++ nl), w).
End Shaders.

(** ** The cache operations of the renderer *)

Section Cache.
Context {drv : gl_driver} {src : shader_sources}.

(** The first linked shader whose key compares equal, as
    [wl_list_for_each] meets them. *)
Fixpoint find_shader (requirements : gl_shader_requirements)
    (l : list (ptr * gl_shader)) : option ptr :=
  match l with
  | [] => None
  | (p, shader) :: l' =>
      if gl_shader_requirements_cmp requirements (Shader.key shader) =? 0
      then Some p
      else find_shader requirements l'
  end.

(** Modelled from the spec: get_or_create, the renderer's lookup in front
    of [gl_shader_create], is not among the sources.  An exact-match
    lookup against all cached entries; on a hit the existing entry is
    returned unchanged, on a miss the entry is created. *)
Definition get_or_create (requirements : gl_shader_requirements)
    : M (option ptr) :=
  fun w =>
    match find_shader requirements (shader_list w) with
    | Some p => (Some p, w)
    | None => gl_shader_create requirements w
    end.

Fixpoint destroy_each (ps : list ptr) : M unit :=
  match ps with
  | [] => ret tt
  | p :: ps' => gl_shader_destroy p ;; destroy_each ps'
  end.

(** Modelled from the spec: destroy_all, the renderer's loop over its
    shader list at teardown, is not among the sources.  It releases every
    cached program and empties the store: [gl_shader_destroy] on each
    linked shader. *)
Definition destroy_all : M unit :=
  fun w => destroy_each (map fst (shader_list w)) w.

(** The dump of the spec is the report for a new subscriber. *)
Definition dump : M (list string) :=
  gl_shader_scope_new_subscription [].

Inductive cache_op : Type :=
| GetOrCreate (requirements : gl_shader_requirements)
| DestroyAll
| Dump.

Definition run_op (w : world) (o : cache_op) : world :=
  match o with
  | GetOrCreate requirements => snd (get_or_create requirements w)
  | DestroyAll => snd (destroy_all w)
  | Dump => snd (dump w)
  end.

Definition run_ops (ops : list cache_op) (w : world) : world :=
  fold_left run_op ops w.
End Cache.

(** * Vocabulary of the properties *)

(** ** The stages of gl_shader_create

    The names the driver hands out in a call made in world [w], the calls
    each stage makes in the order it makes them, and what the driver
    answers when a stage asks for its status. *)

Section Stages.
Context {drv : gl_driver} {src : shader_sources}.
Variables (R : gl_shader_requirements) (w : world).

Definition vertex_name : GLuint :=
  max_of (gl_shaders (gl w) ++ gl_programs (gl w)) + 1.

Definition fragment_name : GLuint :=
  max_of ((vertex_name :: gl_shaders (gl w)) ++ gl_programs (gl w)) + 1.

Definition program_name : GLuint :=
  max_of ((fragment_name :: vertex_name :: gl_shaders (gl w))
          ++ gl_programs (gl w)) + 1.

Definition config_text : string :=
  ("#define DEF_GREEN_TINT " +++ (if green_tint R then "true" else "false")
   +++ nl +++ "#define DEF_VARIANT "
   +++ gl_shader_texture_variant_to_string (variant R) +++ nl)%string.

Definition fragment_sources : list string :=
  [("#version 100" +++ nl)%string; config_text; fragment_shader].

Definition vertex_calls : list gl_call :=
  [CreateShader GL_VERTEX_SHADER vertex_name;
   ShaderSource vertex_name [vertex_shader];
   CompileShader vertex_name].

Definition vertex_ok : bool :=
  driver_compile_status (rev vertex_calls ++ gl_calls (gl w)) vertex_name.

Definition fragment_calls : list gl_call :=
  [GetShaderiv_COMPILE_STATUS vertex_name true;
   CreateShader GL_FRAGMENT_SHADER fragment_name;
   ShaderSource fragment_name fragment_sources;
   CompileShader fragment_name].

Definition fragment_ok : bool :=
  driver_compile_status
    (rev (vertex_calls ++ fragment_calls) ++ gl_calls (gl w)) fragment_name.

Definition link_calls : list gl_call :=
  [GetShaderiv_COMPILE_STATUS fragment_name true;
   CreateProgram program_name;
   AttachShader program_name vertex_name;
   AttachShader program_name fragment_name;
   BindAttribLocation program_name 0 "position";
   BindAttribLocation program_name 1 "texcoord";
   LinkProgram program_name].

Definition link_ok : bool :=
  driver_link_status
    (rev (vertex_calls ++ fragment_calls ++ link_calls) ++ gl_calls (gl w))
    program_name.

Definition uniform_calls : list gl_call :=
  [GetUniformLocation program_name "proj";
   GetUniformLocation program_name "tex";
   GetUniformLocation program_name "tex1";
   GetUniformLocation program_name "tex2";
   GetUniformLocation program_name "alpha";
   GetUniformLocation program_name "unicolor"].

(** The ways out of the function. *)
Inductive create_outcome : Type :=
| Created
| LinkFailed
| FragmentFailed
| VertexFailed.

Definition outcome : create_outcome :=
  if vertex_ok then
    if fragment_ok then
      if link_ok then Created else LinkFailed
    else FragmentFailed
  else VertexFailed.

(** Every call a run of the function makes, in the order it makes them. *)
Definition create_calls : list gl_call :=
  vertex_calls ++
  match outcome with
  | VertexFailed =>
      [GetShaderiv_COMPILE_STATUS vertex_name false;
       GetShaderInfoLog vertex_name 512]
  | FragmentFailed =>
      fragment_calls ++
      [GetShaderiv_COMPILE_STATUS fragment_name false;
       GetShaderInfoLog fragment_name 512;
       DeleteShader vertex_name]
  | LinkFailed =>
      fragment_calls ++ link_calls ++
      [GetProgramiv_LINK_STATUS program_name false;
       GetProgramInfoLog program_name 512;
       DeleteProgram program_name;
       DeleteShader fragment_name;
       DeleteShader vertex_name]
  | Created =>
      fragment_calls ++ link_calls ++
      [GetProgramiv_LINK_STATUS program_name true;
       DeleteShader vertex_name;
       DeleteShader fragment_name] ++
      uniform_calls
  end.

(** The shader and program objects a run leaves alive. *)
Definition shaders_left : list GLuint :=
  match outcome with
  | VertexFailed => [vertex_name]
  | FragmentFailed => [fragment_name]
  | LinkFailed | Created => []
  end.

Definition programs_left : list GLuint :=
  match outcome with
  | Created => [program_name]
  | _ => []
  end.

(** The driver's message about the stage that failed, cut to the buffer
    of 512 bytes the code reads it into. *)
Definition create_message : string :=
  match outcome with
  | VertexFailed =>
      truncate_log 512
        (driver_shader_info_log
           (GetShaderiv_COMPILE_STATUS vertex_name false
            :: rev vertex_calls ++ gl_calls (gl w))
           vertex_name)
  | FragmentFailed =>
      truncate_log 512
        (driver_shader_info_log
           (GetShaderiv_COMPILE_STATUS fragment_name false
            :: rev (vertex_calls ++ fragment_calls) ++ gl_calls (gl w))
           fragment_name)
  | LinkFailed =>
      truncate_log 512
        (driver_program_info_log
           (GetProgramiv_LINK_STATUS program_name false
            :: rev (vertex_calls ++ fragment_calls ++ link_calls)
               ++ gl_calls (gl w))
           program_name)
  | Created => EmptyString
  end.

(** What a run adds to the compositor's log, given the driver's message. *)
Definition create_log (msg : string) : list string :=
  match outcome with
  | VertexFailed =>
      [("shader info: " +++ msg +++ nl)%string;
       ("shader source:" +++ nl)%string;
       dump_text [vertex_shader] +++ nl]
  | FragmentFailed =>
      [("shader info: " +++ msg +++ nl)%string;
       ("shader source:" +++ nl)%string;
       dump_text fragment_sources +++ nl]
  | LinkFailed => [("link info: " +++ msg +++ nl)%string]
  | Created => []
  end.
End Stages.

(** ** Reading a list of calls *)

(** The texts given to [glShaderSource], in the order of the calls, each
    with the type its shader object was created with. *)
Fixpoint submissions (types : list (GLuint * shader_type))
    (calls : list gl_call) : list (shader_type * list string) :=
  match calls with
  | [] => []
  | CreateShader type s :: calls' => submissions ((s, type) :: types) calls'
  | ShaderSource s sources :: calls' =>
      match find (fun e => fst e =? s) types with
      | Some (_, type) => (type, sources) :: submissions types calls'
      | None => submissions types calls'
      end
  | _ :: calls' => submissions types calls'
  end.

(** The shader objects [compile_shader] returned: the ones whose compile
    status was read as true. *)
Fixpoint compiled_shaders (calls : list gl_call) : list GLuint :=
  match calls with
  | [] => []
  | GetShaderiv_COMPILE_STATUS s true :: calls' => s :: compiled_shaders calls'
  | _ :: calls' => compiled_shaders calls'
  end.

(** How often [glDeleteShader] was called on a name. *)
Fixpoint shader_deletions (s : GLuint) (calls : list gl_call) : nat :=
  match calls with
  | [] => O
  | DeleteShader s' :: calls' =>
      if s' =? s then S (shader_deletions s calls')
      else shader_deletions s calls'
  | _ :: calls' => shader_deletions s calls'
  end.

(** The programs [glDeleteProgram] was called on, in the order of the
    calls. *)
Fixpoint programs_deleted (calls : list gl_call) : list GLuint :=
  match calls with
  | [] => []
  | DeleteProgram p :: calls' => p :: programs_deleted calls'
  | _ :: calls' => programs_deleted calls'
  end.

(** ** Well-formed caches *)

(** How many linked shaders have a key equal to [requirements]. *)
Definition count_key (requirements : gl_shader_requirements)
    (l : list (ptr * gl_shader)) : nat :=
  List.length (filter (fun e => gl_shader_requirements_cmp requirements
                             (Shader.key (snd e)) =? 0) l).

(** No two linked shaders at one address: what a [wl_list] is. *)
Definition wl_list_ok (l : list (ptr * gl_shader)) : Prop :=
  NoDup (map fst l).

(** At most one linked shader for a key, and no two at one address. *)
Definition cache_ok (l : list (ptr * gl_shader)) : Prop :=
  wl_list_ok l /\ forall R, (count_key R l <= 1)%nat.

(** ** A driver and sources to run the code on *)

Module Mock.
(** Compiles and links everything. *)
Definition accepting : gl_driver := {|
  driver_compile_status := fun _ _ => true;
  driver_shader_info_log := fun _ _ => EmptyString;
  driver_link_status := fun _ _ => true;
  driver_program_info_log := fun _ _ => EmptyString;
  driver_uniform_location := fun _ _ name => Z.of_nat (String.length name)
|}.

(** Rejects every shader. *)
Definition rejecting : gl_driver := {|
  driver_compile_status := fun _ _ => false;
  driver_shader_info_log := fun _ _ => "0:1: syntax error"%string;
  driver_link_status := fun _ _ => true;
  driver_program_info_log := fun _ _ => EmptyString;
  driver_uniform_location := fun _ _ _ => -1
|}.

(** Compiles the first shader it is asked about and rejects the ones
    after it. *)
Definition rejecting_second : gl_driver := {|
  driver_compile_status := fun calls s => s =? 1;
  driver_shader_info_log := fun _ _ => "0:3: undeclared identifier"%string;
  driver_link_status := fun _ _ => true;
  driver_program_info_log := fun _ _ => EmptyString;
  driver_uniform_location := fun _ _ _ => -1
|}.

(** Compiles everything and links nothing. *)
Definition not_linking : gl_driver := {|
  driver_compile_status := fun _ _ => true;
  driver_shader_info_log := fun _ _ => EmptyString;
  driver_link_status := fun _ _ => false;
  driver_program_info_log := fun _ _ => "varying mismatch"%string;
  driver_uniform_location := fun _ _ _ => -1
|}.

Definition sources : shader_sources := {|
  vertex_shader := ("void main() {" +++ nl +++ "}" +++ nl)%string;
  fragment_shader := ("void main() {" +++ nl +++ "}" +++ nl)%string
|}.

(** A renderer with no shader yet, a fresh GL context and nobody
    subscribed to the shader scope. *)
Definition empty : world :=
  mk_world false [] [] (mk_timespec 100 0) (mk_gl_context [] [] []) [].
End Mock.

(** ** Reading a dump *)

(** The text whose lines, each ended by a newline, are [lines], followed by
    [rest]. *)
Fixpoint join_lines (lines : list string) (rest : string) : string :=
  match lines with
  | [] => rest
  | l :: lines' => l +++ nl +++ join_lines lines' rest
  end.

(** A text without a newline. *)
Fixpoint no_newline (s : string) : bool :=
  match s with
  | EmptyString => true
  | String c s' => negb (Ascii.eqb c "010"%char) && no_newline s'
  end.

(** The lines of a text, each after its number in a field of six, a colon
    and a space; the numbers start at [n]. *)
Fixpoint numbered (n : Z) (lines : list string) (rest : string) : string :=
  match lines with
  | [] => fmt_6d n +++ ": " +++ rest
  | l :: lines' => fmt_6d n +++ ": " +++ l +++ nl +++ numbered (n + 1) lines' rest
  end.

(** What one source adds to the stream, and the line counter after it. *)
Fixpoint render (new_line : bool) (line : Z) (lines : list string)
    (rest : string) : string * Z :=
  match lines with
  | [] => if new_line then (fmt_6d line +++ ": " +++ rest, line + 1)
          else (rest, line)
  | l :: lines' =>
      let (t, m) := render true (if new_line then line + 1 else line)
                      lines' rest in
      ((if new_line then fmt_6d line +++ ": " else EmptyString)
       +++ l +++ nl +++ t, m)
  end.

(** * The image client (simple-color-management-image.c)

    The client reads one frame of raw pixels from a file into a dmabuf and
    shows it.  Embedded here: the command line helpers, the allocation of
    a buffer and the planes announced for it, the functions that copy a
    frame into the mapping of a buffer, and the redraw cycle with its busy
    flag.

    Conventions of the embedding.
    - A value of type [int] is an integer of [Z].  Arithmetic in [int]
      that leaves the range of [int] has no defined result in C; the
      properties about sizes state the range they hold in.  Conversions
      to [uint32_t] and arithmetic in [unsigned long] wrap, and the wrap is
      written out.
    - A byte is an integer of [Z]; a block of memory is the list of its
      bytes and a pointer into it is an offset.  An access outside a block
      has no defined behaviour: the functions that read and write memory
      return [None] for it.
    - The file the image is read from is the list of its bytes and a
      position.
    - What the client prints, and what it asks of the DRM device, of the
      compositor and of the toolkit, is recorded as a list of events in
      the order they happen. *)

(** ** Integers *)

Definition INT_MAX : Z := 2147483647.

Definition uint32 (z : Z) : Z := z mod 4294967296.

Definition ulong (z : Z) : Z := z mod 18446744073709551616.

(** A [uint32_t] printed with [%d]. *)
Definition fmt_d_uint32 (z : Z) : string :=
  fmt_d (if z <? 2147483648 then z else z - 4294967296).

(** ** Pixel formats *)

(** [fourcc_code] of drm_fourcc.h. *)
Definition fourcc_code (a b c d : ascii) : Z :=
  Z.lor (Z.of_N (N_of_ascii a))
    (Z.lor (Z.shiftl (Z.of_N (N_of_ascii b)) 8)
       (Z.lor (Z.shiftl (Z.of_N (N_of_ascii c)) 16)
              (Z.shiftl (Z.of_N (N_of_ascii d)) 24))).

Definition DRM_FORMAT_P010 : Z := fourcc_code "P" "0" "1" "0".

(** The formats the client takes from drm_fourcc.h. *)
Definition DRM_FORMAT_YUV420 : Z := fourcc_code "Y" "U" "1" "2".
Definition DRM_FORMAT_NV12 : Z := fourcc_code "N" "V" "1" "2".
Definition DRM_FORMAT_XRGB8888 : Z := fourcc_code "X" "R" "2" "4".
Definition DRM_FORMAT_ARGB8888 : Z := fourcc_code "A" "R" "2" "4".
Definition DRM_FORMAT_BGRA8888 : Z := fourcc_code "B" "A" "2" "4".
Definition DRM_FORMAT_ARGB2101010 : Z := fourcc_code "A" "R" "3" "0".
Definition DRM_FORMAT_ABGR2101010 : Z := fourcc_code "A" "B" "3" "0".

(** ** The command line helpers *)

(** The argument is [None] for a NULL pointer. *)
Definition parse_pixel_format (c : option string) : Z :=
  match c with
  | Some c =>
      if (c =? "YUV420")%string then DRM_FORMAT_YUV420
      else if (c =? "NV12")%string then DRM_FORMAT_NV12
      else if (c =? "XRGB8888")%string then DRM_FORMAT_XRGB8888
      else if (c =? "ARGB8888")%string then DRM_FORMAT_ARGB8888
      else if (c =? "BGRA8888")%string then DRM_FORMAT_BGRA8888
      else if (c =? "ABGR2101010")%string then DRM_FORMAT_ABGR2101010
      else if (c =? "ARGB2101010")%string then DRM_FORMAT_ARGB2101010
      else if (c =? "P010")%string then DRM_FORMAT_P010
      else DRM_FORMAT_XRGB8888
  | None => DRM_FORMAT_XRGB8888
  end.

(** [tolower] in the C locale. *)
Definition tolower (c : ascii) : ascii :=
  let n := N_of_ascii c in
  if ((65 <=? n) && (n <=? 90))%N then ascii_of_N (n + 32) else c.

(** [strcasecmp(a, b) == 0] *)
Fixpoint strcasecmp_eq (a b : string) : bool :=
  match a, b with
  | EmptyString, EmptyString => true
  | String x a', String y b' =>
      Ascii.eqb (tolower x) (tolower y) && strcasecmp_eq a' b'
  | _, _ => false
  end.

(** [c[0]]: the terminator when the string is empty. *)
Definition first_char (c : string) : ascii :=
  match c with
  | EmptyString => zero
  | String x _ => x
  end.

Definition is_true (c : option string) : Z :=
  match c with
  | Some c =>
      if Ascii.eqb (first_char c) "1" || strcasecmp_eq c "true" then 1 else 0
  | None => 0
  end.

(** ** Memory *)

(** The byte at an offset of a block. *)
Definition load (block : list Z) (i : Z) : option Z :=
  if i <? 0 then None else nth_error block (Z.to_nat i).

(** [block[i] = v] *)
Definition store (block : list Z) (i : Z) (v : Z) : option (list Z) :=
  if (0 <=? i) && (i <? Z.of_nat (List.length block))
  then Some (firstn (Z.to_nat i) block ++ v :: skipn (Z.to_nat i + 1) block)
  else None.

(** [memcpy(dst_block + dst, src_block + src, n)], a size given as an
    [int] being converted to [size_t]. *)
Definition memcpy (dst_block : list Z) (dst : Z) (src_block : list Z)
    (src : Z) (n : Z) : option (list Z) :=
  if (0 <=? dst) && (0 <=? src) && (0 <=? n)
     && (dst + n <=? Z.of_nat (List.length dst_block))
     && (src + n <=? Z.of_nat (List.length src_block))
  then Some (firstn (Z.to_nat dst) dst_block
             ++ firstn (Z.to_nat n) (skipn (Z.to_nat src) src_block)
             ++ skipn (Z.to_nat (dst + n)) dst_block)
  else None.

(** What memory holds before it is written. *)
Class libc : Type := {
  indeterminate : nat -> Z
}.

(** [malloc(size)] for a size given as an [int]: a block of that many
    bytes; none for a negative size, which is a huge [size_t]. *)
Definition malloc {heap : libc} (size : Z) : option (list Z) :=
  if size <? 0 then None
  else Some (map indeterminate (seq 0 (Z.to_nat size))).

(** ** The image file *)

Record FILE : Type := mk_FILE {
  file_bytes : list Z;
  file_position : Z
}.

(** [fseek(fp, 0L, SEEK_END); ftell(fp)] *)
Definition file_size_of (fp : FILE) : Z := Z.of_nat (List.length (file_bytes fp)).

(** [fseek(fp, 0L, SEEK_SET)] *)
Definition rewind (fp : FILE) : FILE := mk_FILE (file_bytes fp) 0.

(** [fread(block, 1, n, fp)]: the bytes from the position on, as many as
    there are up to [n], go to the start of the block; the number of bytes
    read is returned. *)
Definition fread (block : list Z) (n : Z) (fp : FILE)
    : Z * list Z * FILE :=
  let data := firstn (Z.to_nat n)
                (skipn (Z.to_nat (file_position fp)) (file_bytes fp)) in
  let count := Z.of_nat (List.length data) in
  (count, data ++ skipn (List.length data) block,
   mk_FILE (file_bytes fp) (file_position fp + count)).

(** ** Buffers *)

(** [struct buffer]: the fields the code below reads and writes.  [mmap]
    is the memory of the buffer object, which [map_bo] makes the field of
    that name point to. *)
Record buffer : Type := mk_buffer {
  busy : Z;
  dev : option string;
  drm_fd : Z;
  dmabuf_fd : Z;
  mmap : list Z;
  width : Z;
  height : Z;
  bpp : Z;
  stride : Z;
  format : Z;
  bytes_per_pixel : Z
}.

Definition set_busy (v : Z) (b : buffer) : buffer :=
  mk_buffer v (dev b) (drm_fd b) (dmabuf_fd b) (mmap b) (width b) (height b)
  (bpp b) (stride b) (format b) (bytes_per_pixel b).
Definition set_dev (v : option string) (b : buffer) : buffer :=
  mk_buffer (busy b) v (drm_fd b) (dmabuf_fd b) (mmap b) (width b) (height b)
  (bpp b) (stride b) (format b) (bytes_per_pixel b).
Definition set_drm_fd (v : Z) (b : buffer) : buffer :=
  mk_buffer (busy b) (dev b) v (dmabuf_fd b) (mmap b) (width b) (height b)
  (bpp b) (stride b) (format b) (bytes_per_pixel b).
Definition set_dmabuf_fd (v : Z) (b : buffer) : buffer :=
  mk_buffer (busy b) (dev b) (drm_fd b) v (mmap b) (width b) (height b)
  (bpp b) (stride b) (format b) (bytes_per_pixel b).
Definition set_mmap (v : list Z) (b : buffer) : buffer :=
  mk_buffer (busy b) (dev b) (drm_fd b) (dmabuf_fd b) v (width b) (height b)
  (bpp b) (stride b) (format b) (bytes_per_pixel b).
Definition set_width (v : Z) (b : buffer) : buffer :=
  mk_buffer (busy b) (dev b) (drm_fd b) (dmabuf_fd b) (mmap b) v (height b)
  (bpp b) (stride b) (format b) (bytes_per_pixel b).
Definition set_height (v : Z) (b : buffer) : buffer :=
  mk_buffer (busy b) (dev b) (drm_fd b) (dmabuf_fd b) (mmap b) (width b) v
  (bpp b) (stride b) (format b) (bytes_per_pixel b).
Definition set_bpp (v : Z) (b : buffer) : buffer :=
  mk_buffer (busy b) (dev b) (drm_fd b) (dmabuf_fd b) (mmap b) (width b)
  (height b) v (stride b) (format b) (bytes_per_pixel b).
Definition set_stride (v : Z) (b : buffer) : buffer :=
  mk_buffer (busy b) (dev b) (drm_fd b) (dmabuf_fd b) (mmap b) (width b)
  (height b) (bpp b) v (format b) (bytes_per_pixel b).
Definition set_format (v : Z) (b : buffer) : buffer :=
  mk_buffer (busy b) (dev b) (drm_fd b) (dmabuf_fd b) (mmap b) (width b)
  (height b) (bpp b) (stride b) v (bytes_per_pixel b).
Definition set_bytes_per_pixel (v : Z) (b : buffer) : buffer :=
  mk_buffer (busy b) (dev b) (drm_fd b) (dmabuf_fd b) (mmap b) (width b)
  (height b) (bpp b) (stride b) (format b) v.

(** What the client prints and what it asks of the device, the compositor
    and the toolkit. *)
Inductive client_event : Type :=
| stderr (text : string)
| syslog (text : string)
| open_call (fd : Z)
| close_call (fd : Z)
| drm_intel_bufmgr_gem_init_call (fd : Z)
| drm_intel_bufmgr_destroy_call
| drm_intel_bo_alloc_tiled_call (width height cpp : Z)
| drm_intel_bo_unreference_call
| drm_intel_bo_gem_export_to_prime_call
| drm_intel_gem_bo_map_gtt_call
| drm_intel_gem_bo_unmap_gtt_call
| wl_buffer_destroy_call
| zwp_linux_buffer_params_v1_add (fd plane_idx offset stride : Z)
| zwp_linux_buffer_params_v1_create_immed (width height format flags : Z)
| wl_buffer_add_listener
| widget_schedule_redraw
| wl_surface_attach (buffer_index : nat)
| wl_surface_damage (x y width height : Z)
| wl_surface_commit.

(** ** Copying a frame into a buffer *)

(** The loop that copies a plane line by line:
    [for (i = 0; i < rows; i++) { memcpy(dst, src, n); dst += dst_step;
    src += src_step; }] *)
Fixpoint copy_rows (rows : nat) (n dst_step src_step : Z)
    (dst_block : list Z) (dst : Z) (src_block : list Z) (src : Z)
    : option (list Z) :=
  match rows with
  | O => Some dst_block
  | S rows' =>
      match memcpy dst_block dst src_block src n with
      | None => None
      | Some dst_block' =>
          copy_rows rows' n dst_step src_step dst_block' (dst + dst_step)
                    src_block (src + src_step)
      end
  end.

(** [buffer->stride * buffer->height], a product in [unsigned long]. *)
Definition luma_size (b : buffer) : Z := ulong (stride b * height b).

(** The line the copying functions print to stderr. *)
Definition hkps (b : buffer) : client_event :=
  stderr ("hkps width " +++ fmt_d (width b) +++ " height "
          +++ fmt_d (height b) +++ " stride " +++ fmt_d (stride b) +++ nl).

Section Copy.
Context {heap : libc}.

(** Marked incomplete in the source: the luma plane only. *)
Definition copy_yuv420p10_to_p010_to_dma_buf (fp : FILE) (b : buffer)
    : option (FILE * buffer * list client_event) :=
  let bytes_per_pixel := 2 in
  let frame_size := Z.quot (width b * height b * bytes_per_pixel * 3) 2 in
  match malloc frame_size with
  | None => None
  | Some src_buffer =>
      let '(_, src_buffer, fp) := fread src_buffer frame_size fp in
      match copy_rows (Z.to_nat (height b)) (width b * 2) (stride b)
                      (width b * 2) (mmap b) 0 src_buffer 0 with
      | None => None
      | Some m => Some (fp, set_mmap m b, [])
      end
  end.

Definition copy_rgb_to_dma_buf (fp : FILE) (b : buffer)
    : option (FILE * buffer * list client_event) :=
  let frame_size := width b * height b * bytes_per_pixel b in
  match malloc frame_size with
  | None => None
  | Some src_buffer =>
      let '(_, src_buffer, fp) := fread src_buffer frame_size fp in
      match memcpy (mmap b) 0 src_buffer 0 frame_size with
      | None => None
      | Some m => Some (fp, set_mmap m b, [])
      end
  end.

(** The inner loop of the conversion:
    [for (col = 0; col < cols; col++) { uv_dst[col * 2] = u_src[col];
    uv_dst[col * 2 + 1] = v_src[col]; }], [todo] turns being left from
    [col] on. *)
Fixpoint interleave_cols (todo : nat) (col : Z) (dst_block : list Z)
    (uv_dst : Z) (src_block : list Z) (u_src v_src : Z)
    : option (list Z) :=
  match todo with
  | O => Some dst_block
  | S todo' =>
      match load src_block (u_src + col) with
      | None => None
      | Some u =>
          match store dst_block (uv_dst + col * 2) u with
          | None => None
          | Some dst_block =>
              match load src_block (v_src + col) with
              | None => None
              | Some v =>
                  match store dst_block (uv_dst + (col * 2 + 1)) v with
                  | None => None
                  | Some dst_block =>
                      interleave_cols todo' (col + 1) dst_block uv_dst
                                      src_block u_src v_src
                  end
              end
          end
      end
  end.

(** The outer loop: a line of the chroma plane per turn. *)
Fixpoint interleave_rows (rows : nat) (cols : Z) (dst_step src_step : Z)
    (dst_block : list Z) (uv_dst : Z) (src_block : list Z) (u_src v_src : Z)
    : option (list Z) :=
  match rows with
  | O => Some dst_block
  | S rows' =>
      match interleave_cols (Z.to_nat cols) 0 dst_block uv_dst src_block
                            u_src v_src with
      | None => None
      | Some dst_block =>
          interleave_rows rows' cols dst_step src_step dst_block
                          (uv_dst + dst_step) src_block
                          (u_src + src_step) (v_src + src_step)
      end
  end.

Definition convert_yuv420pTonv12_and_copy_to_dma_buf (fp : FILE) (b : buffer)
    : option (FILE * buffer * list client_event) :=
  let y_size := width b * height b in
  let u_size := Z.shiftr (width b) 1 * Z.shiftr (height b) 1 in
  let frame_size := width b * height b + Z.shiftr (width b * height b) 1 in
  let log := [syslog ("frame_size = " +++ fmt_d frame_size +++ ", y_size = "
                      +++ fmt_d y_size +++ " " +++ nl)] in
  match malloc frame_size with
  | None => None
  | Some src_buffer =>
      let '(_, src_buffer, fp) := fread src_buffer frame_size fp in
      let y_src := 0 in
      let u_src := y_src + y_size in
      let v_src := y_src + y_size + u_size in
      let y_dst := 0 in
      let uv_dst := luma_size b in
      match copy_rows (Z.to_nat (height b)) (width b) (stride b) (width b)
                      (mmap b) y_dst src_buffer y_src with
      | None => None
      | Some m =>
          match interleave_rows (Z.to_nat (Z.quot (height b) 2))
                  (Z.quot (width b) 2) (stride b) (Z.quot (width b) 2)
                  m uv_dst src_buffer u_src v_src with
          | None => None
          | Some m => Some (fp, set_mmap m b, log)
          end
      end
  end.

(** What the two functions that rewind the file print about the sizes,
    and about a file that is shorter than a frame. *)
Definition sizes_log (file_size frame_size y_size : Z) : client_event :=
  syslog ("file_size = " +++ fmt_d_uint32 file_size +++ ", frame_size = "
          +++ fmt_d frame_size +++ ", y_size = " +++ fmt_d y_size
          +++ " " +++ nl).

Definition short_read_log (bytes_read frame_size : Z) : list client_event :=
  if bytes_read <? uint32 frame_size
  then [syslog ("Failed to read full frame. bytes_read = "
                +++ fmt_d_uint32 bytes_read +++ " " +++ nl)]
  else [].

(** Marked incomplete in the source. *)
Definition copy_yuv420_to_dma_buf (fp : FILE) (b : buffer)
    : option (FILE * buffer * list client_event) :=
  let bytes_per_pixel := 1 in
  let frame_size := width b * height b + Z.shiftr (width b * height b) 1 in
  let y_size := width b * height b * bytes_per_pixel in
  let u_size := width b * Z.quot (height b) 4 * bytes_per_pixel in
  let file_size := uint32 (file_size_of fp) in
  let fp := rewind fp in
  match malloc frame_size with
  | None => None
  | Some src_buffer =>
      let '(bytes_read, src_buffer, fp) := fread src_buffer frame_size fp in
      let bytes_read := uint32 bytes_read in
      let y_src := 0 in
      let u_src := y_size in
      let v_src := y_size + u_size in
      let y_dst := 0 in
      let u_dst := luma_size b in
      let v_dst := ulong (luma_size b * 5) / 4 in
      match copy_rows (Z.to_nat (height b)) (width b) (stride b) (width b)
                      (mmap b) y_dst src_buffer y_src with
      | None => None
      | Some m =>
          match copy_rows (Z.to_nat (Z.quot (height b) 4)) (width b)
                          (stride b) (width b) m u_dst src_buffer u_src with
          | None => None
          | Some m =>
              match copy_rows (Z.to_nat (Z.quot (height b) 4)) (width b)
                              (stride b) (width b) m v_dst src_buffer
                              v_src with
              | None => None
              | Some m =>
                  Some (fp, set_mmap m b,
                        sizes_log file_size frame_size y_size
                        :: short_read_log bytes_read frame_size ++ [hkps b])
              end
          end
      end
  end.

Definition copy_nv12_to_dma_buf (fp : FILE) (b : buffer)
    : option (FILE * buffer * list client_event) :=
  let frame_size := width b * height b + Z.shiftr (width b * height b) 1 in
  let y_size := width b * height b in
  let file_size := uint32 (file_size_of fp) in
  let fp := rewind fp in
  match malloc frame_size with
  | None => None
  | Some src_buffer =>
      let '(bytes_read, src_buffer, fp) := fread src_buffer frame_size fp in
      let bytes_read := uint32 bytes_read in
      let y_src := 0 in
      let uv_src := y_size in
      let y_dst := 0 in
      let uv_dst := luma_size b in
      match copy_rows (Z.to_nat (height b)) (width b) (stride b) (width b)
                      (mmap b) y_dst src_buffer y_src with
      | None => None
      | Some m =>
          match copy_rows (Z.to_nat (Z.shiftr (height b) 1)) (width b)
                          (stride b) (width b) m uv_dst src_buffer
                          uv_src with
          | None => None
          | Some m =>
              Some (fp, set_mmap m b,
                    sizes_log file_size frame_size y_size
                    :: short_read_log bytes_read frame_size ++ [hkps b])
          end
      end
  end.

Definition copy_p010_to_dma_buf (fp : FILE) (b : buffer)
    : option (FILE * buffer * list client_event) :=
  let bytes_per_pixel := 2 in
  let y_size := width b * height b * 2 in
  let frame_size := Z.quot (width b * height b * bytes_per_pixel * 3) 2 in
  match malloc frame_size with
  | None => None
  | Some src_buffer =>
      let '(_, src_buffer, fp) := fread src_buffer frame_size fp in
      let y_src := 0 in
      let uv_src := y_size in
      let y_dst := 0 in
      let uv_dst := luma_size b in
      match copy_rows (Z.to_nat (height b)) (width b * bytes_per_pixel)
                      (stride b) (width b * bytes_per_pixel)
                      (mmap b) y_dst src_buffer y_src with
      | None => None
      | Some m =>
          match copy_rows (Z.to_nat (Z.shiftr (height b) 1))
                          (width b * bytes_per_pixel) (stride b)
                          (width b * bytes_per_pixel) m uv_dst src_buffer
                          uv_src with
          | None => None
          | Some m => Some (fp, set_mmap m b, [hkps b])
          end
      end
  end.

(** The switch on the format; a format it has no case for leaves the
    buffer as it is. *)
Definition fill_buffer (b : buffer) (fp : FILE)
    : option (FILE * buffer * list client_event) :=
  if format b =? DRM_FORMAT_YUV420 then copy_yuv420_to_dma_buf fp b
  else if format b =? DRM_FORMAT_P010 then copy_p010_to_dma_buf fp b
  else if format b =? DRM_FORMAT_NV12 then copy_nv12_to_dma_buf fp b
  else if (format b =? DRM_FORMAT_XRGB8888)
          || (format b =? DRM_FORMAT_ARGB8888)
          || (format b =? DRM_FORMAT_BGRA8888)
          || (format b =? DRM_FORMAT_ARGB2101010)
          || (format b =? DRM_FORMAT_ABGR2101010)
       then copy_rgb_to_dma_buf fp b
  else Some (fp, b, []).
End Copy.

(** ** The DRM device

    The client as built with HAVE_LIBDRM_INTEL.  What the system and
    libdrm answer is a class of oracles. *)

Definition I915_TILING_NONE : Z := 0.

Class libdrm : Type := {
  (** [open("/dev/dri/renderD128", O_RDWR)] *)
  open_render_node : Z;
  (** [drmGetVersion(fd)->name] *)
  drm_version_name : string;
  (** whether [drm_intel_bufmgr_gem_init] gives a buffer manager *)
  drm_intel_bufmgr_gem_init : bool;
  (** [drm_intel_bo_alloc_tiled] given a width, a height and a number of
      bytes per pixel: no buffer object, or the tiling mode and the pitch
      it chose and the memory of the object *)
  drm_intel_bo_alloc_tiled : Z -> Z -> Z -> option (Z * Z * list Z);
  (** [drm_intel_bo_gem_export_to_prime]: what it returns, and the file
      descriptor it gives when it returns 0 *)
  drm_intel_bo_gem_export_to_prime : Z * Z;
  (** [drm_intel_gem_bo_map_gtt], given what happened so far *)
  drm_intel_gem_bo_map_gtt : list client_event -> Z
}.

(** [%x] of a [uint32_t]. *)
Definition fmt_x (z : Z) : string :=
  HexadecimalString.NilZero.string_of_uint (N.to_hex_uint (Z.to_N (uint32 z))).

Section Drm.
Context {lib : libdrm}.

(** A function of the device changes the buffer, reports events and
    returns an [int]. *)
Definition intel_alloc_bo (b : buffer) : Z * buffer * list client_event :=
  let cpp := Z.quot (bpp b) 8 in
  let call := drm_intel_bo_alloc_tiled_call (width b) (height b) cpp in
  match drm_intel_bo_alloc_tiled (width b) (height b) cpp with
  | None => (0, b, [call])
  | Some (tiling, pitch, memory) =>
      let b := set_mmap memory (set_stride pitch b) in
      if negb (tiling =? I915_TILING_NONE) then (0, b, [call])
      else (1, b, [call])
  end.

Definition intel_free_bo (b : buffer) : list client_event :=
  [drm_intel_bo_unreference_call].

Definition intel_map_bo (b : buffer) (sofar : list client_event)
    : Z * list client_event :=
  if negb (drm_intel_gem_bo_map_gtt sofar =? 0)
  then (0, [drm_intel_gem_bo_map_gtt_call])
  else (1, [drm_intel_gem_bo_map_gtt_call]).

Definition intel_bo_export_to_prime (b : buffer)
    : Z * buffer * list client_event :=
  let (ret, fd) := drm_intel_bo_gem_export_to_prime in
  (ret, (if ret =? 0 then set_dmabuf_fd fd b else b),
   [drm_intel_bo_gem_export_to_prime_call]).

Definition intel_unmap_bo (b : buffer) : list client_event :=
  [drm_intel_gem_bo_unmap_gtt_call].

Definition intel_device_destroy (b : buffer) : list client_event :=
  [drm_intel_bufmgr_destroy_call].

Definition drm_device_destroy (b : buffer) : list client_event :=
  intel_device_destroy b ++ [close_call (drm_fd b)].

Definition drm_device_init (b : buffer) : Z * buffer * list client_event :=
  let name := drm_version_name in
  if (name =? "i915")%string then
    let trace := stderr ("TRACE:: drm device " +++ name +++ " supported."
                         +++ nl) in
    let init := drm_intel_bufmgr_gem_init_call (drm_fd b) in
    if negb drm_intel_bufmgr_gem_init then (0, b, [trace; init])
    else (1, set_dev (Some name) b, [trace; init])
  else
    (0, b, [stderr ("Error: drm device " +++ name +++ " unsupported."
                    +++ nl)]).

Definition drm_connect (b : buffer) : Z * buffer * list client_event :=
  let b := set_drm_fd open_render_node b in
  if drm_fd b <? 0 then (0, b, [open_call (drm_fd b)])
  else
    let '(ret, b, events) := drm_device_init b in
    (ret, b, open_call (drm_fd b) :: events).

Definition drm_shutdown (b : buffer) : list client_event :=
  drm_device_destroy b.

(** ** create_dmabuf_buffer *)

(** The first switch on the format: the height to allocate and the bits
    per pixel.  [height * 3 / 2] is computed in [int]: of a product that
    leaves the range the 32 low bits are kept.  The cases of the RGB
    formats fall through to the default case. *)
Definition allocation_geometry (height' format' : Z) (b : buffer) : buffer :=
  if format' =? DRM_FORMAT_NV12 then
    set_bpp 8 (set_height (Z.quot (to_int (height' * 3)) 2) b)
  else if format' =? DRM_FORMAT_YUV420 then
    set_bpp 8 (set_height (Z.quot (to_int (height' * 3)) 2) b)
  else if format' =? DRM_FORMAT_P010 then
    set_bpp 16 (set_height (Z.quot (to_int (height' * 3)) 2) b)
  else
    let b :=
      if (format' =? DRM_FORMAT_XRGB8888) || (format' =? DRM_FORMAT_ARGB8888)
         || (format' =? DRM_FORMAT_BGRA8888)
         || (format' =? DRM_FORMAT_ARGB2101010)
         || (format' =? DRM_FORMAT_ABGR2101010)
      then set_bytes_per_pixel 4 (set_height height' b)
      else b in
    set_bytes_per_pixel 4 (set_bpp 32 (set_height height' b)).

(** The second switch: the planes after the first. *)
Definition more_planes (format' : Z) (b : buffer) : list client_event :=
  if format' =? DRM_FORMAT_NV12 then
    [zwp_linux_buffer_params_v1_add (dmabuf_fd b) 1
       (uint32 (ulong (stride b * height b))) (uint32 (stride b))]
  else if format' =? DRM_FORMAT_YUV420 then
    [zwp_linux_buffer_params_v1_add (dmabuf_fd b) 1
       (uint32 (ulong (stride b * height b))) (uint32 (stride b / 2));
     zwp_linux_buffer_params_v1_add (dmabuf_fd b) 2
       (uint32 (ulong (ulong (stride b * height b) * 3) / 2))
       (uint32 (stride b / 2))]
  else if format' =? DRM_FORMAT_P010 then
    [zwp_linux_buffer_params_v1_add (dmabuf_fd b) 1
       (uint32 (ulong (stride b * height b))) (uint32 (stride b))]
  else [].

Definition create_dmabuf_buffer (b : buffer) (width' height' format' : Z)
    : Z * buffer * list client_event :=
  let flags := 0 in
  let '(connected, b, connect_events) := drm_connect b in
  if connected =? 0 then
    (-1, b, connect_events ++ [stderr ("drm_connect failed" +++ nl)])
  else
    let b := set_format format' (set_height height' (set_width width' b)) in
    let b := allocation_geometry height' format' b in
    let '(allocated, b, alloc_events) := intel_alloc_bo b in
    if allocated =? 0 then
      (-1, b,
       connect_events ++ alloc_events
       ++ [stderr ("alloc_bo failed" +++ nl)]
       ++ drm_shutdown b)
    else
      let '(exported, b, export_events) := intel_bo_export_to_prime b in
      if negb (exported =? 0) then
        (-1, b,
         connect_events ++ alloc_events ++ export_events
         ++ [stderr ("gem_export_to_prime failed" +++ nl)]
         ++ intel_free_bo b ++ drm_shutdown b)
      else if dmabuf_fd b <? 0 then
        (-1, b,
         connect_events ++ alloc_events ++ export_events
         ++ [stderr ("error: dmabuf_fd < 0" +++ nl)]
         ++ intel_free_bo b ++ drm_shutdown b)
      else
        let b := set_height height' b in
        (0, b,
         connect_events ++ alloc_events ++ export_events
         ++ [syslog ("buffer->width = " +++ fmt_d (width b)
                     +++ " , buffer->height = " +++ fmt_d (height b)
                     +++ ", buffer->stride = " +++ fmt_d (stride b)
                     +++ ", format = 0x" +++ fmt_x (format b) +++ " "
                     +++ nl);
             zwp_linux_buffer_params_v1_add (dmabuf_fd b) 0 0
               (uint32 (stride b))]
         ++ more_planes format' b
         ++ [zwp_linux_buffer_params_v1_create_immed
               (width b) (height b) (uint32 format') flags;
             wl_buffer_add_listener]).

Definition destroy_dmabuf_buffer (b : buffer) : list client_event :=
  [wl_buffer_destroy_call; close_call (dmabuf_fd b)]
  ++ intel_free_bo b ++ drm_shutdown b.

(** ** The redraw cycle *)

Definition NUM_BUFFERS : nat := 1.

(** [struct app], named so as to leave [app] to the lists: the image with
    its file and its buffers, and what has happened so far. *)
Record client_app : Type := mk_app {
  image_fp : FILE;
  image_buffers : list buffer;
  events : list client_event
}.

(** The listener of a buffer: the compositor has released the buffer at
    this index. *)
Definition buffer_release (i : nat) (a : client_app) : client_app :=
  match nth_error (image_buffers a) i with
  | None => a
  | Some b =>
      mk_app (image_fp a)
             (firstn i (image_buffers a) ++ set_busy 0 b
              :: skipn (S i) (image_buffers a))
             (events a)
  end.

(** The loop of [image_next_buffer] from index [i] on, [todo] turns being
    left; the index of the buffer found stands for the pointer to it.  The
    array of the image has [NUM_BUFFERS] elements: a list that ends before
    the loop does has no counterpart in the C. *)
Fixpoint next_buffer_from (i todo : nat) (buffers : list buffer)
    : option nat :=
  match todo with
  | O => None
  | S todo' =>
      match nth_error buffers i with
      | None => None
      | Some b =>
          if busy b =? 0 then Some i
          else next_buffer_from (S i) todo' buffers
      end
  end.

Definition image_next_buffer (buffers : list buffer) : option nat :=
  next_buffer_from 0 NUM_BUFFERS buffers.
End Drm.

Section Redraw.
Context {lib : libdrm} {heap : libc}.

Definition redraw_handler (a : client_app) : option client_app :=
  match image_next_buffer (image_buffers a) with
  | None =>
      Some (mk_app (image_fp a) (image_buffers a)
                   (events a ++ [widget_schedule_redraw]))
  | Some i =>
      match nth_error (image_buffers a) i with
      | None => None
      | Some b =>
          let (mapped, map_events) := intel_map_bo b (events a) in
          if mapped =? 0 then
            Some (mk_app (image_fp a) (image_buffers a)
                         (events a ++ map_events
                          ++ [stderr ("map_bo failed" +++ nl)]))
          else
            match fill_buffer b (image_fp a) with
            | None => None
            | Some (fp, b, fill_events) =>
                let b' := set_busy 1 b in
                Some (mk_app fp
                        (firstn i (image_buffers a) ++ b'
                         :: skipn (S i) (image_buffers a))
                        (events a ++ map_events ++ fill_events
                         ++ intel_unmap_bo b
                         ++ [wl_surface_attach i;
                             wl_surface_damage 0 0 (width b) (height b);
                             wl_surface_commit]))
            end
      end
  end.
End Redraw.

(** * Vocabulary of the properties of the client *)

(** The names of the formats, as the command line spells them. *)
Definition format_names : list (string * Z) :=
  [("YUV420", DRM_FORMAT_YUV420); ("NV12", DRM_FORMAT_NV12);
   ("XRGB8888", DRM_FORMAT_XRGB8888); ("ARGB8888", DRM_FORMAT_ARGB8888);
   ("BGRA8888", DRM_FORMAT_BGRA8888);
   ("ABGR2101010", DRM_FORMAT_ABGR2101010);
   ("ARGB2101010", DRM_FORMAT_ARGB2101010); ("P010", DRM_FORMAT_P010)]%string.

(** A letter in either case. *)
Definition either_case (lower upper x : ascii) : Prop :=
  x = lower \/ x = upper.

(** The formats with a luma plane and chroma below it. *)
Definition planar_yuv (f : Z) : bool :=
  (f =? DRM_FORMAT_NV12) || (f =? DRM_FORMAT_YUV420) || (f =? DRM_FORMAT_P010).

(** The lines [create_dmabuf_buffer] asks the allocator for, whatever the
    height. *)
Definition lines_asked (h f : Z) : Z :=
  if planar_yuv f then Z.quot (to_int (h * 3)) 2 else h.

(** Three halves of the height for the planar formats: the lines asked
    for while [h * 3] is within [int]. *)
Definition allocated_rows (h f : Z) : Z :=
  if planar_yuv f then Z.quot (h * 3) 2 else h.

(** The bits per pixel asked for. *)
Definition allocated_bpp (f : Z) : Z :=
  if f =? DRM_FORMAT_P010 then 16
  else if (f =? DRM_FORMAT_NV12) || (f =? DRM_FORMAT_YUV420) then 8
  else 32.

(** The largest number the copy of a frame of [w] by [h] pixels computes
    in [int] for its [frame_size]: the bytes of the frame, and for P010
    the product [w * h * 2 * 3] that is then halved. *)
Definition frame_bytes (w h f : Z) : Z :=
  if f =? DRM_FORMAT_P010 then w * h * 2 * 3
  else if (f =? DRM_FORMAT_NV12) || (f =? DRM_FORMAT_YUV420)
       then w * h + w * h / 2
  else w * h * 4.

(** What is said to the compositor about a buffer. *)
Definition announces (e : client_event) : bool :=
  match e with
  | zwp_linux_buffer_params_v1_add _ _ _ _
  | zwp_linux_buffer_params_v1_create_immed _ _ _ _
  | wl_buffer_add_listener => true
  | _ => false
  end.

(** Whether a call of [drm_intel_bo_alloc_tiled] is among the events. *)
Definition is_alloc (e : client_event) : bool :=
  match e with
  | drm_intel_bo_alloc_tiled_call _ _ _ => true
  | _ => false
  end.

(** What [drm_connect] does and prints. *)
Definition connects (e : client_event) : bool :=
  match e with
  | stderr _ | open_call _ | drm_intel_bufmgr_gem_init_call _ => true
  | _ => false
  end.

(** ** A device, a heap and files to run the client on *)

Module MockClient.
(** Fresh memory holds 170 in every byte. *)
Definition heap : libc := {| indeterminate := fun _ => 170 |}.

(** The pitch the mock device chooses: the bytes of a line, rounded up to
    a multiple of four. *)
Definition pitch (w cpp : Z) : Z := 4 * ((w * cpp + 3) / 4).

(** An i915 device that grants everything: untiled buffer objects of
    [pitch * h] zeroed bytes. *)
Definition i915 : libdrm := {|
  open_render_node := 3;
  drm_version_name := "i915";
  drm_intel_bufmgr_gem_init := true;
  drm_intel_bo_alloc_tiled := fun w h cpp =>
    Some (I915_TILING_NONE, pitch w cpp,
          repeat 0 (Z.to_nat (pitch w cpp * h)));
  drm_intel_bo_gem_export_to_prime := (0, 4);
  drm_intel_gem_bo_map_gtt := fun _ => 0
|}.

(** A device of another kind. *)
Definition amdgpu : libdrm := {|
  open_render_node := 3;
  drm_version_name := "amdgpu";
  drm_intel_bufmgr_gem_init := true;
  drm_intel_bo_alloc_tiled := fun _ _ _ => None;
  drm_intel_bo_gem_export_to_prime := (0, 4);
  drm_intel_gem_bo_map_gtt := fun _ => 0
|}.

(** A file of [n] bytes: 1, 2, 3 and so on. *)
Definition file (n : nat) : FILE := mk_FILE (map Z.of_nat (seq 1 n)) 0.

(** A buffer as [xzalloc] leaves it. *)
Definition blank : buffer := mk_buffer 0 None 0 0 [] 0 0 0 0 0 0.

(** A mapped buffer of [size] zeroed bytes. *)
Definition mapped (w h s f cpp : Z) (size : nat) : buffer :=
  mk_buffer 0 (Some "i915"%string) 3 4 (repeat 0 size) w h (cpp * 8) s f cpp.
End MockClient.

(** * Properties *)

(** ** Object names and addresses are fresh *)

Lemma max_of_nonneg (l : list Z) : 0 <= max_of l.
Proof. induction l as [|a l IH]; simpl; lia. Qed.

Lemma max_of_ge (l : list Z) (x : Z) : In x l -> x <= max_of l.
Proof.
  induction l as [|a l IH]; simpl; [tauto|].
  intros [->|H]; [lia|]. specialize (IH H). lia.
Qed.

Lemma max_of_fresh (l : list Z) : ~ In (max_of l + 1) l.
Proof. intros H. apply max_of_ge in H. lia. Qed.

Lemma max_of_succ_nonzero (l : list Z) : (max_of l + 1 =? GL_NONE) = false.
Proof.
  apply Z.eqb_neq. unfold GL_NONE. pose proof (max_of_nonneg l). lia.
Qed.

Lemma max_of_notin (l l' : list Z) : incl l' l -> ~ In (max_of l + 1) l'.
Proof. intros Hi H. apply Hi in H. now apply max_of_fresh in H. Qed.

Lemma max_of_neq (l : list Z) (x : Z) : In x l -> max_of l + 1 <> x.
Proof. intros H E. apply max_of_ge in H. lia. Qed.

Ltac fresh_name :=
  first
    [ apply max_of_notin; intros a Ha; simpl in *; rewrite ?in_app_iff; tauto
    | apply max_of_neq; simpl; rewrite ?in_app_iff; tauto
    | apply not_eq_sym, max_of_neq; simpl; rewrite ?in_app_iff; tauto ].

Lemma remove_head_fresh (x : Z) (l : list Z) :
  ~ In x l -> remove Z.eq_dec x (x :: l) = l.
Proof.
  intros H. simpl. destruct (Z.eq_dec x x) as [_|n]; [|contradiction].
  now apply notin_remove.
Qed.

Lemma remove_second_fresh (x y : Z) (l : list Z) :
  x <> y -> ~ In y l -> remove Z.eq_dec y (x :: y :: l) = x :: l.
Proof.
  intros Hxy H. simpl.
  destruct (Z.eq_dec y x) as [e|_]; [congruence|].
  destruct (Z.eq_dec y y) as [_|n]; [|contradiction].
  now rewrite notin_remove.
Qed.

(** ** gl_shader_create, stage by stage *)

Ltac world_simpl :=
  unfold set_gl, set_log_out, set_shader_scope_out, set_shader_list, gl_record;
  cbn [fst snd gl shader_list gl_calls gl_shaders gl_programs log_out
       shader_scope_enabled shader_scope_out presentation_clock].

Section CreateSpec.
Context {drv : gl_driver} {src : shader_sources}.

Lemma compile_shader_eq type sources w :
  compile_shader type sources w =
  let s := gl_gen_name (gl w) in
  let calls := CompileShader s :: ShaderSource s sources
               :: CreateShader type s :: gl_calls (gl w) in
  if driver_compile_status calls s then
    (s, set_gl (mk_gl_context (s :: gl_shaders (gl w)) (gl_programs (gl w))
                  (GetShaderiv_COMPILE_STATUS s true :: calls)) w)
  else
    let msg := truncate_log 512
                 (driver_shader_info_log
                    (GetShaderiv_COMPILE_STATUS s false :: calls) s) in
    (GL_NONE,
     set_log_out (log_out w ++ [("shader info: " +++ msg +++ nl)%string;
                                ("shader source:" +++ nl)%string;
                                dump_text sources +++ nl])
       (set_gl (mk_gl_context (s :: gl_shaders (gl w)) (gl_programs (gl w))
                  (GetShaderInfoLog s 512
                   :: GetShaderiv_COMPILE_STATUS s false :: calls)) w)).
Proof.
  unfold compile_shader, dump_program_with_line_numbers, glCreateShader,
    glShaderSource, glCompileShader, glGetShaderiv_COMPILE_STATUS,
    glGetShaderInfoLog, weston_log, weston_log_continue, gl_call_void,
    bind, ret.
  world_simpl. cbv zeta.
  destruct (driver_compile_status _ _); cbn [negb]; world_simpl.
  - reflexivity.
  - repeat rewrite <- app_assoc. reflexivity.
Qed.

Ltac exec :=
  cbv beta iota zeta delta
    [gl_shader_create error_link error_fragment error_vertex
     zalloc weston_log_scope_is_enabled create_shader_config_string asprintf
     glCreateProgram glAttachShader glBindAttribLocation glLinkProgram
     glGetProgramiv_LINK_STATUS glGetProgramInfoLog glDeleteProgram
     glDeleteShader glGetUniformLocation wl_list_insert weston_log
     weston_log_scope_printf gl_call_void bind ret gl_gen_name
     set_gl set_log_out set_shader_scope_out set_shader_list gl_record
     fst snd gl shader_list gl_calls gl_shaders gl_programs log_out
     shader_scope_enabled shader_scope_out presentation_clock
     Shader.key Shader.program Shader.vertex_shader Shader.fragment_shader
     Shader.proj_uniform Shader.tex_uniforms Shader.alpha_uniform
     Shader.color_uniform Shader.last_used
     Shader.set_key Shader.set_program Shader.set_vertex_shader
     Shader.set_fragment_shader Shader.set_uniforms Shader.zero negb
     vertex_name fragment_name program_name config_text fragment_sources
     vertex_calls vertex_ok fragment_calls fragment_ok link_calls link_ok
     uniform_calls outcome create_calls shaders_left programs_left create_log
     create_message
     GLuint GLint ptr];
  cbn [rev app].

Ltac case_status :=
  match goal with
  | |- context [if driver_compile_status ?c ?s then _ else _] =>
      destruct (driver_compile_status c s)
  | |- context [if driver_link_status ?c ?s then _ else _] =>
      destruct (driver_link_status c s)
  end.

Ltac after_compile :=
  try rewrite max_of_succ_nonzero;
  try change (GL_NONE =? GL_NONE) with true;
  exec.

(** What a call does: the calls the driver receives, the objects left
    alive, and what becomes of the shader list and of the logs on each way
    out. *)
Lemma gl_shader_create_spec (R : gl_shader_requirements) (w : world) :
  let r := fst (gl_shader_create R w) in
  let w' := snd (gl_shader_create R w) in
  shader_scope_enabled w' = shader_scope_enabled w /\
  presentation_clock w' = presentation_clock w /\
  shader_scope_out w' =
    shader_scope_out w ++
    (if shader_scope_enabled w
     then [("Compiling shader program for: "
            +++ fmt_s (create_shader_description_string R) +++ nl)%string]
     else []) /\
  gl_calls (gl w') = rev (create_calls R w) ++ gl_calls (gl w) /\
  gl_shaders (gl w') = shaders_left R w ++ gl_shaders (gl w) /\
  gl_programs (gl w') = programs_left R w ++ gl_programs (gl w) /\
  log_out w' = log_out w ++ create_log R w (create_message R w) /\
  match outcome R w with
  | Created =>
      exists shader,
        r = Some (max_of (map fst (shader_list w)) + 1) /\
        shader_list w' =
          (max_of (map fst (shader_list w)) + 1, shader) :: shader_list w /\
        Shader.key shader = R /\
        Shader.program shader = program_name w /\
        Shader.vertex_shader shader = vertex_name w /\
        Shader.fragment_shader shader = fragment_name w /\
        Shader.last_used shader = mk_timespec 0 0
  | _ => r = None /\ shader_list w' = shader_list w
  end.
Proof.
  destruct w as [en out l clk [S P C] lg].
  cbv zeta.
  destruct en; exec; rewrite compile_shader_eq; exec.
  all: case_status; after_compile.
  all: try (rewrite compile_shader_eq; exec).
  all: try (case_status; after_compile).
  all: try (case_status; exec).
  all: repeat split.
  all: try (eexists; repeat split; try reflexivity).
  all: rewrite ?remove_second_fresh by fresh_name.
  all: rewrite ?remove_head_fresh by fresh_name.
  all: rewrite ?remove_head_fresh by fresh_name.
  all: try reflexivity.
  all: now rewrite app_nil_r.
Qed.
End CreateSpec.

(** ** The description of a key *)

(** C3: [describe] -- [create_shader_description_string] -- is defined on
    every one of the 9 x 2 requirement values and yields the variant's name,
    a space, and [+green] or [-green]; RGBA without tint yields
    ["SHADER_VARIANT_RGBA -green"]; being a function it yields the same text
    whenever it is given the same value; and the 18 texts are pairwise
    distinct. *)
Theorem describe_total_distinct :
  map create_shader_description_string all_requirements =
    map Some
      ["SHADER_VARIANT_NONE -green"; "SHADER_VARIANT_NONE +green";
       "SHADER_VARIANT_RGBX -green"; "SHADER_VARIANT_RGBX +green";
       "SHADER_VARIANT_RGBA -green"; "SHADER_VARIANT_RGBA +green";
       "SHADER_VARIANT_Y_U_V -green"; "SHADER_VARIANT_Y_U_V +green";
       "SHADER_VARIANT_Y_UV -green"; "SHADER_VARIANT_Y_UV +green";
       "SHADER_VARIANT_Y_XUXV -green"; "SHADER_VARIANT_Y_XUXV +green";
       "SHADER_VARIANT_XYUV -green"; "SHADER_VARIANT_XYUV +green";
       "SHADER_VARIANT_SOLID -green"; "SHADER_VARIANT_SOLID +green";
       "SHADER_VARIANT_EXTERNAL -green"; "SHADER_VARIANT_EXTERNAL +green"]%string
  /\ List.length all_requirements = 18%nat
  /\ (forall R, In R all_requirements)
  /\ (forall R1 R2,
        R1 = R2 ->
        create_shader_description_string R1 =
        create_shader_description_string R2)
  /\ (forall R, create_shader_description_string R =
                Some (gl_shader_texture_variant_to_string (variant R)
                      +++ " " +++ (if green_tint R then "+" else "-")
                      +++ "green")%string)
  /\ create_shader_description_string
       (mk_requirements SHADER_VARIANT_RGBA false) =
     Some "SHADER_VARIANT_RGBA -green"%string
  /\ (forall R1 R2,
        create_shader_description_string R1 =
        create_shader_description_string R2 -> R1 = R2)
  /\ NoDup (map create_shader_description_string all_requirements).
Proof.
  assert (Hinj : forall R1 R2,
             create_shader_description_string R1 =
             create_shader_description_string R2 -> R1 = R2).
  { intros [v1 g1] [v2 g2] H.
    destruct v1, g1, v2, g2; first [reflexivity | discriminate H]. }
  assert (Hall : forall R, In R all_requirements).
  { intros [v g]. destruct v, g; simpl; tauto. }
  repeat split; try reflexivity; try assumption.
  { now intros R1 R2 ->. }
  cbv [all_requirements all_variants flat_map app map].
  repeat (constructor; [cbn [In]; intuition discriminate|]).
  constructor.
Qed.

(** ** Comparing two keys *)

Lemma memcmp_zero_iff (n : nat) (a b : list Z) :
  List.length a = n -> List.length b = n -> (memcmp a b n = 0 <-> a = b).
Proof.
  revert a b. induction n as [|n IH]; intros [|x a] [|y b] Ha Hb;
    try discriminate; simpl.
  - tauto.
  - injection Ha as Ha. injection Hb as Hb.
    destruct (Z.eqb_spec x y) as [->|Hxy].
    + rewrite (IH a b Ha Hb). split; congruence.
    + split; [lia | congruence].
Qed.

Lemma requirements_bytes_inj (a b : gl_shader_requirements) :
  requirements_bytes a = requirements_bytes b -> a = b.
Proof.
  destruct a as [va ga], b as [vb gb].
  destruct va, ga, vb, gb; first [reflexivity | discriminate].
Qed.

Lemma cmp_zero_iff_eq (a b : gl_shader_requirements) :
  gl_shader_requirements_cmp a b = 0 <-> a = b.
Proof.
  unfold gl_shader_requirements_cmp.
  rewrite (memcmp_zero_iff sizeof_requirements) by reflexivity.
  split; [apply requirements_bytes_inj | now intros ->].
Qed.

(** C5: two keys compare equal -- [gl_shader_requirements_cmp] returns
    zero -- exactly when they agree on both fields, the variant and the
    tint flag. *)
Theorem gl_shader_requirements_cmp_zero_iff (a b : gl_shader_requirements) :
  gl_shader_requirements_cmp a b = 0 <->
  variant a = variant b /\ green_tint a = green_tint b.
Proof.
  rewrite cmp_zero_iff_eq. destruct a, b. simpl.
  split; [intros H; injection H; auto | intros [-> ->]; reflexivity].
Qed.

Lemma cmp_eqb_true (a b : gl_shader_requirements) :
  (gl_shader_requirements_cmp a b =? 0) = true <-> a = b.
Proof. now rewrite Z.eqb_eq, cmp_zero_iff_eq. Qed.

(** ** What gl_shader_create gives the driver, and what it deletes *)

Section CreateProperties.
Context {drv : gl_driver} {src : shader_sources}.

(** C4: a call of [gl_shader_create] -- what a cache miss leads to -- gives
    the driver, for the vertex stage, the constant vertex shader text and
    nothing else; for the fragment stage, which it reaches when the vertex
    stage compiled, it gives the version pragma, then the configuration
    block with the DEF_GREEN_TINT line and the DEF_VARIANT line made from
    the requirements, then the constant fragment shader body, in that
    order.  No other source text is submitted. *)
Theorem shader_sources_submitted (R : gl_shader_requirements) (w : world) :
  exists new,
    gl_calls (gl (snd (gl_shader_create R w))) = rev new ++ gl_calls (gl w) /\
    submissions [] new =
      (GL_VERTEX_SHADER, [vertex_shader])
      :: (if vertex_ok w then
            [(GL_FRAGMENT_SHADER,
              [("#version 100" +++ nl)%string;
               ("#define DEF_GREEN_TINT "
                +++ (if green_tint R then "true" else "false") +++ nl
                +++ "#define DEF_VARIANT "
                +++ gl_shader_texture_variant_to_string (variant R)
                +++ nl)%string;
               fragment_shader])]
          else []) /\
    map (fun e => (fst e, String.concat "" (snd e))) (submissions [] new) =
      (GL_VERTEX_SHADER, vertex_shader)
      :: (if vertex_ok w then
            [(GL_FRAGMENT_SHADER,
              (("#version 100" +++ nl)
               +++ ("#define DEF_GREEN_TINT "
                    +++ (if green_tint R then "true" else "false") +++ nl
                    +++ "#define DEF_VARIANT "
                    +++ gl_shader_texture_variant_to_string (variant R)
                    +++ nl)
               +++ fragment_shader)%string)]
          else []).
Proof.
  exists (create_calls R w).
  split; [apply gl_shader_create_spec|].
  assert (Hs : submissions [] (create_calls R w) =
               (GL_VERTEX_SHADER, [vertex_shader])
               :: (if vertex_ok w
                   then [(GL_FRAGMENT_SHADER, fragment_sources R)] else [])).
  { unfold create_calls, outcome, vertex_calls, fragment_calls, link_calls,
      uniform_calls.
    destruct (vertex_ok w), (fragment_ok R w), (link_ok R w);
      cbn [app submissions find fst snd]; rewrite ?Z.eqb_refl; reflexivity. }
  rewrite Hs. unfold fragment_sources, config_text.
  split; [reflexivity|].
  destruct (vertex_ok w); reflexivity.
Qed.

Ltac deleted_once :=
  repeat (constructor;
          [split;
           [cbn [app shader_deletions];
            repeat match goal with
                   | H : (_ =? _) = false |- _ => rewrite H
                   end;
            rewrite ?Z.eqb_refl; reflexivity
           |cbn [app]; assumption]|]);
  constructor.

(** C10: on every way out of [gl_shader_create] each shader object that
    [compile_shader] returned during the call has been deleted exactly once
    when the function returns, and is then no live object of the driver.
    When the function succeeds these are the vertex and the fragment object
    of the new entry, both deleted right after the link status was read as
    good; the driver is left with the shader objects it had before and with
    one more program, the new entry's; and the names kept in the entry's
    vertex and fragment fields are names of no live shader object. *)
Theorem stage_shaders_deleted_once (R : gl_shader_requirements) (w : world) :
  let r := fst (gl_shader_create R w) in
  let w' := snd (gl_shader_create R w) in
  exists new,
    gl_calls (gl w') = rev new ++ gl_calls (gl w) /\
    Forall (fun s => shader_deletions s new = 1%nat /\
                     ~ In s (gl_shaders (gl w')))
           (compiled_shaders new) /\
    match r with
    | None => True
    | Some p =>
        exists shader before after,
          shader_at p (shader_list w') = Some shader /\
          compiled_shaders new =
            [Shader.vertex_shader shader; Shader.fragment_shader shader] /\
          new = before
                ++ [GetProgramiv_LINK_STATUS (Shader.program shader) true;
                    DeleteShader (Shader.vertex_shader shader);
                    DeleteShader (Shader.fragment_shader shader)]
                ++ after /\
          gl_shaders (gl w') = gl_shaders (gl w) /\
          gl_programs (gl w') = Shader.program shader :: gl_programs (gl w) /\
          ~ In (Shader.vertex_shader shader) (gl_shaders (gl w')) /\
          ~ In (Shader.fragment_shader shader) (gl_shaders (gl w'))
    end.
Proof.
  cbv zeta.
  destruct (gl_shader_create_spec R w)
    as (_ & _ & _ & Hcalls & Hsh & Hpr & _ & Hout).
  exists (create_calls R w). split; [exact Hcalls|].
  assert (Hvf : (fragment_name w =? vertex_name w) = false).
  { apply Z.eqb_neq. unfold fragment_name. fresh_name. }
  assert (Hfv : (vertex_name w =? fragment_name w) = false).
  { now rewrite Z.eqb_sym. }
  assert (Hv : ~ In (vertex_name w) (gl_shaders (gl w))).
  { unfold vertex_name. fresh_name. }
  assert (Hf : ~ In (fragment_name w) (gl_shaders (gl w))).
  { unfold fragment_name. fresh_name. }
  assert (Hvf' : ~ In (vertex_name w) (fragment_name w :: gl_shaders (gl w))).
  { cbn [In]. apply Z.eqb_neq in Hvf. tauto. }
  rewrite Hsh.
  unfold shaders_left, programs_left in *.
  unfold create_calls, vertex_calls, fragment_calls, link_calls, uniform_calls.
  destruct (outcome R w); cbn [app compiled_shaders].
  - split; [deleted_once|].
    destruct Hout as (shader & -> & Hl & _ & Hp & Hv' & Hf' & _).
    exists shader,
      ([CreateShader GL_VERTEX_SHADER (vertex_name w);
        ShaderSource (vertex_name w) [vertex_shader];
        CompileShader (vertex_name w);
        GetShaderiv_COMPILE_STATUS (vertex_name w) true;
        CreateShader GL_FRAGMENT_SHADER (fragment_name w);
        ShaderSource (fragment_name w) (fragment_sources R);
        CompileShader (fragment_name w);
        GetShaderiv_COMPILE_STATUS (fragment_name w) true;
        CreateProgram (program_name w);
        AttachShader (program_name w) (vertex_name w);
        AttachShader (program_name w) (fragment_name w);
        BindAttribLocation (program_name w) 0 "position";
        BindAttribLocation (program_name w) 1 "texcoord";
        LinkProgram (program_name w)]),
      [GetUniformLocation (program_name w) "proj";
       GetUniformLocation (program_name w) "tex";
       GetUniformLocation (program_name w) "tex1";
       GetUniformLocation (program_name w) "tex2";
       GetUniformLocation (program_name w) "alpha";
       GetUniformLocation (program_name w) "unicolor"].
    rewrite Hl, Hpr, Hp, Hv', Hf'. cbn [shader_at app].
    rewrite Z.eqb_refl.
    repeat split; try reflexivity; assumption.
  - destruct Hout as [-> _]. split; [deleted_once | exact I].
  - destruct Hout as [-> _]. split; [deleted_once | exact I].
  - destruct Hout as [-> _]. split; [deleted_once | exact I].
Qed.

(** A compile that fails leaves its shader object alive: the object was
    created by [glCreateShader] during the call and [glDeleteShader] is
    never called on it. *)
Lemma failed_compile_keeps_object (R : gl_shader_requirements) (w : world) :
  outcome R w = VertexFailed \/ outcome R w = FragmentFailed ->
  let w' := snd (gl_shader_create R w) in
  exists s type new,
    fst (gl_shader_create R w) = None /\
    gl_calls (gl w') = rev new ++ gl_calls (gl w) /\
    In (CreateShader type s) new /\
    shader_deletions s new = 0%nat /\
    gl_shaders (gl w') = s :: gl_shaders (gl w) /\
    ~ In s (gl_shaders (gl w)).
Proof.
  cbv zeta.
  destruct (gl_shader_create_spec R w)
    as (_ & _ & _ & Hcalls & Hsh & _ & _ & Hout).
  assert (Hfv : (vertex_name w =? fragment_name w) = false).
  { rewrite Z.eqb_sym. apply Z.eqb_neq. unfold fragment_name. fresh_name. }
  unfold shaders_left in Hsh.
  unfold create_calls, vertex_calls, fragment_calls in Hcalls.
  intros [E|E]; rewrite E in *; destruct Hout as [Hr _].
  - exists (vertex_name w), GL_VERTEX_SHADER. eexists.
    repeat split; [exact Hr | exact Hcalls | | | exact Hsh |].
    + cbn [app In]. tauto.
    + reflexivity.
    + unfold vertex_name. fresh_name.
  - exists (fragment_name w), GL_FRAGMENT_SHADER. eexists.
    repeat split; [exact Hr | exact Hcalls | | | exact Hsh |].
    + cbn [app In]. tauto.
    + cbn [app shader_deletions]. now rewrite Hfv.
    + unfold fragment_name. fresh_name.
Qed.

(** The shader list after a call: as it was when the call fails, with the
    new entry in front when it succeeds. *)
Lemma gl_shader_create_list (R : gl_shader_requirements) (w : world) :
  match fst (gl_shader_create R w) with
  | None => shader_list (snd (gl_shader_create R w)) = shader_list w
  | Some p =>
      exists shader,
        shader_list (snd (gl_shader_create R w)) = (p, shader) :: shader_list w
        /\ Shader.key shader = R
        /\ ~ In p (map fst (shader_list w))
  end.
Proof.
  destruct (gl_shader_create_spec R w) as (_ & _ & _ & _ & _ & _ & _ & Hout).
  destruct (outcome R w).
  - destruct Hout as (shader & -> & Hl & Hk & _).
    exists shader. repeat split; [exact Hl | exact Hk | apply max_of_fresh].
  - destruct Hout as [-> Hl]. exact Hl.
  - destruct Hout as [-> Hl]. exact Hl.
  - destruct Hout as [-> Hl]. exact Hl.
Qed.
(** A call that returns NULL failed at one of the three stages; it leaves
    the shader list as it was and writes the driver's message for that
    stage to the log: after ["shader info: "] and followed by the numbered
    source for a compile, after ["link info: "] for the link. *)
Lemma gl_shader_create_failure (R : gl_shader_requirements) (w : world) :
  fst (gl_shader_create R w) = None ->
  let w' := snd (gl_shader_create R w) in
  outcome R w <> Created /\
  shader_list w' = shader_list w /\
  log_out w' = log_out w ++ create_log R w (create_message R w) /\
  exists text,
    hd_error (create_log R w (create_message R w)) = Some text /\
    (text = ("shader info: " +++ create_message R w +++ nl)%string \/
     text = ("link info: " +++ create_message R w +++ nl)%string).
Proof.
  intros Hr. cbv zeta.
  destruct (gl_shader_create_spec R w)
    as (_ & _ & _ & _ & _ & _ & Hlog & Hout).
  unfold create_log in *.
  destruct (outcome R w).
  - destruct Hout as (shader & Hsome & _). congruence.
  - destruct Hout as [_ Hl]. repeat split; try assumption; [discriminate|].
    eexists. split; [reflexivity | now right].
  - destruct Hout as [_ Hl]. repeat split; try assumption; [discriminate|].
    eexists. split; [reflexivity | now left].
  - destruct Hout as [_ Hl]. repeat split; try assumption; [discriminate|].
    eexists. split; [reflexivity | now left].
Qed.
End CreateProperties.

(** C2, as the code has it: when a stage fails the call returns NULL and
    the shader list is what it was, and after a failed link nothing the
    call created is left; but the shader object of a stage whose compile
    failed is never deleted.  With a driver that rejects every shader the
    vertex object, name 1, is still alive when the function has returned;
    with one that rejects the second shader the vertex object is deleted
    and the fragment object, name 2, is still alive. *)
Theorem failed_compile_leaks_shader_object :
  let R := mk_requirements SHADER_VARIANT_RGBA false in
  let rejected := @gl_shader_create Mock.rejecting Mock.sources R Mock.empty in
  let rejected_second :=
    @gl_shader_create Mock.rejecting_second Mock.sources R Mock.empty in
  let not_linked :=
    @gl_shader_create Mock.not_linking Mock.sources R Mock.empty in
  (fst rejected = None /\
   shader_list (snd rejected) = [] /\
   gl_shaders (gl (snd rejected)) = [1] /\
   shader_deletions 1 (rev (gl_calls (gl (snd rejected)))) = 0%nat) /\
  (fst rejected_second = None /\
   shader_list (snd rejected_second) = [] /\
   gl_shaders (gl (snd rejected_second)) = [2] /\
   shader_deletions 1 (rev (gl_calls (gl (snd rejected_second)))) = 1%nat /\
   shader_deletions 2 (rev (gl_calls (gl (snd rejected_second)))) = 0%nat) /\
  (fst not_linked = None /\
   shader_list (snd not_linked) = [] /\
   gl_shaders (gl (snd not_linked)) = [] /\
   gl_programs (gl (snd not_linked)) = []).
Proof. vm_compute. repeat split. Qed.

(** ** The report for a new subscriber *)

(** The seconds of a record. *)


Lemma to_int_small (z : Z) :
  -2147483648 <= z <= 2147483647 -> to_int z = z.
Proof.
  intros H. unfold to_int. rewrite Z.mod_small by lia. lia.
Qed.

Lemma round_half_even_near (a b : Z) :
  0 < b -> Z.abs (2 * (b * round_half_even a b) - 2 * a) <= b.
Proof.
  intros Hb. unfold round_half_even.
  pose proof (Z.div_mod a b ltac:(lia)) as Hd.
  pose proof (Z.mod_pos_bound a b Hb) as Hr.
  set (q := a / b) in *. set (r := a mod b) in *.
  destruct (Z.ltb_spec (2 * r) b); [lia|].
  destruct (Z.ltb_spec b (2 * r)); [lia|].
  destruct (Z.even q); lia.
Qed.




(** The quotient kept for [n / 1000.0] has a significand of 53 bits and is
    within half a unit of its last bit of [n / 1000]. *)
Lemma int_div_1000_nearest (n : Z) :
  n <> 0 -> -2147483648 <= n <= 2147483647 ->
  let x := int_div_1000 n in
  2 ^ 52 <= num x <= 2 ^ 53 /\
  Z.abs (2 * (1000 * num x) - 2 * (Z.abs n * 2 ^ scale x)) <= 1000.
Proof.
  intros Hn0 Hn. cbv zeta. unfold int_div_1000. cbn [num scale].
  set (a := Z.abs n). assert (Ha : 0 < a <= 2147483648) by (unfold a; lia).
  pose proof (Z.log2_spec a ltac:(lia)) as [Hlo Hhi].
  assert (Hl : 0 <= Z.log2 a <= 31).
  { split; [apply Z.log2_nonneg|].
    change 31 with (Z.log2 2147483648). apply Z.log2_le_mono. lia. }
  set (l := Z.log2 a) in *.
  assert (E0 : 2 ^ l * 2 ^ (62 - l) = 2 ^ 62)
    by (rewrite <- Z.pow_add_r by lia; f_equal; lia).
  assert (E1 : 2 ^ (62 - l) = 2 * 2 ^ (62 - l - 1)).
  { rewrite <- (Z.pow_succ_r 2 (62 - l - 1)) by lia. f_equal. lia. }
  assert (E2 : 2 ^ Z.succ l = 2 * 2 ^ l) by (apply Z.pow_succ_r; lia).
  assert (HP : 0 < 2 ^ (62 - l - 1)) by (apply Z.pow_pos_nonneg; lia).
  change (2 ^ 62) with 4611686018427387904 in E0.
  change (2 ^ 53) with 9007199254740992.
  change (2 ^ 52) with 4503599627370496.
  set (P1 := 2 ^ (62 - l - 1)) in *.
  set (P0 := 2 ^ (62 - l)) in *.
  set (L := 2 ^ l) in *. rewrite E2 in Hhi.
  assert (Hrange : 4611686018427387904 <= a * P0 < 9223372036854775808) by nia.
  pose proof (Z.div_mod (a * P0) 1000 ltac:(lia)) as Hd.
  pose proof (Z.mod_pos_bound (a * P0) 1000 ltac:(lia)) as Hr.
  destruct (Z.ltb_spec (a * P0 / 1000) 9007199254740992) as [Hq|Hq].
  - fold P0.
    pose proof (round_half_even_near (a * P0) 1000 ltac:(lia)) as Hm.
    split; [|exact Hm]. clearbody P0 P1 L a. lia.
  - fold P1.
    pose proof (round_half_even_near (a * P1) 1000 ltac:(lia)) as Hm.
    split; [|exact Hm]. clearbody P0 P1 L a. nia.
Qed.

(** What [%.1f] shows for some milliseconds.  As doubles, 0.05 and 0.45
    lie above the middle between two tenths and 0.15 and 0.35 below it;
    0.25 and 0.75 lie in the middle.  The last is what an [int] keeps of
    4294968546 milliseconds. *)
Example seconds_of_milliseconds :
  map (fun n => fmt_1f (int_div_1000 n))
      [0; 49; 50; 150; 250; 350; 450; 750; 999; 100000; -40; -50;
       2147483647; -2147483648; to_int 4294968546] =
  ["0.0"; "0.0"; "0.1"; "0.1"; "0.2"; "0.3"; "0.5"; "0.8"; "1.0"; "100.0";
   "-0.0"; "-0.1"; "2147483.6"; "-2147483.6"; "1.2"]%string.
Proof. vm_compute. reflexivity. Qed.

Section Report.
Context {src : shader_sources}.

Lemma report_fold (now : timespec) (l : list (ptr * gl_shader))
    (subs : list string) (count : Z) :
  fold_left
    (fun (acc : list string * Z) (e : ptr * gl_shader) =>
       let (subs, count) := acc in
       (weston_log_subscription_printf subs (report_line now (snd e)),
        count + 1))
    l (subs, count) =
  (subs ++ map (fun e => report_line now (snd e)) l,
   count + Z.of_nat (List.length l)).
Proof.
  revert subs count. induction l as [|e l IH]; intros subs count.
  - simpl. now rewrite app_nil_r, Z.add_0_r.
  - cbn [fold_left map List.length]. rewrite IH.
    unfold weston_log_subscription_printf. rewrite <- app_assoc.
    f_equal. lia.
Qed.

Lemma subscription_eq (subs : list string) (w : world) :
  gl_shader_scope_new_subscription subs w =
  (subs
   ++ [("Vertex shader body:" +++ nl
        +++ bar +++ nl +++ vertex_shader +++ nl
        +++ "Fragment shader body:" +++ nl
        +++ bar +++ nl +++ fragment_shader +++ nl +++ bar +++ nl)%string;
       ("Cached GLSL programs:" +++ nl
        +++ "    id: (used secs ago) description +/-flags" +++ nl)%string]
   ++ map (fun e => report_line (presentation_clock w) (snd e))
          (shader_list w)
   ++ [("Total: " +++ fmt_d (Z.of_nat (List.length (shader_list w)))
        +++ " programs." +++ nl)%string],
   w).
Proof.
  unfold gl_shader_scope_new_subscription,
    weston_compositor_read_presentation_clock, bind.
  cbv zeta. rewrite report_fold.
  unfold weston_log_subscription_printf.
  rewrite Z.add_0_l. repeat rewrite <- app_assoc. reflexivity.
Qed.


(** C8: the report changes nothing: the world after it is the world before
    it, so the shader list holds the same shaders with the same fields. *)
Theorem subscription_keeps_world (subs : list string) (w : world) :
  snd (gl_shader_scope_new_subscription subs w) = w
  /\ shader_list (snd (gl_shader_scope_new_subscription subs w))
     = shader_list w.
Proof. rewrite subscription_eq. split; reflexivity. Qed.
End Report.

(** ** Destroying shaders *)

Section Destroy.
Context {drv : gl_driver} {src : shader_sources}.

Lemma shader_at_none_filter (p : ptr) (l : list (ptr * gl_shader)) :
  shader_at p l = None -> filter (fun e => negb (fst e =? p)) l = l.
Proof.
  induction l as [|[q shader] l IH]; [reflexivity|].
  cbn [shader_at filter fst]. destruct (q =? p); [discriminate|].
  intros H. cbn [negb]. now rewrite IH.
Qed.

Lemma filter_fresh (p : ptr) (l : list (ptr * gl_shader)) :
  ~ In p (map fst l) -> filter (fun e => negb (fst e =? p)) l = l.
Proof.
  induction l as [|[q shader] l IH]; [reflexivity|].
  cbn [map fst In filter]. intros H.
  destruct (Z.eqb_spec q p) as [->|_]; [tauto|].
  cbn [negb]. rewrite IH; tauto.
Qed.

(** What [gl_shader_destroy] does to a linked shader. *)
Lemma gl_shader_destroy_spec (p : ptr) (shader : gl_shader) (w : world) :
  shader_at p (shader_list w) = Some shader ->
  let w' := snd (gl_shader_destroy p w) in
  shader_list w' = filter (fun e => negb (fst e =? p)) (shader_list w) /\
  gl_calls (gl w') = DeleteProgram (Shader.program shader) :: gl_calls (gl w) /\
  gl_programs (gl w') =
    remove Z.eq_dec (Shader.program shader) (gl_programs (gl w)) /\
  gl_shaders (gl w') = gl_shaders (gl w) /\
  shader_scope_enabled w' = shader_scope_enabled w /\
  presentation_clock w' = presentation_clock w /\
  log_out w' = log_out w /\
  shader_scope_out w' =
    shader_scope_out w ++
    (if shader_scope_enabled w
     then [("Deleting shader program for: "
            +++ fmt_s (create_shader_description_string (Shader.key shader))
            +++ nl)%string]
     else []).
Proof.
  intros H. cbv zeta. unfold gl_shader_destroy. rewrite H.
  unfold weston_log_scope_is_enabled, weston_log_scope_printf,
    glDeleteProgram, wl_list_remove, bind, ret.
  destruct w as [en out l clk [S P C] lg]. destruct en; world_simpl.
  - repeat split.
  - repeat split. now rewrite app_nil_r.
Qed.

(** Whatever the pointer, the shaders left are the ones at other
    addresses. *)
Lemma gl_shader_destroy_list (p : ptr) (w : world) :
  shader_list (snd (gl_shader_destroy p w)) =
  filter (fun e => negb (fst e =? p)) (shader_list w).
Proof.
  destruct (shader_at p (shader_list w)) as [shader|] eqn:E.
  - now apply gl_shader_destroy_spec with (shader := shader).
  - unfold gl_shader_destroy. rewrite E. cbn [snd].
    symmetry. now apply shader_at_none_filter.
Qed.

Lemma destroy_each_spec (l : list (ptr * gl_shader)) (w : world) :
  shader_list w = l ->
  wl_list_ok l ->
  let w' := snd (destroy_each (map fst l) w) in
  shader_list w' = [] /\
  gl_calls (gl w') =
    rev (map (fun e => DeleteProgram (Shader.program (snd e))) l)
    ++ gl_calls (gl w) /\
  gl_shaders (gl w') = gl_shaders (gl w) /\
  (forall x, In x (gl_programs (gl w')) ->
             In x (gl_programs (gl w)) /\
             ~ In x (map (fun e => Shader.program (snd e)) l)) /\
  shader_scope_enabled w' = shader_scope_enabled w /\
  presentation_clock w' = presentation_clock w /\
  log_out w' = log_out w.
Proof.
  revert w. induction l as [|[p shader] l IH]; intros w Hl Hok.
  - cbn. rewrite Hl. repeat split; tauto.
  - cbv zeta. cbn [map fst destroy_each]. unfold bind.
    destruct (gl_shader_destroy p w) as [[] w1] eqn:E.
    assert (Hat : shader_at p (shader_list w) = Some shader).
    { rewrite Hl. cbn [shader_at]. now rewrite Z.eqb_refl. }
    pose proof (gl_shader_destroy_spec p shader w Hat) as Hd.
    cbv zeta in Hd. rewrite E in Hd. cbn [snd] in Hd.
    destruct Hd as (Hl1 & Hc1 & Hp1 & Hs1 & He1 & Hk1 & Hg1 & _).
    unfold wl_list_ok in Hok. cbn [map fst] in Hok.
    apply NoDup_cons_iff in Hok. destruct Hok as [Hnin Hok].
    assert (Hl1' : shader_list w1 = l).
    { rewrite Hl1, Hl. cbn [filter fst]. rewrite Z.eqb_refl. cbn [negb].
      now apply filter_fresh. }
    destruct (IH w1 Hl1' Hok) as (Hl2 & Hc2 & Hs2 & Hp2 & He2 & Hk2 & Hg2).
    repeat split.
    + exact Hl2.
    + rewrite Hc2, Hc1. cbn [map rev snd]. now rewrite <- app_assoc.
    + congruence.
    + apply Hp2 in H. destruct H as [H _]. rewrite Hp1 in H.
      now apply in_remove in H.
    + cbn [map snd In]. intros [Hx|Hx].
      * apply Hp2 in H. destruct H as [H _]. rewrite Hp1 in H.
        apply in_remove in H. destruct H as [_ H]. congruence.
      * apply Hp2 in H. tauto.
    + congruence.
    + congruence.
    + congruence.
Qed.

Lemma destroy_each_list (ps : list ptr) (w : world) :
  shader_list (snd (destroy_each ps w)) =
  filter (fun e => negb (existsb (Z.eqb (fst e)) ps)) (shader_list w).
Proof.
  revert w. induction ps as [|p ps IH]; intros w.
  - cbn. induction (shader_list w) as [|e l IHl]; [reflexivity|].
    cbn. now rewrite <- IHl.
  - cbn [destroy_each]. unfold bind.
    destruct (gl_shader_destroy p w) as [[] w1] eqn:E.
    rewrite IH.
    replace w1 with (snd (gl_shader_destroy p w)) by now rewrite E.
    rewrite gl_shader_destroy_list.
    induction (shader_list w) as [|e l IHl]; [reflexivity|].
    cbn [filter existsb].
    match goal with
    | |- context [negb (?a =? p)] => destruct (a =? p)
    end; cbn [negb orb].
    + exact IHl.
    + cbn [filter].
      match goal with
      | |- context [negb (existsb ?f ps)] => destruct (existsb f ps)
      end; cbn [negb].
      * exact IHl.
      * now rewrite IHl.
Qed.

Lemma filter_none {A : Type} (f : A -> bool) (l : list A) :
  (forall x, In x l -> f x = false) -> filter f l = [].
Proof.
  induction l as [|x l IH]; intros H; [reflexivity|].
  cbn [filter]. rewrite (H x) by now left.
  apply IH. intros y Hy. apply H. now right.
Qed.

(** After [destroy_all] no shader is linked, whatever the list was. *)
Lemma destroy_all_empties (w : world) :
  shader_list (snd (destroy_all w)) = [].
Proof.
  unfold destroy_all. rewrite destroy_each_list.
  apply filter_none. intros e He.
  apply negb_false_iff, existsb_exists.
  exists (fst e). split; [now apply in_map | apply Z.eqb_refl].
Qed.

Lemma programs_deleted_map (l : list (ptr * gl_shader)) :
  programs_deleted (map (fun e => DeleteProgram (Shader.program (snd e))) l)
  = map (fun e => Shader.program (snd e)) l.
Proof.
  induction l as [|e l IH]; [reflexivity|].
  cbn [map programs_deleted]. now rewrite IH.
Qed.

(** C6: [destroy_all] on a cache of N shaders calls [glDeleteProgram] N
    times, once on the program of each shader, calls nothing else of the
    driver, leaves none of those programs alive and leaves the shader list
    empty; a report made afterwards has no line for a shader and ends in
    the line ["Total: 0 programs."]. *)
Theorem destroy_all_deletes_each_program (w : world) :
  wl_list_ok (shader_list w) ->
  let w' := snd (destroy_all w) in
  shader_list w' = [] /\
  (exists new,
     gl_calls (gl w') = rev new ++ gl_calls (gl w) /\
     new = map (fun e => DeleteProgram (Shader.program (snd e)))
               (shader_list w) /\
     programs_deleted new =
       map (fun e => Shader.program (snd e)) (shader_list w) /\
     List.length new = List.length (shader_list w)) /\
  (forall e, In e (shader_list w) ->
             ~ In (Shader.program (snd e)) (gl_programs (gl w'))) /\
  fst (dump w') =
    [("Vertex shader body:" +++ nl
      +++ bar +++ nl +++ vertex_shader +++ nl
      +++ "Fragment shader body:" +++ nl
      +++ bar +++ nl +++ fragment_shader +++ nl +++ bar +++ nl)%string;
     ("Cached GLSL programs:" +++ nl
      +++ "    id: (used secs ago) description +/-flags" +++ nl)%string;
     ("Total: 0 programs." +++ nl)%string].
Proof.
  intros Hok. cbv zeta.
  destruct (destroy_each_spec (shader_list w) w eq_refl Hok)
    as (Hl & Hc & _ & Hp & _).
  fold (destroy_all w) in Hl, Hc, Hp.
  split; [|split; [|split]].
  - exact Hl.
  - exists (map (fun e => DeleteProgram (Shader.program (snd e)))
                (shader_list w)).
    split; [exact Hc|]. split; [reflexivity|].
    split; [apply programs_deleted_map | now rewrite length_map].
  - intros e He Hin. apply Hp in Hin. destruct Hin as [_ Hin].
    apply Hin. now apply in_map with (f := fun e => Shader.program (snd e)).
  - unfold dump. rewrite subscription_eq. cbn [fst]. rewrite Hl. reflexivity.
Qed.
End Destroy.

(** ** The cache *)

Lemma count_key_cons (R : gl_shader_requirements) (p : ptr)
    (shader : gl_shader) (l : list (ptr * gl_shader)) :
  count_key R ((p, shader) :: l) =
  ((if (gl_shader_requirements_cmp R (Shader.key shader) =? 0)%Z
    then 1 else 0)
   + count_key R l)%nat.
Proof.
  unfold count_key. cbn [filter snd].
  destruct (gl_shader_requirements_cmp R (Shader.key shader) =? 0);
    reflexivity.
Qed.

Lemma find_shader_none (R : gl_shader_requirements)
    (l : list (ptr * gl_shader)) :
  find_shader R l = None -> count_key R l = 0%nat.
Proof.
  induction l as [|[p shader] l IH]; [reflexivity|].
  cbn [find_shader]. rewrite count_key_cons.
  destruct (gl_shader_requirements_cmp R (Shader.key shader) =? 0);
    [discriminate|].
  intros H. now rewrite IH.
Qed.

Lemma find_shader_some (R : gl_shader_requirements)
    (l : list (ptr * gl_shader)) (p : ptr) :
  wl_list_ok l ->
  find_shader R l = Some p ->
  (exists shader, shader_at p l = Some shader /\ Shader.key shader = R) /\
  (1 <= count_key R l)%nat.
Proof.
  unfold wl_list_ok.
  induction l as [|[q shader] l IH]; [discriminate|].
  cbn [find_shader shader_at map fst]. rewrite count_key_cons.
  intros Hok. apply NoDup_cons_iff in Hok. destruct Hok as [Hq Hok].
  destruct (gl_shader_requirements_cmp R (Shader.key shader) =? 0) eqn:E.
  - intros H. injection H as <-. rewrite Z.eqb_refl. split; [|lia].
    exists shader. split; [reflexivity|].
    symmetry. now apply cmp_eqb_true.
  - intros H. destruct (IH Hok H) as [(s & Hs & Hk) Hc]. split; [|lia].
    exists s. split; [|exact Hk].
    destruct (Z.eqb_spec q p) as [->|_]; [|exact Hs].
    exfalso. apply Hq. clear - Hs.
    induction l as [|[q' s'] l IHl]; [discriminate|].
    cbn [shader_at] in Hs. cbn [map fst In].
    destruct (Z.eqb_spec q' p); [now left | right; now apply IHl].
Qed.

Section CacheProperties.
Context {drv : gl_driver} {src : shader_sources}.

(** The shader list after [get_or_create]: as it was, or with one new
    entry for the key in front, at a fresh address, when there was none for
    the key. *)
Lemma get_or_create_list (R : gl_shader_requirements) (w : world) :
  shader_list (snd (get_or_create R w)) = shader_list w \/
  exists p shader,
    fst (get_or_create R w) = Some p /\
    shader_list (snd (get_or_create R w)) = (p, shader) :: shader_list w /\
    Shader.key shader = R /\
    ~ In p (map fst (shader_list w)) /\
    find_shader R (shader_list w) = None.
Proof.
  unfold get_or_create.
  destruct (find_shader R (shader_list w)) as [p|] eqn:E; [now left|].
  pose proof (gl_shader_create_list R w) as H.
  destruct (fst (gl_shader_create R w)) as [p|]; [|now left].
  destruct H as (shader & Hl & Hk & Hp).
  right. exists p, shader. repeat split; assumption.
Qed.

Lemma get_or_create_ok (R : gl_shader_requirements) (w : world) :
  cache_ok (shader_list w) -> cache_ok (shader_list (snd (get_or_create R w))).
Proof.
  intros [Hok Hu].
  destruct (get_or_create_list R w)
    as [->|(p & shader & _ & -> & Hk & Hp & Hn)]; [now split|].
  split.
  - unfold wl_list_ok. cbn [map fst]. now constructor.
  - intros R'. rewrite count_key_cons, Hk.
    destruct (gl_shader_requirements_cmp R' R =? 0) eqn:E; [|apply Hu].
    apply cmp_eqb_true in E. subst R'.
    now rewrite (find_shader_none R _ Hn).
Qed.

Lemma cache_ok_nil : cache_ok [].
Proof. split; [constructor | intros R; cbn; lia]. Qed.

Lemma run_op_ok (w : world) (o : cache_op) :
  cache_ok (shader_list w) -> cache_ok (shader_list (run_op w o)).
Proof.
  intros H. destruct o as [R| |]; cbn [run_op].
  - now apply get_or_create_ok.
  - rewrite destroy_all_empties. apply cache_ok_nil.
  - unfold dump. now rewrite subscription_eq.
Qed.

Lemma run_ops_ok (ops : list cache_op) (w : world) :
  cache_ok (shader_list w) -> cache_ok (shader_list (run_ops ops w)).
Proof.
  revert w. induction ops as [|o ops IH]; intros w H; [exact H|].
  cbn [run_ops fold_left]. apply IH. now apply run_op_ok.
Qed.

(** C1: in every world the cache operations reach from an empty cache,
    there is at most one linked shader for any requirements value.  When
    [get_or_create] has returned an entry for a value there is exactly one
    for it, the entry returned; a second call for the same value returns
    the same entry -- the same address -- and leaves the world as it is,
    so the driver is not called and no second entry is linked. *)
Theorem get_or_create_caches_one_program
    (ops : list cache_op) (w0 : world) (R : gl_shader_requirements) :
  shader_list w0 = [] ->
  let w := run_ops ops w0 in
  (forall R', (count_key R' (shader_list w) <= 1)%nat) /\
  (forall p w1,
     get_or_create R w = (Some p, w1) ->
     (forall R', (count_key R' (shader_list w1) <= 1)%nat) /\
     count_key R (shader_list w1) = 1%nat /\
     (exists shader,
        shader_at p (shader_list w1) = Some shader /\
        Shader.key shader = R) /\
     get_or_create R w1 = (Some p, w1) /\
     gl_calls (gl (snd (get_or_create R w1))) = gl_calls (gl w1) /\
     shader_list (snd (get_or_create R w1)) = shader_list w1).
Proof.
  intros H0. cbv zeta.
  assert (Hw : cache_ok (shader_list (run_ops ops w0))).
  { apply run_ops_ok. rewrite H0. apply cache_ok_nil. }
  set (w := run_ops ops w0) in *.
  split; [apply Hw|].
  intros p w1 H1.
  assert (Hw1 : cache_ok (shader_list w1)).
  { replace w1 with (snd (get_or_create R w)) by now rewrite H1.
    now apply get_or_create_ok. }
  assert (Hf : find_shader R (shader_list w1) = Some p).
  { destruct (get_or_create_list R w)
      as [Hl|(q & shader & Hq & Hl & Hk & _ & _)];
      rewrite H1 in *; cbn [fst snd] in *.
    - unfold get_or_create in H1.
      destruct (find_shader R (shader_list w)) as [q|] eqn:E.
      + injection H1 as -> ->. exact E.
      + pose proof (gl_shader_create_list R w) as Hc.
        rewrite H1 in Hc. cbn [fst snd] in Hc.
        destruct Hc as (shader & Hc & _). rewrite Hl in Hc.
        exfalso. clear - Hc.
        assert (Hlen : List.length (shader_list w)
                       = List.length ((p, shader) :: shader_list w))
          by now rewrite <- Hc.
        cbn in Hlen. lia.
    - injection Hq as <-. rewrite Hl. cbn [find_shader]. rewrite Hk.
      now rewrite (proj2 (cmp_eqb_true R R) eq_refl). }
  assert (Hg : get_or_create R w1 = (Some p, w1)).
  { unfold get_or_create. now rewrite Hf. }
  destruct Hw1 as [Hok1 Hu1].
  destruct (find_shader_some R _ p Hok1 Hf) as [Hs Hc].
  repeat split; try assumption.
  - specialize (Hu1 R). lia.
  - now rewrite Hg.
  - now rewrite Hg.
Qed.

(** C9: a linked shader stays linked, with every field as it was, through
    any sequence of cache operations that has no [destroy_all] in it:
    neither [get_or_create] nor the report unlinks a shader. *)
Theorem entries_stay_until_destroy_all
    (ops : list cache_op) (w : world) (e : ptr * gl_shader) :
  In e (shader_list w) ->
  ~ In DestroyAll ops ->
  In e (shader_list (run_ops ops w)).
Proof.
  revert w. induction ops as [|o ops IH]; intros w He Hops; [exact He|].
  cbn [run_ops fold_left]. apply IH.
  - destruct o as [R| |]; cbn [run_op].
    + destruct (get_or_create_list R w) as [->|(p & shader & _ & -> & _)];
        [exact He | now right].
    + exfalso. apply Hops. now left.
    + unfold dump. now rewrite subscription_eq.
  - intros H. apply Hops. now right.
Qed.
End CacheProperties.

(** ** The properties at work on the mock driver *)

Example fmt_6u_program : fmt_6u 3 = "     3"%string.
Proof. reflexivity. Qed.

Example split_lines_two :
  split_lines ("a" +++ nl +++ "b") = (["a"%string], "b"%string).
Proof. reflexivity. Qed.

(** Line numbers run on over the sources; a source that ends in a newline
    leaves a numbered empty line to the next one. *)
Example dump_text_numbers :
  dump_text [("#version 100" +++ nl)%string; ("x" +++ nl +++ "y")%string] =
  ("     1: #version 100" +++ nl
   +++ "     2: x" +++ nl
   +++ "     3: y")%string.
Proof. reflexivity. Qed.

Example cmp_tint_differs :
  gl_shader_requirements_cmp
    (mk_requirements SHADER_VARIANT_RGBA false)
    (mk_requirements SHADER_VARIANT_RGBA true) = -16.
Proof. reflexivity. Qed.

Section MockRuns.
#[local] Existing Instance Mock.accepting.
#[local] Existing Instance Mock.sources.

(** The scenario of the spec: RGBA without tint is requested from an empty
    cache, compiled and linked; the report shows one shader, described as
    ["SHADER_VARIANT_RGBA -green"]; a second request returns the same
    entry and the driver sees no further call. *)
Example request_rgba_twice :
  let R := mk_requirements SHADER_VARIANT_RGBA false in
  let first :=
    get_or_create R Mock.empty in
  let second :=
    get_or_create R (snd first) in
  fst first = Some 1 /\
  fst second = Some 1 /\
  snd second = snd first /\
  gl_programs (gl (snd first)) = [3] /\
  skipn 2 (fst (dump (snd first))) =
    [("     3: (100.0) SHADER_VARIANT_RGBA -green" +++ nl)%string;
     ("Total: 1 programs." +++ nl)%string].
Proof. vm_compute. repeat split. Qed.

Lemma get_or_create_caches_one_program_witness :
  let R := mk_requirements SHADER_VARIANT_RGBA false in
  let ops := [GetOrCreate (mk_requirements SHADER_VARIANT_SOLID true); Dump] in
  let w := run_ops ops Mock.empty in
  let w1 := snd (get_or_create R w) in
  (forall R', (count_key R' (shader_list w) <= 1)%nat) /\
  (forall R', (count_key R' (shader_list w1) <= 1)%nat) /\
  count_key R (shader_list w1) = 1%nat /\
  (exists shader,
     shader_at 2 (shader_list w1) = Some shader /\ Shader.key shader = R) /\
  get_or_create R w1 = (Some 2, w1) /\
  gl_calls (gl (snd (get_or_create R w1))) = gl_calls (gl w1) /\
  shader_list (snd (get_or_create R w1)) = shader_list w1.
Proof.
  cbv zeta.
  destruct (get_or_create_caches_one_program
              [GetOrCreate (mk_requirements SHADER_VARIANT_SOLID true); Dump]
              Mock.empty (mk_requirements SHADER_VARIANT_RGBA false)
              eq_refl) as [Hu Hsecond].
  split; [exact Hu|].
  apply Hsecond. vm_compute. reflexivity.
Defined.

Lemma destroy_all_deletes_each_program_witness :
  let w :=
    snd (gl_shader_create (mk_requirements SHADER_VARIANT_RGBA false)
           (snd (gl_shader_create (mk_requirements SHADER_VARIANT_SOLID true)
                   Mock.empty))) in
  let w' := snd (destroy_all w) in
  List.length (shader_list w) = 2%nat /\
  shader_list w' = [] /\
  (exists new,
     gl_calls (gl w') = rev new ++ gl_calls (gl w) /\
     new = map (fun e => DeleteProgram (Shader.program (snd e)))
               (shader_list w) /\
     programs_deleted new =
       map (fun e => Shader.program (snd e)) (shader_list w) /\
     List.length new = List.length (shader_list w)) /\
  (forall e, In e (shader_list w) ->
             ~ In (Shader.program (snd e)) (gl_programs (gl w'))) /\
  fst (dump w') =
    [("Vertex shader body:" +++ nl
      +++ bar +++ nl +++ vertex_shader +++ nl
      +++ "Fragment shader body:" +++ nl
      +++ bar +++ nl +++ fragment_shader +++ nl
      +++ bar +++ nl)%string;
     ("Cached GLSL programs:" +++ nl
      +++ "    id: (used secs ago) description +/-flags" +++ nl)%string;
     ("Total: 0 programs." +++ nl)%string].
Proof.
  cbv zeta. split; [reflexivity|].
  apply destroy_all_deletes_each_program.
  unfold wl_list_ok. vm_compute.
  repeat constructor; cbn [In]; intuition discriminate.
Defined.

Lemma entries_stay_until_destroy_all_witness :
  let R := mk_requirements SHADER_VARIANT_Y_UV false in
  let e := (7, Shader.set_key R Shader.zero) in
  In e (shader_list
          (run_ops
             [GetOrCreate (mk_requirements SHADER_VARIANT_RGBX true); Dump;
              GetOrCreate R]
             (set_shader_list [e] Mock.empty))).
Proof.
  cbv zeta.
  apply entries_stay_until_destroy_all.
  - left. reflexivity.
  - cbn [In]. intuition discriminate.
Defined.
End MockRuns.

(** * Further properties of the shader code *)

(** ** Texts *)

Lemma append_assoc (a b c : string) : (a +++ b) +++ c = a +++ b +++ c.
Proof. induction a as [|x a IH]; simpl; [reflexivity|now rewrite IH]. Qed.

Lemma append_nil_r (a : string) : a +++ EmptyString = a.
Proof. induction a as [|x a IH]; simpl; [reflexivity|now rewrite IH]. Qed.

Lemma split_lines_no_newline (s : string) :
  no_newline s = true -> split_lines s = ([], s).
Proof.
  induction s as [|c s IH]; simpl; [reflexivity|].
  intros H. apply andb_prop in H. destruct H as [Hc Hs].
  rewrite (IH Hs). apply negb_true_iff in Hc. now rewrite Hc.
Qed.

Lemma split_lines_line (l t : string) :
  no_newline l = true ->
  split_lines (l +++ nl +++ t) =
  (l :: fst (split_lines t), snd (split_lines t)).
Proof.
  induction l as [|c l IH]; intros H.
  - simpl. now destruct (split_lines t).
  - cbn [String.append split_lines no_newline] in *.
    apply andb_prop in H. destruct H as [Hc Hl].
    rewrite (IH Hl). apply negb_true_iff in Hc. now rewrite Hc.
Qed.

Lemma split_lines_join (lines : list string) (rest : string) :
  forallb no_newline lines = true -> no_newline rest = true ->
  split_lines (join_lines lines rest) = (lines, rest).
Proof.
  intros Hl Hr. induction lines as [|l lines IH]; cbn [join_lines].
  - now apply split_lines_no_newline.
  - cbn [forallb] in Hl. apply andb_prop in Hl. destruct Hl as [H1 H2].
    rewrite (split_lines_line _ _ H1), (IH H2). reflexivity.
Qed.

(** The lines of two texts put together: the rest of the first goes in
    front of the first line of the second. *)
Lemma split_lines_app (a b : string) :
  split_lines (a +++ b) =
  let (la, ra) := split_lines a in
  let (lb, rb) := split_lines b in
  match lb with
  | [] => (la, ra +++ rb)
  | l :: lb' => (la ++ (ra +++ l) :: lb', rb)
  end.
Proof.
  induction a as [|c a IH]; simpl.
  - destruct (split_lines b) as [lb rb]. now destruct lb.
  - rewrite IH. destruct (split_lines a) as [la ra].
    destruct (split_lines b) as [lb rb].
    destruct (Ascii.eqb c "010"%char).
    + now destruct lb.
    + destruct la, lb; reflexivity.
Qed.

Lemma dump_source_render (out : string) (line : Z) (new_line : bool)
    (source : string) :
  dump_source (out, line, new_line) source =
  let (t, m) := render new_line line (fst (split_lines source))
                  (snd (split_lines source)) in
  (out +++ t, m, false).
Proof.
  unfold dump_source. destruct (split_lines source) as [lines rest].
  cbn [fst snd]. revert out line new_line.
  induction lines as [|l lines IH]; intros out line new_line.
  - cbn [fold_left render]. unfold dump_line_number.
    destruct new_line; rewrite ?append_assoc; reflexivity.
  - cbn [fold_left render].
    assert (E : (let '(out0, line0, _) := dump_line_number (out, line, new_line) in
                 (out0 +++ l +++ nl, line0, true)) =
                ((out +++ (if new_line then fmt_6d line +++ ": " else EmptyString)
                  +++ l +++ nl), (if new_line then line + 1 else line), true)).
    { unfold dump_line_number. destruct new_line.
      - now rewrite !append_assoc.
      - reflexivity. }
    rewrite E. rewrite IH.
    destruct (render true _ lines rest) as [t m].
    now rewrite !append_assoc.
Qed.

Lemma render_app (f : bool) (n : Z) (la : list string) (ra : string)
    (lb : list string) (rb : string) :
  let (t1, m1) := render f n la ra in
  let (t2, m2) := render false m1 lb rb in
  match lb with
  | [] => render f n la (ra +++ rb)
  | l :: lb' => render f n (la ++ (ra +++ l) :: lb') rb
  end = (t1 +++ t2, m2).
Proof.
  revert f n. induction la as [|x la IH]; intros f n.
  - cbn [render app]. destruct f.
    + destruct lb as [|l lb'].
      * cbn [render]. now rewrite !append_assoc.
      * cbn [render]. destruct (render true (n + 1) lb' rb) as [t m].
        cbn [String.append]. now rewrite !append_assoc.
    + destruct lb as [|l lb'].
      * reflexivity.
      * cbn [render]. destruct (render true n lb' rb) as [t m].
        cbn [String.append]. now rewrite !append_assoc.
  - cbn [render app].
    specialize (IH true (if f then n + 1 else n)).
    destruct (render true (if f then n + 1 else n) la ra) as [t1 m1].
    destruct (render false m1 lb rb) as [t2 m2].
    destruct lb as [|l lb'].
    + cbn [render]. rewrite IH. now rewrite !append_assoc.
    + cbn [render app]. cbn [render app] in IH.
      change ((fix app (l0 m : list string) {struct l0} : list string :=
                 match l0 with [] => m | a :: l1 => a :: app l1 m end) la
                ((ra +++ l) :: lb')) with (la ++ (ra +++ l) :: lb') in *.
      rewrite IH. now rewrite !append_assoc.
Qed.

Lemma dump_source_app (st : string * Z * bool) (a b : string) :
  dump_source (dump_source st a) b = dump_source st (a +++ b).
Proof.
  destruct st as [[out n] f].
  rewrite (dump_source_render out n f a).
  rewrite (dump_source_render out n f (a +++ b)).
  rewrite split_lines_app.
  pose proof (render_app f n (fst (split_lines a)) (snd (split_lines a))
                (fst (split_lines b)) (snd (split_lines b))) as H.
  destruct (split_lines a) as [la ra].
  cbn [fst snd] in *.
  destruct (render f n la ra) as [t1 m1].
  rewrite (dump_source_render (out +++ t1) m1 false b).
  destruct (split_lines b) as [lb rb]. cbn [fst snd] in *.
  destruct (render false m1 lb rb) as [t2 m2].
  destruct lb; cbn [fst snd]; rewrite H, append_assoc; reflexivity.
Qed.

Lemma fold_dump_source (s : string) (ss : list string)
    (st : string * Z * bool) :
  fold_left dump_source (s :: ss) st = dump_source st (concat EmptyString (s :: ss)).
Proof.
  revert s st. induction ss as [|s' ss IH]; intros s st.
  - reflexivity.
  - cbn [fold_left] in *. rewrite IH, dump_source_app.
    cbn [concat String.append]. reflexivity.
Qed.

Lemma render_numbered (n : Z) (lines : list string) (rest : string) :
  fst (render true n lines rest) = numbered n lines rest.
Proof.
  revert n. induction lines as [|l lines IH]; intros n; cbn [render numbered].
  - reflexivity.
  - rewrite <- IH. destruct (render true (n + 1) lines rest) as [t m].
    cbn [fst]. now rewrite append_assoc.
Qed.

(** X1: [dump_program_with_line_numbers] numbers the lines of the program
    the sources make up together, not the lines of each source: when the
    sources, put end to end, are the lines [lines], each ended by a newline,
    followed by [rest], the dump is those lines, each after its number from
    1 on in a field of six, a colon and a space, and then [rest] after the
    next number -- also when [rest] is empty. *)
Theorem dump_numbers_concatenated_program (s : string) (ss : list string)
    (lines : list string) (rest : string) :
  concat EmptyString (s :: ss) = join_lines lines rest ->
  forallb no_newline lines = true ->
  no_newline rest = true ->
  dump_text (s :: ss) = numbered 1 lines rest.
Proof.
  intros E Hl Hr. unfold dump_text.
  rewrite fold_dump_source, E, dump_source_render.
  rewrite (split_lines_join _ _ Hl Hr). cbn [fst snd].
  rewrite <- render_numbered.
  now destruct (render true 1 lines rest) as [t m].
Qed.


(** ** compile_shader, gl_shader_create and gl_shader_destroy *)

Lemma length_substring_le (n m : nat) (s : string) :
  (String.length (substring n m s) <= m)%nat.
Proof.
  revert n m. induction s as [|c s IH]; intros n m.
  - destruct n, m; simpl; lia.
  - destruct n as [|n].
    + destruct m as [|m]; simpl; [lia|]. specialize (IH O m). lia.
    + simpl. apply IH.
Qed.

Section MoreShaders.
Context {drv : gl_driver} {src : shader_sources}.

(** X2: when [compile_shader] returns [GL_NONE], the driver was asked for
    the info log of the shader right after its compile status was read as
    false; the log, cut to the 511 characters that fit the buffer, is
    written to the compositor's log, followed by the line
    ["shader source:"] and by the numbered dump of the sources; the shader
    scope and the list of shaders are left as they were. *)
Theorem compile_shader_rejected (type : shader_type) (sources : list string)
    (w : world) :
  fst (compile_shader type sources w) = GL_NONE ->
  let w' := snd (compile_shader type sources w) in
  exists s hist msg,
    gl_calls (gl w') =
      GetShaderInfoLog s 512 :: GetShaderiv_COMPILE_STATUS s false :: hist /\
    msg = substring 0 511
            (driver_shader_info_log
               (GetShaderiv_COMPILE_STATUS s false :: hist) s) /\
    (String.length msg <= 511)%nat /\
    log_out w' =
      log_out w ++ [("shader info: " +++ msg +++ nl)%string;
                    ("shader source:" +++ nl)%string;
                    dump_text sources +++ nl] /\
    shader_scope_out w' = shader_scope_out w /\
    shader_list w' = shader_list w.
Proof.
  rewrite compile_shader_eq. cbv zeta.
  destruct (driver_compile_status _ _); cbn [fst snd].
  - intros H. exfalso. revert H. apply Z.eqb_neq, max_of_succ_nonzero.
  - intros _. do 3 eexists. world_simpl.
    split; [reflexivity|]. split; [reflexivity|].
    split; [apply length_substring_le|].
    split; [reflexivity|]. split; reflexivity.
Qed.

(** X3: when [compile_shader] returns a name other than [GL_NONE], that
    name was the name of no live shader or program before the call and is
    the name of a live shader after it; the driver saw the four calls
    glCreateShader, glShaderSource with exactly the given sources,
    glCompileShader and glGetShaderiv, and nothing was logged. *)
Theorem compile_shader_accepted (type : shader_type) (sources : list string)
    (w : world) :
  fst (compile_shader type sources w) <> GL_NONE ->
  let s := fst (compile_shader type sources w) in
  let w' := snd (compile_shader type sources w) in
  ~ In s (gl_shaders (gl w)) /\
  ~ In s (gl_programs (gl w)) /\
  gl_shaders (gl w') = s :: gl_shaders (gl w) /\
  gl_programs (gl w') = gl_programs (gl w) /\
  gl_calls (gl w') =
    [GetShaderiv_COMPILE_STATUS s true; CompileShader s;
     ShaderSource s sources; CreateShader type s] ++ gl_calls (gl w) /\
  log_out w' = log_out w /\
  shader_scope_out w' = shader_scope_out w /\
  shader_list w' = shader_list w.
Proof.
  rewrite compile_shader_eq. cbv zeta.
  destruct (driver_compile_status _ _); cbn [fst snd].
  - intros _. world_simpl. unfold gl_gen_name.
    split; [fresh_name|]. split; [fresh_name|].
    repeat split.
  - intros H. now contradiction H.
Qed.

(** X6: [gl_shader_destroy] undoes a successful [gl_shader_create]: the
    list of shaders, the live programs and the live shader objects of the
    driver and the compositor's log are what they were before the creation,
    and the last call the driver sees is the deletion of the program that
    was created. *)
Theorem gl_shader_create_destroy_restores (R : gl_shader_requirements)
    (w : world) (p : ptr) :
  fst (gl_shader_create R w) = Some p ->
  let w1 := snd (gl_shader_create R w) in
  let w2 := snd (gl_shader_destroy p w1) in
  shader_list w2 = shader_list w /\
  gl_programs (gl w2) = gl_programs (gl w) /\
  gl_shaders (gl w2) = gl_shaders (gl w) /\
  log_out w2 = log_out w /\
  hd_error (gl_calls (gl w2)) = Some (DeleteProgram (program_name w)).
Proof.
  intros Hp. cbv zeta.
  pose proof (gl_shader_create_spec R w) as H. cbv zeta in H.
  destruct H as (_ & _ & _ & Hc & Hs & Hpr & Hlog & Hout).
  unfold create_log, shaders_left, programs_left in *.
  destruct (outcome R w);
    try (destruct Hout as [Hnone _]; rewrite Hnone in Hp; discriminate).
  destruct Hout as (shader & Hr & Hl & Hk & Hprog & _).
  rewrite Hr in Hp. injection Hp as <-.
  assert (Hat : shader_at (max_of (map fst (shader_list w)) + 1)
                  (shader_list (snd (gl_shader_create R w))) = Some shader).
  { rewrite Hl. cbn [shader_at]. now rewrite Z.eqb_refl. }
  pose proof (gl_shader_destroy_spec _ _ _ Hat) as Hd. cbv zeta in Hd.
  destruct Hd as (Hl2 & Hc2 & Hp2 & Hs2 & _ & _ & Hlog2 & _).
  repeat split.
  - rewrite Hl2, Hl. cbn [filter fst]. rewrite Z.eqb_refl. cbn [negb].
    apply filter_fresh, max_of_fresh.
  - rewrite Hp2, Hpr, Hprog. cbn [app]. apply remove_head_fresh.
    unfold program_name. fresh_name.
  - rewrite Hs2, Hs. reflexivity.
  - rewrite Hlog2, Hlog. now rewrite app_nil_r.
  - rewrite Hc2, Hprog. reflexivity.
Qed.

(** X7: [gl_shader_destroy] of a linked shader unlinks that shader and no
    other -- the list gets one shorter and every other address still leads
    to its shader --, asks the driver for one thing, the deletion of the
    shader's program, leaves the live shader objects and the compositor's
    log alone, and prints ["Deleting shader program for: "] with the
    description of the key to the shader scope exactly when the scope is
    enabled. *)
Theorem gl_shader_destroy_unlinks_one (p : ptr) (shader : gl_shader)
    (w : world) :
  wl_list_ok (shader_list w) ->
  shader_at p (shader_list w) = Some shader ->
  let w' := snd (gl_shader_destroy p w) in
  shader_at p (shader_list w') = None /\
  (forall q, q <> p ->
             shader_at q (shader_list w') = shader_at q (shader_list w)) /\
  List.length (shader_list w') = (List.length (shader_list w) - 1)%nat /\
  gl_calls (gl w') = DeleteProgram (Shader.program shader) :: gl_calls (gl w) /\
  gl_shaders (gl w') = gl_shaders (gl w) /\
  log_out w' = log_out w /\
  shader_scope_out w' =
    shader_scope_out w ++
    (if shader_scope_enabled w
     then [("Deleting shader program for: "
            +++ fmt_s (create_shader_description_string (Shader.key shader))
            +++ nl)%string]
     else []).
Proof.
  intros Hok Hat. cbv zeta.
  destruct (gl_shader_destroy_spec p shader w Hat)
    as (Hl & Hc & _ & Hs & _ & _ & Hlog & Hout).
  rewrite Hl. split; [|split; [|split]].
  - clear. induction (shader_list w) as [|[q s] l IH]; [reflexivity|].
    cbn [filter fst]. destruct (Z.eqb_spec q p) as [->|Hn]; cbn [negb].
    + exact IH.
    + cbn [shader_at]. destruct (Z.eqb_spec q p); [contradiction|exact IH].
  - intros q Hq. clear - Hq.
    induction (shader_list w) as [|[r s] l IH]; [reflexivity|].
    cbn [filter fst shader_at]. destruct (Z.eqb_spec r p) as [->|Hn]; cbn [negb].
    + destruct (Z.eqb_spec p q) as [e|_]; [congruence|exact IH].
    + cbn [shader_at]. now rewrite IH.
  - clear - Hok Hat. unfold wl_list_ok in Hok.
    induction (shader_list w) as [|[q s] l IH]; [discriminate|].
    cbn [map fst] in Hok. apply NoDup_cons_iff in Hok. destruct Hok as [Hn Hok].
    cbn [filter fst shader_at] in *.
    destruct (Z.eqb_spec q p) as [->|Hqp]; cbn [negb].
    + rewrite filter_fresh by exact Hn. cbn [List.length]. lia.
    + cbn [List.length]. rewrite (IH Hok Hat).
      destruct l; [discriminate|]. cbn [List.length]. lia.
  - repeat split; assumption.
Qed.
End MoreShaders.

(** ** The configuration block *)

Lemma length_append (a b : string) :
  String.length (a +++ b) = (String.length a + String.length b)%nat.
Proof. induction a as [|c a IH]; simpl; [reflexivity|now rewrite IH]. Qed.

Lemma append_cancel_r (f a b : string) : a +++ f = b +++ f -> a = b.
Proof.
  intros H.
  assert (Hlen : String.length a = String.length b).
  { apply (f_equal String.length) in H. rewrite !length_append in H. lia. }
  revert b H Hlen. induction a as [|c a IH]; intros [|d b] H Hlen;
    try discriminate; [reflexivity|].
  simpl in H, Hlen. injection H as -> H. f_equal. apply IH; [exact H|lia].
Qed.

Lemma append_cancel_l (f a b : string) : f +++ a = f +++ b -> a = b.
Proof.
  induction f as [|c f IH]; simpl; [tauto|]. intros H. injection H as H. auto.
Qed.

Lemma create_shader_config_string_inj (a b : gl_shader_requirements) :
  create_shader_config_string a = create_shader_config_string b -> a = b.
Proof.
  destruct a as [va ta], b as [vb tb].
  destruct ta, tb, va, vb; intros H; try reflexivity; cbv in H;
    discriminate H.
Qed.

(** X4: the configuration block of [create_shader_config_string] keeps
    the fragment programs of different requirements apart: if the texts
    built from the version line, the block and one fragment shader body
    are equal for two requirements, the requirements are equal. *)
Theorem fragment_programs_distinct (a b : gl_shader_requirements)
    (conf_a conf_b body : string) :
  create_shader_config_string a = Some conf_a ->
  create_shader_config_string b = Some conf_b ->
  concat EmptyString [("#version 100" +++ nl)%string; conf_a; body] =
  concat EmptyString [("#version 100" +++ nl)%string; conf_b; body] ->
  a = b.
Proof.
  intros Ha Hb H.
  change (("#version 100" +++ nl) +++ conf_a +++ body =
          ("#version 100" +++ nl) +++ conf_b +++ body)%string in H.
  apply append_cancel_l, append_cancel_r in H.
  apply create_shader_config_string_inj. congruence.
Qed.

(** ** The uniform locations of a shader *)

Section Uniforms.
Context {drv : gl_driver} {src : shader_sources}.

Ltac run :=
  cbv beta iota zeta delta
    [gl_shader_create error_link error_fragment error_vertex
     zalloc weston_log_scope_is_enabled create_shader_config_string asprintf
     glCreateProgram glAttachShader glBindAttribLocation glLinkProgram
     glGetProgramiv_LINK_STATUS glGetProgramInfoLog glDeleteProgram
     glDeleteShader glGetUniformLocation wl_list_insert weston_log
     weston_log_scope_printf gl_call_void bind ret gl_gen_name
     set_gl set_log_out set_shader_scope_out set_shader_list gl_record
     fst snd gl shader_list gl_calls gl_shaders gl_programs log_out
     shader_scope_enabled shader_scope_out presentation_clock
     Shader.key Shader.program Shader.vertex_shader Shader.fragment_shader
     Shader.proj_uniform Shader.tex_uniforms Shader.alpha_uniform
     Shader.color_uniform Shader.last_used
     Shader.set_key Shader.set_program Shader.set_vertex_shader
     Shader.set_fragment_shader Shader.set_uniforms Shader.zero negb
     GLuint GLint ptr];
  cbn [rev List.app].

Ltac status :=
  match goal with
  | |- context [if driver_compile_status ?c ?s then _ else _] =>
      destruct (driver_compile_status c s)
  | |- context [if driver_link_status ?c ?s then _ else _] =>
      destruct (driver_link_status c s)
  end.

Ltac compiled :=
  try rewrite max_of_succ_nonzero;
  try change (GL_NONE =? GL_NONE) with true;
  run.

(** X5: a shader created by [gl_shader_create] holds, in [proj_uniform],
    [tex_uniforms], [alpha_uniform] and [color_uniform], what the driver
    answered when asked, in this order, for the locations of ["proj"],
    ["tex"], ["tex1"], ["tex2"], ["alpha"] and ["unicolor"] in the new
    program; these six questions are the last calls of the creation. *)
Theorem gl_shader_create_uniform_locations (R : gl_shader_requirements)
    (w : world) (p : ptr) :
  fst (gl_shader_create R w) = Some p ->
  let w' := snd (gl_shader_create R w) in
  exists shader hist,
    shader_at p (shader_list w') = Some shader /\
    gl_calls (gl w') =
      [GetUniformLocation (Shader.program shader) "unicolor";
       GetUniformLocation (Shader.program shader) "alpha";
       GetUniformLocation (Shader.program shader) "tex2";
       GetUniformLocation (Shader.program shader) "tex1";
       GetUniformLocation (Shader.program shader) "tex";
       GetUniformLocation (Shader.program shader) "proj"] ++ hist /\
    let prog := Shader.program shader in
    let asked names :=
      map (GetUniformLocation prog) names ++ hist in
    Shader.proj_uniform shader = driver_uniform_location hist prog "proj" /\
    Shader.tex_uniforms shader =
      (driver_uniform_location (asked ["proj"%string]) prog "tex",
       driver_uniform_location (asked ["tex"; "proj"]%string) prog "tex1",
       driver_uniform_location (asked ["tex1"; "tex"; "proj"]%string)
         prog "tex2") /\
    Shader.alpha_uniform shader =
      driver_uniform_location (asked ["tex2"; "tex1"; "tex"; "proj"]%string)
        prog "alpha" /\
    Shader.color_uniform shader =
      driver_uniform_location
        (asked ["alpha"; "tex2"; "tex1"; "tex"; "proj"]%string)
        prog "unicolor".
Proof.
  destruct w as [en out l clk [S P C] lg].
  cbv zeta.
  destruct en; run; rewrite compile_shader_eq; run.
  all: status; compiled.
  all: try (intros H; discriminate H).
  all: rewrite compile_shader_eq; run.
  all: status; compiled.
  all: try (intros H; discriminate H).
  all: status; run.
  all: try (intros H; discriminate H).
  all: intros H; injection H as <-.
  all: cbn [shader_at]; rewrite Z.eqb_refl.
  all: do 2 eexists.
  all: split; [reflexivity|].
  all: split; [reflexivity|].
  all: cbn [map List.app].
  all: repeat split.
Qed.
End Uniforms.

(** * Properties of the image client *)

(** ** Memory *)

Lemma load_lt (block : list Z) (i : Z) :
  0 <= i < Z.of_nat (List.length block) -> exists v, load block i = Some v.
Proof.
  intros H. unfold load. destruct (Z.ltb_spec i 0); [lia|].
  destruct (nth_error block (Z.to_nat i)) eqn:E; [eauto|].
  apply nth_error_None in E. lia.
Qed.

Lemma load_ge (block : list Z) (i : Z) :
  Z.of_nat (List.length block) <= i -> load block i = None.
Proof.
  intros H. unfold load. destruct (Z.ltb_spec i 0); [reflexivity|].
  apply nth_error_None. lia.
Qed.

Lemma memcpy_defined (dst_block : list Z) (dst : Z) (src_block : list Z)
    (src n : Z) :
  0 <= dst -> 0 <= src -> 0 <= n ->
  dst + n <= Z.of_nat (List.length dst_block) ->
  src + n <= Z.of_nat (List.length src_block) ->
  exists m, memcpy dst_block dst src_block src n = Some m.
Proof.
  intros. unfold memcpy.
  destruct (Z.leb_spec 0 dst); [|lia]. destruct (Z.leb_spec 0 src); [|lia].
  destruct (Z.leb_spec 0 n); [|lia].
  destruct (Z.leb_spec (dst + n) (Z.of_nat (List.length dst_block))); [|lia].
  destruct (Z.leb_spec (src + n) (Z.of_nat (List.length src_block))); [|lia].
  cbn [andb]. eauto.
Qed.

Lemma memcpy_spec (dst_block : list Z) (dst : Z) (src_block : list Z)
    (src n : Z) (m : list Z) :
  memcpy dst_block dst src_block src n = Some m ->
  List.length m = List.length dst_block /\
  forall i, load m i =
            if (dst <=? i) && (i <? dst + n)
            then load src_block (src + (i - dst))
            else load dst_block i.
Proof.
  unfold memcpy.
  destruct (Z.leb_spec 0 dst); [|discriminate].
  destruct (Z.leb_spec 0 src); [|discriminate].
  destruct (Z.leb_spec 0 n); [|discriminate].
  destruct (Z.leb_spec (dst + n) (Z.of_nat (List.length dst_block)));
    [|discriminate].
  destruct (Z.leb_spec (src + n) (Z.of_nat (List.length src_block)));
    [|discriminate].
  cbn [andb]. intros E. injection E as <-. split.
  - rewrite !length_app, !length_firstn, !length_skipn. lia.
  - intros i. unfold load.
    destruct (Z.ltb_spec i 0) as [Hi|Hi].
    + destruct (Z.leb_spec dst i); [lia|]. reflexivity.
    + rewrite !nth_error_app, !length_firstn, !length_skipn.
      rewrite !nth_error_firstn, !nth_error_skipn.
      destruct (Z.leb_spec dst i); destruct (Z.ltb_spec i (dst + n));
        cbn [andb].
      * destruct (Z.ltb_spec (src + (i - dst)) 0); [lia|].
        destruct (Nat.ltb_spec (Z.to_nat i)
                    (Nat.min (Z.to_nat dst) (List.length dst_block))); [lia|].
        destruct (Nat.ltb_spec
                    (Z.to_nat i - Nat.min (Z.to_nat dst) (List.length dst_block))
                    (Nat.min (Z.to_nat n)
                       (List.length src_block - Z.to_nat src))); [|lia].
        destruct (Nat.ltb_spec
                    (Z.to_nat i - Nat.min (Z.to_nat dst) (List.length dst_block))
                    (Z.to_nat n)); [|lia].
        f_equal. lia.
      * destruct (Nat.ltb_spec (Z.to_nat i)
                    (Nat.min (Z.to_nat dst) (List.length dst_block))); [lia|].
        destruct (Nat.ltb_spec
                    (Z.to_nat i - Nat.min (Z.to_nat dst) (List.length dst_block))
                    (Nat.min (Z.to_nat n)
                       (List.length src_block - Z.to_nat src))); [lia|].
        f_equal. lia.
      * destruct (Nat.ltb_spec (Z.to_nat i)
                    (Nat.min (Z.to_nat dst) (List.length dst_block))); [|lia].
        destruct (Nat.ltb_spec (Z.to_nat i) (Z.to_nat dst)); [|lia].
        reflexivity.
      * lia.
Qed.

Lemma store_spec (block : list Z) (i v : Z) :
  0 <= i < Z.of_nat (List.length block) ->
  exists m, store block i v = Some m /\
            List.length m = List.length block /\
            forall j, load m j = if j =? i then Some v else load block j.
Proof.
  intros H. unfold store.
  destruct (Z.leb_spec 0 i); [|lia].
  destruct (Z.ltb_spec i (Z.of_nat (List.length block))); [|lia].
  cbn [andb]. eexists. split; [reflexivity|]. split.
  - rewrite length_app. cbn [List.length].
    rewrite length_firstn, length_skipn. lia.
  - intros j. unfold load. destruct (Z.ltb_spec j 0).
    + destruct (Z.eqb_spec j i); [lia|reflexivity].
    + rewrite nth_error_app, length_firstn.
      destruct (Z.eqb_spec j i) as [->|Hn].
      * destruct (Nat.ltb_spec (Z.to_nat i)
                    (Nat.min (Z.to_nat i) (List.length block))); [lia|].
        replace (Z.to_nat i - Nat.min (Z.to_nat i) (List.length block))%nat
          with O by lia.
        reflexivity.
      * destruct (Nat.ltb_spec (Z.to_nat j)
                    (Nat.min (Z.to_nat i) (List.length block))).
        -- rewrite nth_error_firstn.
           destruct (Nat.ltb_spec (Z.to_nat j) (Z.to_nat i)); [|lia].
           reflexivity.
        -- remember (Z.to_nat j - Nat.min (Z.to_nat i) (List.length block))%nat
             as k eqn:Ek.
           destruct k as [|k]; [lia|]. cbn [nth_error].
           rewrite nth_error_skipn. f_equal. lia.
Qed.

(** What the loop over the lines of a plane does: line [r] of the source
    lands at [dst + r * dst_step], the bytes between the lines stay. *)
Lemma copy_rows_spec (rows : nat) (n dst_step src_step : Z) :
  forall (dst_block : list Z) (dst : Z) (src_block : list Z) (src : Z),
  0 <= n <= dst_step -> 0 <= src_step -> 0 <= dst -> 0 <= src ->
  (rows <> O ->
   dst + (Z.of_nat rows - 1) * dst_step + n
   <= Z.of_nat (List.length dst_block)) ->
  (rows <> O ->
   src + (Z.of_nat rows - 1) * src_step + n
   <= Z.of_nat (List.length src_block)) ->
  exists m,
    copy_rows rows n dst_step src_step dst_block dst src_block src = Some m /\
    List.length m = List.length dst_block /\
    (forall r c, 0 <= r < Z.of_nat rows -> 0 <= c < n ->
                 load m (dst + r * dst_step + c) =
                 load src_block (src + r * src_step + c)) /\
    (forall i, (forall r, 0 <= r < Z.of_nat rows ->
                          ~ (dst + r * dst_step <= i < dst + r * dst_step + n)) ->
               load m i = load dst_block i).
Proof.
  induction rows as [|rows IH]; intros dst_block dst src_block src Hn Hs Hd Hsrc Hdb Hsb.
  - exists dst_block. cbn [copy_rows].
    split; [reflexivity|]. split; [reflexivity|]. split; [intros; lia|].
    reflexivity.
  - cbn [copy_rows].
    assert (Hd0 : dst + n <= Z.of_nat (List.length dst_block)) by nia.
    assert (Hs0 : src + n <= Z.of_nat (List.length src_block)) by nia.
    destruct (memcpy_defined dst_block dst src_block src n) as [m1 E1];
      try lia.
    rewrite E1. destruct (memcpy_spec _ _ _ _ _ _ E1) as [L1 C1].
    assert (Hdb' : rows <> O ->
                   dst + dst_step + (Z.of_nat rows - 1) * dst_step + n
                   <= Z.of_nat (List.length m1)).
    { intros Hr. rewrite L1. specialize (Hdb ltac:(discriminate)). nia. }
    assert (Hsb' : rows <> O ->
                   src + src_step + (Z.of_nat rows - 1) * src_step + n
                   <= Z.of_nat (List.length src_block)).
    { intros Hr. specialize (Hsb ltac:(discriminate)). nia. }
    destruct (IH m1 (dst + dst_step) src_block (src + src_step)
                Hn Hs ltac:(lia) ltac:(lia) Hdb' Hsb')
      as (m & E & L & Hrows & Hrest).
    exists m. split; [exact E|]. split; [congruence|]. split.
    + intros r c Hr Hc. destruct (Z.eq_dec r 0) as [->|Hr0].
      * rewrite Hrest.
        -- rewrite C1.
           destruct (Z.leb_spec dst (dst + 0 * dst_step + c)); [|lia].
           destruct (Z.ltb_spec (dst + 0 * dst_step + c) (dst + n)); [|lia].
           cbn [andb]. f_equal. lia.
        -- intros r' Hr'. nia.
      * specialize (Hrows (r - 1) c ltac:(lia) Hc).
        replace (dst + dst_step + (r - 1) * dst_step + c)
          with (dst + r * dst_step + c) in Hrows by ring.
        replace (src + src_step + (r - 1) * src_step + c)
          with (src + r * src_step + c) in Hrows by ring.
        exact Hrows.
    + intros i Hi. rewrite Hrest.
      * rewrite C1. specialize (Hi 0 ltac:(lia)).
        destruct (Z.leb_spec dst i); destruct (Z.ltb_spec i (dst + n));
          cbn [andb]; try reflexivity. lia.
      * intros r Hr. specialize (Hi (r + 1) ltac:(lia)).
        replace (dst + (r + 1) * dst_step) with (dst + dst_step + r * dst_step)
          in Hi by ring.
        exact Hi.
Qed.

(** Two planes copied one after the other, the second right below the
    first in the source and in the destination: together, the lines of
    one picture. *)
Lemma copy_two_planes (h1 h2 : nat) (n step : Z) (dst_block src_block : list Z) :
  0 <= n <= step ->
  step * (Z.of_nat h1 + Z.of_nat h2) <= Z.of_nat (List.length dst_block) ->
  n * (Z.of_nat h1 + Z.of_nat h2) <= Z.of_nat (List.length src_block) ->
  exists m1 m2,
    copy_rows h1 n step n dst_block 0 src_block 0 = Some m1 /\
    copy_rows h2 n step n m1 (step * Z.of_nat h1) src_block (n * Z.of_nat h1)
    = Some m2 /\
    List.length m2 = List.length dst_block /\
    (forall row col, 0 <= row < Z.of_nat h1 + Z.of_nat h2 -> 0 <= col < n ->
                     load m2 (row * step + col) =
                     load src_block (row * n + col)) /\
    (forall i, (forall row col, 0 <= row < Z.of_nat h1 + Z.of_nat h2 ->
                                0 <= col < n -> i <> row * step + col) ->
               load m2 i = load dst_block i).
Proof.
  intros Hn Hd Hs.
  destruct (copy_rows_spec h1 n step n dst_block 0 src_block 0)
    as (m1 & E1 & L1 & R1 & U1); try lia; try (intros; nia).
  destruct (copy_rows_spec h2 n step n m1 (step * Z.of_nat h1) src_block
              (n * Z.of_nat h1))
    as (m2 & E2 & L2 & R2 & U2); try lia; try nia;
    try (intros; rewrite ?L1; nia).
  exists m1, m2. split; [exact E1|]. split; [exact E2|].
  split; [congruence|]. split.
  - intros row col Hrow Hcol.
    destruct (Z.lt_ge_cases row (Z.of_nat h1)) as [Hlt|Hge].
    + rewrite U2.
      * specialize (R1 row col ltac:(lia) Hcol).
        replace (0 + row * step + col) with (row * step + col) in R1 by ring.
        replace (0 + row * n + col) with (row * n + col) in R1 by ring.
        exact R1.
      * intros r Hr. nia.
    + specialize (R2 (row - Z.of_nat h1) col ltac:(lia) Hcol).
      replace (step * Z.of_nat h1 + (row - Z.of_nat h1) * step + col)
        with (row * step + col) in R2 by ring.
      replace (n * Z.of_nat h1 + (row - Z.of_nat h1) * n + col)
        with (row * n + col) in R2 by ring.
      exact R2.
  - intros i Hi. rewrite U2, U1; [reflexivity| |].
    + intros r Hr Hin.
      apply (Hi r (i - r * step)); [lia|lia|ring].
    + intros r Hr Hin.
      apply (Hi (Z.of_nat h1 + r) (i - (Z.of_nat h1 + r) * step));
        [lia|lia|ring].
Qed.

(** ** Reading the file *)

Lemma malloc_spec {heap : libc} (size : Z) :
  0 <= size ->
  exists block, malloc size = Some block /\
                Z.of_nat (List.length block) = size.
Proof.
  intros H. unfold malloc. destruct (Z.ltb_spec size 0); [lia|].
  eexists. split; [reflexivity|]. rewrite length_map, length_seq. lia.
Qed.

Lemma fread_spec (block : list Z) (n : Z) (fp : FILE) :
  0 <= n -> Z.of_nat (List.length block) = n -> 0 <= file_position fp ->
  file_position fp + n <= Z.of_nat (List.length (file_bytes fp)) ->
  exists block',
    fread block n fp =
      (n, block', mk_FILE (file_bytes fp) (file_position fp + n)) /\
    Z.of_nat (List.length block') = n /\
    forall i, 0 <= i < n ->
              load block' i = load (file_bytes fp) (file_position fp + i).
Proof.
  intros Hn Hb Hp Hf. unfold fread.
  set (data := firstn (Z.to_nat n)
                 (skipn (Z.to_nat (file_position fp)) (file_bytes fp))).
  assert (Hl : List.length data = Z.to_nat n).
  { unfold data. rewrite length_firstn, length_skipn. lia. }
  eexists. split; [|split].
  - rewrite Hl. rewrite Z2Nat.id by lia. reflexivity.
  - rewrite length_app, length_skipn, Hl. lia.
  - intros i Hi. unfold load.
    destruct (Z.ltb_spec i 0); [lia|].
    destruct (Z.ltb_spec (file_position fp + i) 0); [lia|].
    rewrite nth_error_app1 by lia.
    unfold data. rewrite nth_error_firstn, nth_error_skipn.
    destruct (Nat.ltb_spec (Z.to_nat i) (Z.to_nat n)); [|lia].
    f_equal. lia.
Qed.

Lemma shiftr_1 (a : Z) : Z.shiftr a 1 = a / 2.
Proof. now rewrite Z.shiftr_div_pow2 by lia. Qed.

Lemma ulong_small (z : Z) : 0 <= z < 18446744073709551616 -> ulong z = z.
Proof. intros H. unfold ulong. now apply Z.mod_small. Qed.

Lemma uint32_small (z : Z) : 0 <= z < 4294967296 -> uint32 z = z.
Proof. intros H. unfold uint32. now apply Z.mod_small. Qed.

(** ** The copies of a frame *)

Section CopyProps.
Context {heap : libc}.

(** X12: [copy_nv12_to_dma_buf] reads the first frame of the file,
    wherever the file position was, and puts line [row] of the frame --
    the lines of the luma plane followed by the half as many lines of the
    chroma plane, [width] bytes each -- at offset [row * stride] of the
    mapping; every other byte of the mapping keeps its value.  This holds
    for a mapping of at least [stride] times three halves of the height
    bytes, a stride not below the width and a file that holds a frame. *)
Theorem copy_nv12_to_dma_buf_lines (fp : FILE) (b : buffer) :
  0 <= width b <= stride b ->
  0 <= height b ->
  stride b * (height b + height b / 2) <= Z.of_nat (List.length (mmap b)) ->
  stride b * height b < 18446744073709551616 ->
  width b * height b + width b * height b / 2 <= INT_MAX ->
  width b * height b + width b * height b / 2
  <= Z.of_nat (List.length (file_bytes fp)) ->
  exists m,
    copy_nv12_to_dma_buf fp b =
      Some (mk_FILE (file_bytes fp)
                    (width b * height b + width b * height b / 2),
            set_mmap m b,
            [sizes_log (uint32 (file_size_of fp))
                       (width b * height b + width b * height b / 2)
                       (width b * height b);
             hkps b]) /\
    List.length m = List.length (mmap b) /\
    (forall row col,
       0 <= row < height b + height b / 2 -> 0 <= col < width b ->
       load m (row * stride b + col) =
       load (file_bytes fp) (row * width b + col)) /\
    (forall i,
       (forall row col,
          0 <= row < height b + height b / 2 -> 0 <= col < width b ->
          i <> row * stride b + col) ->
       load m i = load (mmap b) i).
Proof.
  intros Hw Hh Hm Hu Hint Hf.
  unfold copy_nv12_to_dma_buf. rewrite !shiftr_1.
  assert (Hwh : 0 <= width b * height b) by nia.
  assert (Hhalf : width b * (height b / 2) <= width b * height b / 2).
  { apply Z.div_le_lower_bound; [lia|].
    pose proof (Z.mul_div_le (height b) 2 ltac:(lia)). nia. }
  set (frame_size := width b * height b + width b * height b / 2) in *.
  assert (Hfs : 0 <= frame_size).
  { unfold frame_size. pose proof (Z.div_pos (width b * height b) 2). lia. }
  destruct (malloc_spec frame_size Hfs) as (block & -> & Hbl).
  destruct (fread_spec block frame_size (rewind fp) Hfs Hbl)
    as (src & -> & Hsl & Hsrc); cbn [rewind file_position file_bytes]; try lia.
  cbn [rewind file_position file_bytes] in *.
  unfold luma_size. rewrite ulong_small by nia.
  assert (Hlines : width b * (height b + height b / 2) <= frame_size).
  { unfold frame_size. lia. }
  destruct (copy_two_planes (Z.to_nat (height b)) (Z.to_nat (height b / 2))
              (width b) (stride b) (mmap b) src)
    as (m1 & m2 & E1 & E2 & L & Hrows & Hrest).
  { lia. }
  { rewrite !Z2Nat.id by (try apply Z.div_pos; lia). exact Hm. }
  { rewrite !Z2Nat.id by (try apply Z.div_pos; lia). lia. }
  rewrite !Z2Nat.id in * by (try apply Z.div_pos; lia).
  rewrite E1, E2, Z.add_0_l.
  unfold short_read_log. rewrite Z.ltb_irrefl. cbn [app].
  exists m2. split; [reflexivity|]. split; [exact L|]. split.
  - intros row col Hrow Hcol. rewrite (Hrows row col Hrow Hcol).
    rewrite Hsrc by nia. reflexivity.
  - exact Hrest.
Qed.

(** X13: [copy_p010_to_dma_buf] reads the next frame of the file, from
    the file position on, and puts its lines, two bytes a pixel, at
    multiples of the stride in the mapping, luma lines first and chroma
    lines below; every other byte of the mapping keeps its value and the
    file position moves on by the frame. *)
Theorem copy_p010_to_dma_buf_lines (fp : FILE) (b : buffer) :
  0 <= width b ->
  width b * 2 <= stride b ->
  0 <= height b ->
  stride b * (height b + height b / 2) <= Z.of_nat (List.length (mmap b)) ->
  stride b * height b < 18446744073709551616 ->
  width b * height b * 2 * 3 <= INT_MAX ->
  0 <= file_position fp ->
  file_position fp + width b * height b * 3
  <= Z.of_nat (List.length (file_bytes fp)) ->
  exists m,
    copy_p010_to_dma_buf fp b =
      Some (mk_FILE (file_bytes fp)
                    (file_position fp + width b * height b * 3),
            set_mmap m b, [hkps b]) /\
    List.length m = List.length (mmap b) /\
    (forall row col,
       0 <= row < height b + height b / 2 -> 0 <= col < width b * 2 ->
       load m (row * stride b + col) =
       load (file_bytes fp) (file_position fp + row * (width b * 2) + col)) /\
    (forall i,
       (forall row col,
          0 <= row < height b + height b / 2 -> 0 <= col < width b * 2 ->
          i <> row * stride b + col) ->
       load m i = load (mmap b) i).
Proof.
  intros Hw Hs Hh Hm Hu Hint Hp Hf.
  unfold copy_p010_to_dma_buf. rewrite !shiftr_1.
  assert (Hwh : 0 <= width b * height b) by nia.
  assert (Hfs : Z.quot (width b * height b * 2 * 3) 2
                = width b * height b * 3).
  { rewrite Z.quot_div_nonneg by lia.
    replace (width b * height b * 2 * 3) with (width b * height b * 3 * 2)
      by ring.
    now rewrite Z.div_mul by lia. }
  rewrite Hfs.
  set (frame_size := width b * height b * 3) in *.
  destruct (malloc_spec frame_size ltac:(lia)) as (block & -> & Hbl).
  destruct (fread_spec block frame_size fp ltac:(lia) Hbl Hp Hf)
    as (src & -> & Hsl & Hsrc).
  unfold luma_size. rewrite ulong_small by nia.
  assert (Hhalf : 2 * (height b / 2) <= height b)
    by (apply Z.mul_div_le; lia).
  destruct (copy_two_planes (Z.to_nat (height b)) (Z.to_nat (height b / 2))
              (width b * 2) (stride b) (mmap b) src)
    as (m1 & m2 & E1 & E2 & L & Hrows & Hrest).
  { lia. }
  { rewrite !Z2Nat.id by (try apply Z.div_pos; lia). exact Hm. }
  { rewrite !Z2Nat.id by (try apply Z.div_pos; lia). unfold frame_size in *.
    nia. }
  rewrite !Z2Nat.id in * by (try apply Z.div_pos; lia).
  rewrite E1.
  replace (width b * height b * 2) with (width b * 2 * height b) by ring.
  rewrite E2.
  exists m2. split; [reflexivity|]. split; [exact L|]. split.
  - intros row col Hrow Hcol. rewrite (Hrows row col Hrow Hcol).
    rewrite Hsrc by (unfold frame_size; nia). f_equal. ring.
  - exact Hrest.
Qed.

(** X14: [copy_rgb_to_dma_buf] puts the next [width * height *
    bytes_per_pixel] bytes of the file, from the file position on, at the
    start of the mapping as one block, whatever the stride of the buffer,
    leaves the rest of the mapping as it was and moves the file position on
    by that many bytes. *)
Theorem copy_rgb_to_dma_buf_bytes (fp : FILE) (b : buffer) :
  0 <= width b -> 0 <= height b -> 0 <= bytes_per_pixel b ->
  width b * height b * bytes_per_pixel b <= INT_MAX ->
  width b * height b * bytes_per_pixel b
  <= Z.of_nat (List.length (mmap b)) ->
  0 <= file_position fp ->
  file_position fp + width b * height b * bytes_per_pixel b
  <= Z.of_nat (List.length (file_bytes fp)) ->
  exists m,
    copy_rgb_to_dma_buf fp b =
      Some (mk_FILE (file_bytes fp)
                    (file_position fp
                     + width b * height b * bytes_per_pixel b),
            set_mmap m b, []) /\
    List.length m = List.length (mmap b) /\
    (forall i, 0 <= i < width b * height b * bytes_per_pixel b ->
               load m i = load (file_bytes fp) (file_position fp + i)) /\
    (forall i, width b * height b * bytes_per_pixel b <= i ->
               load m i = load (mmap b) i).
Proof.
  intros Hw Hh Hb Hint Hm Hp Hf. unfold copy_rgb_to_dma_buf.
  set (frame_size := width b * height b * bytes_per_pixel b) in *.
  assert (Hfs : 0 <= frame_size) by (unfold frame_size; nia).
  destruct (malloc_spec frame_size Hfs) as (block & -> & Hbl).
  destruct (fread_spec block frame_size fp Hfs Hbl Hp Hf)
    as (src & -> & Hsl & Hsrc).
  destruct (memcpy_defined (mmap b) 0 src 0 frame_size) as [m E]; try lia.
  rewrite E. destruct (memcpy_spec _ _ _ _ _ _ E) as [L C].
  exists m. split; [reflexivity|]. split; [exact L|]. split.
  - intros i Hi. rewrite C.
    destruct (Z.leb_spec 0 i); [|lia].
    destruct (Z.ltb_spec i (0 + frame_size)); [|lia].
    cbn [andb]. rewrite Hsrc by lia. f_equal. lia.
  - intros i Hi. rewrite C.
    destruct (Z.leb_spec 0 i); [|lia].
    destruct (Z.ltb_spec i (0 + frame_size)); [lia|]. reflexivity.
Qed.

(** Lines as long as the steps are: one block of [rows * n] bytes. *)
Lemma copy_rows_contiguous (rows : nat) (n : Z) (dst_block : list Z)
    (dst : Z) (src_block : list Z) (src : Z) :
  0 <= n -> 0 <= dst -> 0 <= src ->
  dst + Z.of_nat rows * n <= Z.of_nat (List.length dst_block) ->
  src + Z.of_nat rows * n <= Z.of_nat (List.length src_block) ->
  exists m,
    copy_rows rows n n n dst_block dst src_block src = Some m /\
    List.length m = List.length dst_block /\
    (forall i, 0 <= i < Z.of_nat rows * n ->
               load m (dst + i) = load src_block (src + i)) /\
    (forall i, i < dst \/ dst + Z.of_nat rows * n <= i ->
               load m i = load dst_block i).
Proof.
  intros Hn Hd Hs Hdb Hsb.
  destruct (copy_rows_spec rows n n n dst_block dst src_block src)
    as (m & E & L & Hrows & Hrest); try lia; try (intros; nia).
  exists m. split; [exact E|]. split; [exact L|]. split.
  - intros i Hi.
    assert (Hpos : 0 < n) by nia.
    pose proof (Z.div_mod i n ltac:(lia)) as Hdm.
    pose proof (Z.mod_pos_bound i n Hpos) as Hmod.
    assert (Hq : 0 <= i / n < Z.of_nat rows).
    { split; [apply Z.div_pos; lia|].
      apply Z.div_lt_upper_bound; [lia|]. nia. }
    specialize (Hrows (i / n) (i mod n) Hq Hmod).
    replace (dst + i / n * n + i mod n) with (dst + i) in Hrows by lia.
    replace (src + i / n * n + i mod n) with (src + i) in Hrows by lia.
    exact Hrows.
  - intros i Hi. apply Hrest. intros r Hr. nia.
Qed.

(** X15: for a buffer whose stride is its width and whose height is a
    multiple of four, [copy_yuv420_to_dma_buf] puts the first frame of the
    file -- luma, then the two chroma planes -- into the mapping byte for
    byte and leaves the bytes after the frame as they were. *)
Theorem copy_yuv420_to_dma_buf_packed (fp : FILE) (b : buffer) :
  0 <= width b -> 0 <= height b ->
  stride b = width b ->
  height b mod 4 = 0 ->
  width b * height b + width b * height b / 2 <= INT_MAX ->
  width b * height b + width b * height b / 2
  <= Z.of_nat (List.length (mmap b)) ->
  width b * height b + width b * height b / 2
  <= Z.of_nat (List.length (file_bytes fp)) ->
  exists m,
    copy_yuv420_to_dma_buf fp b =
      Some (mk_FILE (file_bytes fp)
                    (width b * height b + width b * height b / 2),
            set_mmap m b,
            [sizes_log (uint32 (file_size_of fp))
                       (width b * height b + width b * height b / 2)
                       (width b * height b);
             hkps b]) /\
    List.length m = List.length (mmap b) /\
    (forall i, 0 <= i < width b * height b + width b * height b / 2 ->
               load m i = load (file_bytes fp) i) /\
    (forall i, width b * height b + width b * height b / 2 <= i ->
               load m i = load (mmap b) i).
Proof.
  intros Hw Hh Hs H4 Hint Hm Hf. unfold INT_MAX in Hint.
  unfold copy_yuv420_to_dma_buf. rewrite !shiftr_1, Hs.
  rewrite (Z.quot_div_nonneg (height b) 4) by lia.
  assert (Hk : height b = 4 * (height b / 4)).
  { pose proof (Z.div_mod (height b) 4 ltac:(lia)). lia. }
  set (k := height b / 4) in *.
  assert (Hk0 : 0 <= k) by lia.
  assert (Hwk : 0 <= width b * k) by nia.
  assert (Hhalf : width b * height b / 2 = 2 * (width b * k)).
  { rewrite Hk.
    replace (width b * (4 * k)) with (2 * (width b * k) * 2) by ring.
    now rewrite Z.div_mul by lia. }
  rewrite Hhalf in *. rewrite !Z.mul_1_r.
  set (frame_size := width b * height b + 2 * (width b * k)) in *.
  assert (Hfs : frame_size = 6 * (width b * k)).
  { unfold frame_size. rewrite Hk. ring. }
  destruct (malloc_spec frame_size ltac:(lia)) as (block & -> & Hbl).
  destruct (fread_spec block frame_size (rewind fp) ltac:(lia) Hbl)
    as (src & -> & Hsl & Hsrc); cbn [rewind file_position file_bytes];
    try lia.
  cbn [rewind file_position file_bytes] in *.
  unfold luma_size. rewrite Hs.
  assert (Hwh : width b * height b = 4 * (width b * k)) by (rewrite Hk; ring).
  rewrite (ulong_small (width b * height b)) by lia.
  rewrite (ulong_small (width b * height b * 5)) by lia.
  assert (Hv : width b * height b * 5 / 4 = 5 * (width b * k)).
  { rewrite Hwh. replace (4 * (width b * k) * 5) with (5 * (width b * k) * 4)
      by ring. now rewrite Z.div_mul by lia. }
  rewrite Hv.
  destruct (copy_rows_contiguous (Z.to_nat (height b)) (width b) (mmap b) 0
              src 0) as (m1 & E1 & L1 & C1 & U1);
    try lia; try (rewrite Z2Nat.id by lia; nia).
  rewrite E1.
  destruct (copy_rows_contiguous (Z.to_nat k) (width b) m1
              (width b * height b) src (width b * height b))
    as (m2 & E2 & L2 & C2 & U2);
    try lia; try (rewrite ?L1, Z2Nat.id by lia; nia).
  rewrite E2.
  destruct (copy_rows_contiguous (Z.to_nat k) (width b) m2
              (5 * (width b * k)) src (width b * height b + width b * k))
    as (m3 & E3 & L3 & C3 & U3);
    try lia; try (rewrite ?L2, ?L1, Z2Nat.id by lia; nia).
  rewrite E3.
  unfold short_read_log. rewrite Z.ltb_irrefl. cbn [List.app].
  rewrite Z.add_0_l.
  rewrite !Z2Nat.id in * by lia.
  exists m3. split; [reflexivity|]. split; [congruence|]. split.
  - intros i Hi. specialize (Hsrc i ltac:(lia)). rewrite Z.add_0_l in Hsrc.
    rewrite <- Hsrc.
    destruct (Z.lt_ge_cases i (4 * (width b * k))) as [Hy|Hy].
    + rewrite U3, U2 by lia. apply (C1 i). lia.
    + destruct (Z.lt_ge_cases i (5 * (width b * k))) as [Hu|Hu].
      * rewrite U3 by lia.
        specialize (C2 (i - width b * height b) ltac:(nia)).
        replace (width b * height b + (i - width b * height b)) with i in C2
          by ring.
        exact C2.
      * specialize (C3 (i - 5 * (width b * k)) ltac:(nia)).
        replace (5 * (width b * k) + (i - 5 * (width b * k))) with i in C3
          by ring.
        replace (width b * height b + width b * k + (i - 5 * (width b * k)))
          with i in C3 by lia.
        exact C3.
  - intros i Hi. rewrite U3, U2, U1; [reflexivity|lia|lia|lia].
Qed.

Lemma interleave_cols_spec (src_block : list Z) (uv_dst u_src v_src : Z)
    (todo : nat) :
  forall (col : Z) (dst_block : list Z),
  0 <= col -> 0 <= uv_dst -> 0 <= u_src -> 0 <= v_src ->
  uv_dst + 2 * (col + Z.of_nat todo) <= Z.of_nat (List.length dst_block) ->
  u_src + col + Z.of_nat todo <= Z.of_nat (List.length src_block) ->
  v_src + col + Z.of_nat todo <= Z.of_nat (List.length src_block) ->
  exists m,
    interleave_cols todo col dst_block uv_dst src_block u_src v_src = Some m /\
    List.length m = List.length dst_block /\
    (forall c, col <= c < col + Z.of_nat todo ->
               load m (uv_dst + 2 * c) = load src_block (u_src + c) /\
               load m (uv_dst + 2 * c + 1) = load src_block (v_src + c)) /\
    (forall i, i < uv_dst + 2 * col \/
               uv_dst + 2 * (col + Z.of_nat todo) <= i ->
               load m i = load dst_block i).
Proof.
  induction todo as [|todo IH]; intros col dst_block Hc Hd Hu Hv Hdb Hub Hvb.
  - exists dst_block. cbn [interleave_cols].
    split; [reflexivity|]. split; [reflexivity|]. split; [intros; lia|].
    reflexivity.
  - cbn [interleave_cols].
    destruct (load_lt src_block (u_src + col) ltac:(lia)) as [u Eu].
    destruct (load_lt src_block (v_src + col) ltac:(lia)) as [v Ev].
    rewrite Eu.
    destruct (store_spec dst_block (uv_dst + col * 2) u ltac:(lia))
      as (m1 & E1 & L1 & C1).
    rewrite E1, Ev.
    destruct (store_spec m1 (uv_dst + (col * 2 + 1)) v ltac:(lia))
      as (m2 & E2 & L2 & C2).
    rewrite E2.
    destruct (IH (col + 1) m2 ltac:(lia) Hd Hu Hv ltac:(lia) ltac:(lia)
                ltac:(lia)) as (m & E & L & Hcols & Hrest).
    exists m. split; [exact E|]. split; [congruence|]. split.
    + intros c Hcc. destruct (Z.eq_dec c col) as [->|Hne].
      * rewrite !Hrest by lia. rewrite !C2, !C1.
        destruct (Z.eqb_spec (uv_dst + 2 * col) (uv_dst + (col * 2 + 1)));
          [lia|].
        destruct (Z.eqb_spec (uv_dst + 2 * col) (uv_dst + col * 2)); [|lia].
        destruct (Z.eqb_spec (uv_dst + 2 * col + 1) (uv_dst + (col * 2 + 1)));
          [|lia].
        split; congruence.
      * apply Hcols. lia.
    + intros i Hi. rewrite Hrest by lia. rewrite C2, C1.
      destruct (Z.eqb_spec i (uv_dst + (col * 2 + 1))); [lia|].
      destruct (Z.eqb_spec i (uv_dst + col * 2)); [lia|]. reflexivity.
Qed.

Lemma interleave_rows_spec (src_block : list Z) (cols dst_step src_step : Z)
    (rows : nat) :
  forall (dst_block : list Z) (uv_dst u_src v_src : Z),
  0 <= cols -> 2 * cols <= dst_step -> 0 <= src_step ->
  0 <= uv_dst -> 0 <= u_src -> 0 <= v_src ->
  (rows <> O ->
   uv_dst + (Z.of_nat rows - 1) * dst_step + 2 * cols
   <= Z.of_nat (List.length dst_block)) ->
  (rows <> O ->
   u_src + (Z.of_nat rows - 1) * src_step + cols
   <= Z.of_nat (List.length src_block)) ->
  (rows <> O ->
   v_src + (Z.of_nat rows - 1) * src_step + cols
   <= Z.of_nat (List.length src_block)) ->
  exists m,
    interleave_rows rows cols dst_step src_step dst_block uv_dst src_block
                    u_src v_src = Some m /\
    List.length m = List.length dst_block /\
    (forall r c, 0 <= r < Z.of_nat rows -> 0 <= c < cols ->
       load m (uv_dst + r * dst_step + 2 * c)
       = load src_block (u_src + r * src_step + c) /\
       load m (uv_dst + r * dst_step + 2 * c + 1)
       = load src_block (v_src + r * src_step + c)) /\
    (forall i, (forall r, 0 <= r < Z.of_nat rows ->
                          ~ (uv_dst + r * dst_step <= i
                             < uv_dst + r * dst_step + 2 * cols)) ->
               load m i = load dst_block i).
Proof.
  induction rows as [|rows IH];
    intros dst_block uv_dst u_src v_src Hc Hstep Hs Hd Hu Hv Hdb Hub Hvb.
  - exists dst_block. cbn [interleave_rows].
    split; [reflexivity|]. split; [reflexivity|]. split; [intros; lia|].
    reflexivity.
  - cbn [interleave_rows].
    specialize (Hdb ltac:(discriminate)). specialize (Hub ltac:(discriminate)).
    specialize (Hvb ltac:(discriminate)).
    destruct (interleave_cols_spec src_block uv_dst u_src v_src
                (Z.to_nat cols) 0 dst_block)
      as (m1 & E1 & L1 & C1 & U1); try lia; try (rewrite Z2Nat.id by lia; nia).
    rewrite E1. rewrite Z2Nat.id in * by lia.
    assert (Hdb' : rows <> O ->
                   uv_dst + dst_step + (Z.of_nat rows - 1) * dst_step
                   + 2 * cols <= Z.of_nat (List.length m1)).
    { intros _. rewrite L1. nia. }
    assert (Hub' : rows <> O ->
                   u_src + src_step + (Z.of_nat rows - 1) * src_step + cols
                   <= Z.of_nat (List.length src_block)).
    { intros _. nia. }
    assert (Hvb' : rows <> O ->
                   v_src + src_step + (Z.of_nat rows - 1) * src_step + cols
                   <= Z.of_nat (List.length src_block)).
    { intros _. nia. }
    destruct (IH m1 (uv_dst + dst_step) (u_src + src_step) (v_src + src_step)
                Hc Hstep Hs ltac:(lia) ltac:(lia) ltac:(lia) Hdb' Hub' Hvb')
      as (m & E & L & Hrows & Hrest).
    exists m. split; [exact E|]. split; [congruence|]. split.
    + intros r c Hr Hcc. destruct (Z.eq_dec r 0) as [->|Hr0].
      * rewrite !Hrest by (intros r' Hr'; nia).
        destruct (C1 c ltac:(lia)) as [Ca Cb].
        replace (uv_dst + 0 * dst_step + 2 * c) with (uv_dst + 2 * c) by ring.
        replace (u_src + 0 * src_step + c) with (u_src + c) by ring.
        replace (v_src + 0 * src_step + c) with (v_src + c) by ring.
        split; assumption.
      * destruct (Hrows (r - 1) c ltac:(lia) Hcc) as [Ca Cb].
        replace (uv_dst + dst_step + (r - 1) * dst_step + 2 * c)
          with (uv_dst + r * dst_step + 2 * c) in * by ring.
        replace (u_src + src_step + (r - 1) * src_step + c)
          with (u_src + r * src_step + c) in Ca by ring.
        replace (v_src + src_step + (r - 1) * src_step + c)
          with (v_src + r * src_step + c) in Cb by ring.
        split; assumption.
    + intros i Hi. rewrite Hrest.
      * apply U1. specialize (Hi 0 ltac:(lia)). lia.
      * intros r Hr. specialize (Hi (r + 1) ltac:(lia)).
        replace (uv_dst + (r + 1) * dst_step)
          with (uv_dst + dst_step + r * dst_step) in Hi by ring.
        exact Hi.
Qed.

(** X16: [convert_yuv420pTonv12_and_copy_to_dma_buf] copies the luma
    lines of a planar frame to multiples of the stride and weaves the two
    chroma planes into one: in line [row] of the chroma plane of the
    mapping, byte [2 * col] is byte [col] of line [row] of the first chroma
    plane of the file and byte [2 * col + 1] is that byte of the second. *)
Theorem convert_yuv420p_interleaves_chroma (fp : FILE) (b : buffer) :
  0 <= width b <= stride b ->
  0 <= height b ->
  stride b * (height b + height b / 2) <= Z.of_nat (List.length (mmap b)) ->
  stride b * height b < 18446744073709551616 ->
  width b * height b + width b * height b / 2 <= INT_MAX ->
  0 <= file_position fp ->
  file_position fp + (width b * height b + width b * height b / 2)
  <= Z.of_nat (List.length (file_bytes fp)) ->
  exists m log,
    convert_yuv420pTonv12_and_copy_to_dma_buf fp b =
      Some (mk_FILE (file_bytes fp)
                    (file_position fp
                     + (width b * height b + width b * height b / 2)),
            set_mmap m b, log) /\
    List.length m = List.length (mmap b) /\
    (forall row col,
       0 <= row < height b -> 0 <= col < width b ->
       load m (row * stride b + col) =
       load (file_bytes fp) (file_position fp + row * width b + col)) /\
    (forall row col,
       0 <= row < height b / 2 -> 0 <= col < width b / 2 ->
       load m (stride b * height b + row * stride b + 2 * col) =
       load (file_bytes fp)
            (file_position fp + width b * height b
             + row * (width b / 2) + col) /\
       load m (stride b * height b + row * stride b + 2 * col + 1) =
       load (file_bytes fp)
            (file_position fp + width b * height b
             + (width b / 2) * (height b / 2)
             + row * (width b / 2) + col)).
Proof.
  intros Hw Hh Hm Hu Hint Hp Hf.
  unfold convert_yuv420pTonv12_and_copy_to_dma_buf. rewrite !shiftr_1.
  rewrite !Z.quot_div_nonneg by lia.
  assert (Hwh : 0 <= width b * height b) by nia.
  assert (Hh2 : 0 <= height b / 2) by (apply Z.div_pos; lia).
  assert (Hw2 : 0 <= width b / 2) by (apply Z.div_pos; lia).
  assert (Hh2' : 2 * (height b / 2) <= height b) by (apply Z.mul_div_le; lia).
  assert (Hw2' : 2 * (width b / 2) <= width b) by (apply Z.mul_div_le; lia).
  assert (Huv : 2 * (width b / 2 * (height b / 2)) <= width b * height b / 2).
  { apply Z.div_le_lower_bound; [lia|]. nia. }
  set (frame_size := width b * height b + width b * height b / 2) in *.
  destruct (malloc_spec frame_size ltac:(unfold frame_size; lia))
    as (block & -> & Hbl).
  destruct (fread_spec block frame_size fp ltac:(unfold frame_size; lia)
              Hbl Hp Hf) as (src & -> & Hsl & Hsrc).
  unfold luma_size. rewrite ulong_small by nia.
  destruct (copy_rows_spec (Z.to_nat (height b)) (width b) (stride b)
              (width b) (mmap b) 0 src 0)
    as (m1 & E1 & L1 & R1 & U1); try lia;
    try (intros _; rewrite Z2Nat.id by lia; unfold frame_size in *; nia).
  rewrite E1. rewrite !Z.add_0_l.
  destruct (interleave_rows_spec src (width b / 2) (stride b) (width b / 2)
              (Z.to_nat (height b / 2)) m1 (stride b * height b)
              (width b * height b)
              (width b * height b + width b / 2 * (height b / 2)))
    as (m2 & E2 & L2 & R2 & U2); try lia; try nia;
    try (intros _; rewrite ?L1, Z2Nat.id by lia; unfold frame_size in *; nia).
  rewrite E2. rewrite !Z2Nat.id in * by lia.
  eexists m2, _. split; [reflexivity|]. split; [congruence|]. split.
  - intros row col Hrow Hcol. rewrite U2.
    + specialize (R1 row col Hrow Hcol). rewrite !Z.add_0_l in R1.
      rewrite R1. rewrite Hsrc by (unfold frame_size; nia). f_equal. ring.
    + intros r Hr. nia.
  - intros row col Hrow Hcol. destruct (R2 row col Hrow Hcol) as [Ra Rb].
    rewrite Ra, Rb. rewrite !Hsrc by (unfold frame_size; nia).
    split; f_equal; ring.
Qed.

(** Whatever the file holds, the block read into keeps its size. *)
Lemma fread_length (block : list Z) (n : Z) (fp : FILE) :
  0 <= n -> Z.of_nat (List.length block) = n ->
  Z.of_nat (List.length (snd (fst (fread block n fp)))) = n.
Proof.
  intros Hn Hb. unfold fread. cbn [fst snd].
  rewrite length_app, length_skipn, length_firstn, length_skipn. lia.
Qed.

Lemma fread_eta (block : list Z) (n : Z) (fp : FILE) :
  fread block n fp =
  (fst (fst (fread block n fp)), snd (fst (fread block n fp)),
   snd (fread block n fp)).
Proof. now destruct (fread block n fp) as [[c d] f]. Qed.

Lemma copy_nv12_to_dma_buf_defined (fp : FILE) (b : buffer) :
  0 <= width b <= stride b ->
  0 <= height b ->
  stride b * (height b + height b / 2) <= Z.of_nat (List.length (mmap b)) ->
  stride b * height b < 18446744073709551616 ->
  exists r, copy_nv12_to_dma_buf fp b = Some r.
Proof.
  intros Hw Hh Hm Hu.
  unfold copy_nv12_to_dma_buf. rewrite !shiftr_1.
  assert (Hwh : 0 <= width b * height b) by nia.
  assert (Hhalf : width b * (height b / 2) <= width b * height b / 2).
  { apply Z.div_le_lower_bound; [lia|].
    pose proof (Z.mul_div_le (height b) 2 ltac:(lia)). nia. }
  set (frame_size := width b * height b + width b * height b / 2) in *.
  assert (Hfs : 0 <= frame_size).
  { unfold frame_size. pose proof (Z.div_pos (width b * height b) 2). lia. }
  destruct (malloc_spec frame_size Hfs) as (block & -> & Hbl).
  rewrite (fread_eta block frame_size (rewind fp)).
  pose proof (fread_length block frame_size (rewind fp) Hfs Hbl) as Hsl.
  set (src := snd (fst (fread block frame_size (rewind fp)))) in *.
  unfold luma_size. rewrite ulong_small by nia.
  destruct (copy_two_planes (Z.to_nat (height b)) (Z.to_nat (height b / 2))
              (width b) (stride b) (mmap b) src)
    as (m1 & m2 & E1 & E2 & _).
  { lia. }
  { rewrite !Z2Nat.id by (try apply Z.div_pos; lia). exact Hm. }
  { rewrite !Z2Nat.id by (try apply Z.div_pos; lia). unfold frame_size in *.
    lia. }
  rewrite !Z2Nat.id in * by (try apply Z.div_pos; lia).
  rewrite E1, E2. eauto.
Qed.

Lemma copy_p010_to_dma_buf_defined (fp : FILE) (b : buffer) :
  0 <= width b ->
  width b * 2 <= stride b ->
  0 <= height b ->
  stride b * (height b + height b / 2) <= Z.of_nat (List.length (mmap b)) ->
  stride b * height b < 18446744073709551616 ->
  exists r, copy_p010_to_dma_buf fp b = Some r.
Proof.
  intros Hw Hs Hh Hm Hu.
  unfold copy_p010_to_dma_buf. rewrite !shiftr_1.
  assert (Hwh : 0 <= width b * height b) by nia.
  assert (Hfs : Z.quot (width b * height b * 2 * 3) 2
                = width b * height b * 3).
  { rewrite Z.quot_div_nonneg by lia.
    replace (width b * height b * 2 * 3) with (width b * height b * 3 * 2)
      by ring.
    now rewrite Z.div_mul by lia. }
  rewrite Hfs.
  set (frame_size := width b * height b * 3) in *.
  destruct (malloc_spec frame_size ltac:(lia)) as (block & -> & Hbl).
  rewrite (fread_eta block frame_size fp).
  pose proof (fread_length block frame_size fp ltac:(lia) Hbl) as Hsl.
  set (src := snd (fst (fread block frame_size fp))) in *.
  unfold luma_size. rewrite ulong_small by nia.
  assert (Hhalf : 2 * (height b / 2) <= height b)
    by (apply Z.mul_div_le; lia).
  destruct (copy_two_planes (Z.to_nat (height b)) (Z.to_nat (height b / 2))
              (width b * 2) (stride b) (mmap b) src)
    as (m1 & m2 & E1 & E2 & _).
  { lia. }
  { rewrite !Z2Nat.id by (try apply Z.div_pos; lia). exact Hm. }
  { rewrite !Z2Nat.id by (try apply Z.div_pos; lia). unfold frame_size in *.
    nia. }
  rewrite !Z2Nat.id in * by (try apply Z.div_pos; lia).
  rewrite E1.
  replace (width b * height b * 2) with (width b * 2 * height b) by ring.
  rewrite E2. eauto.
Qed.

Lemma copy_rgb_to_dma_buf_defined (fp : FILE) (b : buffer) :
  0 <= width b -> 0 <= height b -> 0 <= bytes_per_pixel b ->
  width b * height b * bytes_per_pixel b
  <= Z.of_nat (List.length (mmap b)) ->
  exists r, copy_rgb_to_dma_buf fp b = Some r.
Proof.
  intros Hw Hh Hb Hm. unfold copy_rgb_to_dma_buf.
  set (frame_size := width b * height b * bytes_per_pixel b) in *.
  assert (Hfs : 0 <= frame_size) by (unfold frame_size; nia).
  destruct (malloc_spec frame_size Hfs) as (block & -> & Hbl).
  rewrite (fread_eta block frame_size fp).
  pose proof (fread_length block frame_size fp Hfs Hbl) as Hsl.
  set (src := snd (fst (fread block frame_size fp))) in *.
  destruct (memcpy_defined (mmap b) 0 src 0 frame_size) as [m E]; try lia.
  rewrite E. eauto.
Qed.

(** What is left as it was when the three planes are written with any
    stride. *)
Lemma copy_yuv420_to_dma_buf_extent (fp : FILE) (b : buffer) :
  0 <= width b <= stride b ->
  0 <= height b ->
  height b mod 2 = 0 ->
  stride b * (height b + height b / 2) <= Z.of_nat (List.length (mmap b)) ->
  stride b * height b * 5 < 18446744073709551616 ->
  exists fp' m log,
    copy_yuv420_to_dma_buf fp b = Some (fp', set_mmap m b, log) /\
    List.length m = List.length (mmap b) /\
    forall i, stride b * height b * 3 / 2 <= i ->
              load m i = load (mmap b) i.
Proof.
  intros Hw Hh Heven Hm Hu.
  unfold copy_yuv420_to_dma_buf. rewrite !shiftr_1.
  rewrite (Z.quot_div_nonneg (height b) 4) by lia.
  assert (Hj : height b = 2 * (height b / 2)).
  { pose proof (Z.div_mod (height b) 2 ltac:(lia)). lia. }
  set (j := height b / 2) in *.
  assert (Hq : height b / 4 = j / 2).
  { rewrite Hj. replace (2 * j) with (j * 2) by ring.
    replace 4 with (2 * 2) by reflexivity.
    rewrite <- Z.div_div by lia. now rewrite Z.div_mul by lia. }
  rewrite Hq. set (q := j / 2).
  assert (Hq0 : 0 <= q) by (apply Z.div_pos; lia).
  assert (Hq2 : 2 * q <= j) by (apply Z.mul_div_le; lia).
  assert (Hwh : 0 <= width b * height b) by nia.
  assert (Hsh : 0 <= stride b * height b) by nia.
  rewrite !Z.mul_1_r.
  assert (Hhalf : 2 * (width b * q) <= width b * height b / 2).
  { apply Z.div_le_lower_bound; [lia|]. nia. }
  assert (Hend : stride b * height b * 3 / 2 = 3 * (stride b * j)).
  { rewrite Hj. replace (stride b * (2 * j) * 3) with (3 * (stride b * j) * 2)
      by ring. now rewrite Z.div_mul by lia. }
  set (frame_size := width b * height b + width b * height b / 2) in *.
  assert (Hfs : 0 <= frame_size).
  { unfold frame_size. pose proof (Z.div_pos (width b * height b) 2). lia. }
  destruct (malloc_spec frame_size Hfs) as (block & -> & Hbl).
  rewrite (fread_eta block frame_size (rewind fp)).
  pose proof (fread_length block frame_size (rewind fp) Hfs Hbl) as Hsl.
  set (src := snd (fst (fread block frame_size (rewind fp)))) in *.
  unfold luma_size. rewrite (ulong_small (stride b * height b)) by lia.
  rewrite (ulong_small (stride b * height b * 5)) by lia.
  assert (Hv1 : stride b * height b <= stride b * height b * 5 / 4).
  { apply Z.div_le_lower_bound; lia. }
  assert (Hv2 : 4 * (stride b * height b * 5 / 4) <= stride b * height b * 5).
  { apply Z.mul_div_le. lia. }
  destruct (copy_rows_spec (Z.to_nat (height b)) (width b) (stride b)
              (width b) (mmap b) 0 src 0)
    as (m1 & E1 & L1 & _ & U1); try lia;
    try (intros _; rewrite Z2Nat.id by lia; unfold frame_size in *; nia).
  rewrite E1.
  destruct (copy_rows_spec (Z.to_nat q) (width b) (stride b) (width b) m1
              (stride b * height b) src (width b * height b))
    as (m2 & E2 & L2 & _ & U2); try lia;
    try (intros _; rewrite ?L1, Z2Nat.id by lia; unfold frame_size in *; nia).
  rewrite E2.
  destruct (copy_rows_spec (Z.to_nat q) (width b) (stride b) (width b) m2
              (stride b * height b * 5 / 4) src
              (width b * height b + width b * q))
    as (m3 & E3 & L3 & _ & U3); try lia; try nia;
    try (intros _; rewrite ?L2, ?L1, Z2Nat.id by lia; unfold frame_size in *;
         nia).
  rewrite E3. rewrite !Z2Nat.id in * by lia.
  do 3 eexists. split; [reflexivity|]. split; [congruence|].
  intros i Hi. rewrite Hend in Hi.
  rewrite U3, U2, U1; [reflexivity| | |]; intros r Hr; nia.
Qed.

(** X17: a buffer whose format is what [parse_pixel_format] made of the
    command line is filled by [fill_buffer] with [copy_yuv420_to_dma_buf],
    [copy_nv12_to_dma_buf] or [copy_p010_to_dma_buf] when the name given is
    exactly YUV420, NV12 or P010, and with [copy_rgb_to_dma_buf] for every
    other name and for none. *)
Theorem fill_buffer_after_parse (c : option string) (b : buffer) (fp : FILE) :
  fill_buffer (set_format (parse_pixel_format c) b) fp =
  let b' := set_format (parse_pixel_format c) b in
  match c with
  | Some name =>
      if (name =? "YUV420")%string then copy_yuv420_to_dma_buf fp b'
      else if (name =? "NV12")%string then copy_nv12_to_dma_buf fp b'
      else if (name =? "P010")%string then copy_p010_to_dma_buf fp b'
      else copy_rgb_to_dma_buf fp b'
  | None => copy_rgb_to_dma_buf fp b'
  end.
Proof.
  cbv zeta. unfold fill_buffer, parse_pixel_format.
  destruct c as [name|]; [|reflexivity].
  destruct (String.eqb_spec name "YUV420") as [->|_]; [reflexivity|].
  destruct (String.eqb_spec name "NV12") as [->|_]; [reflexivity|].
  destruct (String.eqb_spec name "XRGB8888") as [->|_]; [reflexivity|].
  destruct (String.eqb_spec name "ARGB8888") as [->|_]; [reflexivity|].
  destruct (String.eqb_spec name "BGRA8888") as [->|_]; [reflexivity|].
  destruct (String.eqb_spec name "ABGR2101010") as [->|_]; [reflexivity|].
  destruct (String.eqb_spec name "ARGB2101010") as [->|_]; [reflexivity|].
  destruct (String.eqb_spec name "P010") as [->|_]; reflexivity.
Qed.
End CopyProps.

(** ** The command line helpers *)

(** X8: [parse_pixel_format] maps each of the eight format names to its
    own DRM format, and everything else, the NULL pointer and names in
    another spelling or case included, to XRGB8888; the eight formats are
    pairwise different. *)
Theorem parse_pixel_format_names :
  (forall name f, In (name, f) format_names ->
                  parse_pixel_format (Some name) = f) /\
  (forall c, (forall name, In name (map fst format_names) -> c <> Some name) ->
             parse_pixel_format c = DRM_FORMAT_XRGB8888) /\
  NoDup (map snd format_names).
Proof.
  split; [|split].
  - intros name f H. cbn [In format_names] in H.
    repeat (destruct H as [H|H]; [injection H as <- <-; reflexivity|]).
    contradiction.
  - intros [name|] H; [|reflexivity]. unfold parse_pixel_format.
    repeat match goal with
           | |- context [String.eqb name ?s] =>
               destruct (String.eqb_spec name s) as [->|_];
               [exfalso; apply (H s); [cbn; tauto|reflexivity]|]
           end.
    reflexivity.
  - cbn [map snd format_names].
    repeat (constructor; [cbn [In]; vm_compute; intuition discriminate|]).
    constructor.
Qed.

Lemma tolower_is (lower upper : ascii) :
  tolower upper = lower -> tolower lower = lower ->
  (forall x, Ascii.eqb (tolower x) lower = true -> x = lower \/ x = upper) ->
  forall x, Ascii.eqb (tolower x) (tolower lower) = true <->
            either_case lower upper x.
Proof.
  intros Hu Hl Hx x. rewrite Hl. split.
  - apply Hx.
  - intros [->| ->]; [rewrite Hl|rewrite Hu]; apply Ascii.eqb_refl.
Qed.

Ltac letter_cases :=
  intros [[] [] [] [] [] [] [] []]; vm_compute; intros H;
  first [discriminate H | left; reflexivity | right; reflexivity].

Lemma tolower_t x :
  Ascii.eqb (tolower x) (tolower "t") = true <-> either_case "t" "T" x.
Proof. apply tolower_is; [reflexivity|reflexivity|letter_cases]. Qed.

Lemma tolower_r x :
  Ascii.eqb (tolower x) (tolower "r") = true <-> either_case "r" "R" x.
Proof. apply tolower_is; [reflexivity|reflexivity|letter_cases]. Qed.

Lemma tolower_u x :
  Ascii.eqb (tolower x) (tolower "u") = true <-> either_case "u" "U" x.
Proof. apply tolower_is; [reflexivity|reflexivity|letter_cases]. Qed.

Lemma tolower_e x :
  Ascii.eqb (tolower x) (tolower "e") = true <-> either_case "e" "E" x.
Proof. apply tolower_is; [reflexivity|reflexivity|letter_cases]. Qed.

(** X9: [is_true] returns 1 or 0, and 1 exactly for the strings that
    begin with the character 1 and for the four letters of "true" in any
    mix of upper and lower case; the NULL pointer and the empty string
    give 0. *)
Theorem is_true_accepts (c : option string) :
  (is_true c = 1 \/ is_true c = 0) /\
  (is_true c = 1 <->
   exists s, c = Some s /\
     ((exists rest, s = String "1" rest) \/
      (exists t r u e,
         s = String t (String r (String u (String e EmptyString))) /\
         either_case "t" "T" t /\ either_case "r" "R" r /\
         either_case "u" "U" u /\ either_case "e" "E" e))).
Proof.
  split.
  - unfold is_true. destruct c as [s|]; [|now right].
    destruct (_ || _); [now left|now right].
  - unfold is_true. destruct c as [s|].
    + destruct (Ascii.eqb (first_char s) "1") eqn:E1; cbn [orb].
      * split; [intros _|reflexivity]. exists s. split; [reflexivity|].
        left. destruct s as [|x rest]; [discriminate|].
        cbn [first_char] in E1. apply Ascii.eqb_eq in E1. subst x. eauto.
      * destruct (strcasecmp_eq s "true") eqn:E2.
        -- split; [intros _|reflexivity]. exists s. split; [reflexivity|].
           right.
           destruct s as [|t [|r [|u [|e [|x rest]]]]];
             cbn [strcasecmp_eq] in E2; rewrite ?andb_false_r in E2;
             try discriminate E2.
           repeat (apply andb_prop in E2; destruct E2 as [? E2]).
           exists t, r, u, e. split; [reflexivity|].
           repeat split;
             [now apply tolower_t|now apply tolower_r|now apply tolower_u
             |now apply tolower_e].
        -- split; [discriminate|].
           intros (s' & Hs & [[rest ->]|(t & r & u & e & -> & Ht & Hr & Hu & He)]);
             injection Hs as ->.
           ++ cbn [first_char] in E1. rewrite Ascii.eqb_refl in E1.
              discriminate.
           ++ cbn [strcasecmp_eq] in E2.
              apply tolower_t in Ht. apply tolower_r in Hr.
              apply tolower_u in Hu. apply tolower_e in He.
              rewrite Ht, Hr, Hu, He in E2. discriminate.
    + split; [discriminate|]. intros (s & Hs & _). discriminate.
Qed.

(** ** A file that is shorter than a frame *)

Lemma malloc_content {heap : libc} (size : Z) (block : list Z) :
  malloc size = Some block ->
  forall i, 0 <= i < size ->
            load block i = Some (indeterminate (Z.to_nat i)).
Proof.
  unfold malloc. destruct (Z.ltb_spec size 0); [discriminate|].
  intros E i Hi. injection E as <-. unfold load.
  destruct (Z.ltb_spec i 0); [lia|].
  rewrite nth_error_map, nth_error_seq.
  destruct (Nat.ltb_spec (Z.to_nat i) (Z.to_nat size)); [|lia].
  reflexivity.
Qed.

Lemma fread_short (block : list Z) (n : Z) (fp : FILE) :
  Z.of_nat (List.length block) = n ->
  file_position fp = 0 ->
  Z.of_nat (List.length (file_bytes fp)) < n ->
  exists block',
    fread block n fp =
      (Z.of_nat (List.length (file_bytes fp)), block',
       mk_FILE (file_bytes fp) (Z.of_nat (List.length (file_bytes fp)))) /\
    Z.of_nat (List.length block') = n /\
    (forall i, 0 <= i < Z.of_nat (List.length (file_bytes fp)) ->
               load block' i = load (file_bytes fp) i) /\
    (forall i, Z.of_nat (List.length (file_bytes fp)) <= i ->
               load block' i = load block i).
Proof.
  intros Hb Hp Hf. unfold fread. rewrite Hp. cbn [Z.to_nat skipn].
  rewrite firstn_all2 by lia.
  eexists. split; [reflexivity|]. split; [|split].
  - rewrite length_app, length_skipn. lia.
  - intros i Hi. unfold load. destruct (Z.ltb_spec i 0); [lia|].
    now rewrite nth_error_app1 by lia.
  - intros i Hi. unfold load. destruct (Z.ltb_spec i 0); [lia|].
    rewrite nth_error_app2 by lia. rewrite nth_error_skipn. f_equal. lia.
Qed.

Section ShortFile.
Context {heap : libc}.

(** X22: a file that is shorter than a frame does not stop
    [copy_nv12_to_dma_buf]: it reports the number of bytes read to syslog
    and copies a whole frame all the same; the bytes of the frame that the
    file holds come from the file, the bytes after them are whatever the
    block that [malloc] returned held. *)
Theorem copy_nv12_to_dma_buf_short_file (fp : FILE) (b : buffer) :
  0 <= width b <= stride b ->
  0 <= height b ->
  stride b * (height b + height b / 2) <= Z.of_nat (List.length (mmap b)) ->
  stride b * height b < 18446744073709551616 ->
  width b * height b + width b * height b / 2 <= INT_MAX ->
  Z.of_nat (List.length (file_bytes fp))
  < width b * height b + width b * height b / 2 ->
  exists m,
    copy_nv12_to_dma_buf fp b =
      Some (mk_FILE (file_bytes fp) (file_size_of fp), set_mmap m b,
            [sizes_log (file_size_of fp)
                       (width b * height b + width b * height b / 2)
                       (width b * height b);
             syslog ("Failed to read full frame. bytes_read = "
                     +++ fmt_d (file_size_of fp) +++ " " +++ nl);
             hkps b]) /\
    (forall row col,
       0 <= row < height b + height b / 2 -> 0 <= col < width b ->
       row * width b + col < file_size_of fp ->
       load m (row * stride b + col) =
       load (file_bytes fp) (row * width b + col)) /\
    (forall row col,
       0 <= row < height b + height b / 2 -> 0 <= col < width b ->
       file_size_of fp <= row * width b + col ->
       load m (row * stride b + col) =
       Some (indeterminate (Z.to_nat (row * width b + col)))).
Proof.
  intros Hw Hh Hm Hu Hint Hf. unfold INT_MAX in Hint.
  unfold copy_nv12_to_dma_buf, file_size_of in *. rewrite !shiftr_1.
  assert (Hwh : 0 <= width b * height b) by nia.
  assert (Hhalf : width b * (height b / 2) <= width b * height b / 2).
  { apply Z.div_le_lower_bound; [lia|].
    pose proof (Z.mul_div_le (height b) 2 ltac:(lia)). nia. }
  set (frame_size := width b * height b + width b * height b / 2) in *.
  set (size := Z.of_nat (List.length (file_bytes fp))) in *.
  assert (Hfs : 0 <= frame_size) by (unfold size in *; lia).
  destruct (malloc_spec frame_size Hfs) as (block & Eb & Hbl).
  pose proof (malloc_content frame_size block Eb) as Hjunk.
  rewrite Eb.
  destruct (fread_short block frame_size (rewind fp) Hbl eq_refl)
    as (src & -> & Hsl & Hdata & Hrest);
    cbn [rewind file_position file_bytes] in *; [exact Hf|].
  fold size.
  unfold luma_size. rewrite ulong_small by nia.
  destruct (copy_two_planes (Z.to_nat (height b)) (Z.to_nat (height b / 2))
              (width b) (stride b) (mmap b) src)
    as (m1 & m2 & E1 & E2 & L & Hrows & _).
  { lia. }
  { rewrite !Z2Nat.id by (try apply Z.div_pos; lia). exact Hm. }
  { rewrite !Z2Nat.id by (try apply Z.div_pos; lia). lia. }
  rewrite !Z2Nat.id in * by (try apply Z.div_pos; lia).
  rewrite E1, E2.
  unfold short_read_log.
  rewrite (uint32_small size) by (unfold size; lia).
  rewrite (uint32_small frame_size) by lia.
  destruct (Z.ltb_spec size frame_size) as [_|]; [|lia].
  unfold fmt_d_uint32.
  destruct (Z.ltb_spec size 2147483648) as [_|]; [|lia].
  cbn [List.app].
  exists m2. split; [reflexivity|]. split.
  - intros row col Hrow Hcol Hin. rewrite (Hrows row col Hrow Hcol).
    apply Hdata. nia.
  - intros row col Hrow Hcol Hout. rewrite (Hrows row col Hrow Hcol).
    rewrite Hrest by lia. apply Hjunk. nia.
Qed.
End ShortFile.

(** ** create_dmabuf_buffer *)

Ltac buffer_simpl :=
  cbn [fst snd busy dev drm_fd dmabuf_fd mmap width height bpp stride format
       bytes_per_pixel set_busy set_dev set_drm_fd set_dmabuf_fd set_mmap
       set_width set_height set_bpp set_stride set_format
       set_bytes_per_pixel] in *.

Lemma allocation_geometry_spec (h f : Z) (b : buffer) :
  let b' := allocation_geometry h f b in
  height b' = lines_asked h f /\
  bpp b' = allocated_bpp f /\
  (planar_yuv f = false -> bytes_per_pixel b' = 4) /\
  width b' = width b /\ format b' = format b /\
  drm_fd b' = drm_fd b /\ dev b' = dev b /\ busy b' = busy b.
Proof.
  cbv zeta. unfold allocation_geometry, lines_asked, allocated_bpp,
    planar_yuv.
  destruct (f =? DRM_FORMAT_NV12) eqn:E1; buffer_simpl.
  { cbn [orb]. destruct (f =? DRM_FORMAT_P010) eqn:E3.
    - apply Z.eqb_eq in E1, E3. subst f. discriminate E3.
    - repeat split. discriminate. }
  destruct (f =? DRM_FORMAT_YUV420) eqn:E2; buffer_simpl.
  { cbn [orb]. destruct (f =? DRM_FORMAT_P010) eqn:E3.
    - apply Z.eqb_eq in E2, E3. subst f. discriminate E3.
    - repeat split. discriminate. }
  destruct (f =? DRM_FORMAT_P010) eqn:E3; buffer_simpl.
  { repeat split. discriminate. }
  cbn [orb]. destruct (_ || _); buffer_simpl; repeat split.
Qed.

Lemma more_planes_announce (f : Z) (b : buffer) :
  filter is_alloc (more_planes f b) = [] /\
  forallb announces (more_planes f b) = true.
Proof.
  unfold more_planes.
  destruct (f =? DRM_FORMAT_NV12); [split; reflexivity|].
  destruct (f =? DRM_FORMAT_YUV420); [split; reflexivity|].
  destruct (f =? DRM_FORMAT_P010); split; reflexivity.
Qed.

Lemma not_connects (ev : list client_event) (e : client_event) :
  forallb connects ev = true -> connects e = false -> ~ In e ev.
Proof.
  intros Hall He Hin. rewrite forallb_forall in Hall.
  rewrite (Hall e Hin) in He. discriminate.
Qed.

Lemma connects_no_alloc (ev : list client_event) :
  forallb connects ev = true -> existsb is_alloc ev = false.
Proof.
  induction ev as [|e ev IH]; [reflexivity|]. cbn [forallb existsb].
  intros H. apply andb_prop in H. destruct H as [He H].
  rewrite (IH H). now destruct e.
Qed.

Lemma connects_no_announce (ev : list client_event) :
  forallb connects ev = true ->
  forallb (fun e => negb (announces e)) ev = true.
Proof.
  induction ev as [|e ev IH]; [reflexivity|]. cbn [forallb].
  intros H. apply andb_prop in H. destruct H as [He H].
  rewrite (IH H). now destruct e.
Qed.

Ltac conn_goal :=
  try reflexivity; try lia; try tauto; try discriminate;
  try (cbn [In]; intuition (try discriminate; try lia; try congruence)).

Section CreateProps.
Context {lib : libdrm}.

Lemma drm_connect_spec (b : buffer) :
  let r := drm_connect b in
  (fst (fst r) = 0 \/ fst (fst r) = 1) /\
  drm_fd (snd (fst r)) = open_render_node /\
  filter is_alloc (snd r) = [] /\
  forallb (fun e => negb (announces e)) (snd r) = true /\
  (fst (fst r) = 1 <->
   0 <= open_render_node /\ drm_version_name = "i915"%string /\
   drm_intel_bufmgr_gem_init = true) /\
  (0 <= open_render_node -> In (open_call open_render_node) (snd r)) /\
  forallb connects (snd r) = true.
Proof.
  cbv zeta. unfold drm_connect, drm_device_init. buffer_simpl.
  destruct (Z.ltb_spec open_render_node 0) as [Hfd|Hfd]; buffer_simpl.
  { repeat split; conn_goal. }
  destruct (String.eqb_spec drm_version_name "i915") as [Hn|Hn].
  - destruct drm_intel_bufmgr_gem_init; cbn [negb]; buffer_simpl;
      repeat split; conn_goal.
  - buffer_simpl. repeat split; conn_goal.
Qed.

(** What a call that returns 0 has done. *)
Lemma create_dmabuf_buffer_spec (b : buffer) (w h f : Z) :
  fst (fst (create_dmabuf_buffer b w h f)) = 0 ->
  let b' := snd (fst (create_dmabuf_buffer b w h f)) in
  let ev := snd (create_dmabuf_buffer b w h f) in
  width b' = w /\ height b' = h /\ format b' = f /\
  bpp b' = allocated_bpp f /\
  (planar_yuv f = false -> bytes_per_pixel b' = 4) /\
  0 <= dmabuf_fd b' /\
  filter is_alloc ev =
    [drm_intel_bo_alloc_tiled_call w (lines_asked h f)
       (Z.quot (allocated_bpp f) 8)] /\
  drm_intel_bo_alloc_tiled w (lines_asked h f) (Z.quot (allocated_bpp f) 8)
  = Some (I915_TILING_NONE, stride b', mmap b') /\
  exists before,
    forallb (fun e => negb (announces e)) before = true /\
    ev = before
         ++ zwp_linux_buffer_params_v1_add (dmabuf_fd b') 0 0
              (uint32 (stride b'))
            :: more_planes f b'
         ++ [zwp_linux_buffer_params_v1_create_immed w h (uint32 f) 0;
             wl_buffer_add_listener].
Proof.
  cbv zeta. unfold create_dmabuf_buffer.
  pose proof (drm_connect_spec b) as Hc. cbv zeta in Hc.
  destruct (drm_connect b) as [[connected b1] ev0]. cbn [fst snd] in Hc.
  destruct Hc as (_ & _ & Ha0 & _ & _ & _ & Hev0).
  destruct (connected =? 0); [cbn [fst snd]; discriminate|].
  pose proof (allocation_geometry_spec h f
                (set_format f (set_height h (set_width w b1)))) as Hg.
  cbv zeta in Hg.
  set (b2 := allocation_geometry h f _) in *.
  destruct Hg as (Hh & Hb & Hbytes & Hw & Hf & _). buffer_simpl.
  unfold intel_alloc_bo. rewrite Hh, Hb, Hw.
  destruct (drm_intel_bo_alloc_tiled w (lines_asked h f)
              (Z.quot (allocated_bpp f) 8)) as [[[tiling pitch] memory]|];
    [|cbn [fst snd]; rewrite Z.eqb_refl; cbn [fst snd]; discriminate].
  destruct (Z.eqb_spec tiling I915_TILING_NONE) as [->|_]; cbn [negb];
    [|rewrite Z.eqb_refl; cbn [fst snd]; discriminate].
  change (1 =? 0) with false. cbv iota.
  unfold intel_bo_export_to_prime.
  destruct drm_intel_bo_gem_export_to_prime as [exported fd].
  destruct (Z.eqb_spec exported 0) as [->|_]; cbn [negb];
    [|cbn [fst snd]; discriminate].
  buffer_simpl.
  destruct (Z.ltb_spec fd 0) as [Hfd|Hfd]; [cbn [fst snd]; discriminate|].
  cbn [fst snd]. intros _. buffer_simpl.
  destruct (more_planes_announce f
              (set_height h (set_dmabuf_fd fd
                               (set_mmap memory (set_stride pitch b2)))))
    as [Hp _].
  unfold set_height, set_dmabuf_fd, set_mmap, set_stride in *. buffer_simpl.
  rewrite ?Hw, ?Hf, ?Hb in Hp |- *.
  repeat split; try assumption; try reflexivity.
  - rewrite !filter_app, Ha0, Hp. reflexivity.
  - exists (ev0
            ++ [drm_intel_bo_alloc_tiled_call w (lines_asked h f)
                  (Z.quot (allocated_bpp f) 8)]
            ++ [drm_intel_bo_gem_export_to_prime_call]
            ++ [syslog ("buffer->width = " +++ fmt_d w
                        +++ " , buffer->height = " +++ fmt_d h
                        +++ ", buffer->stride = " +++ fmt_d pitch
                        +++ ", format = 0x" +++ fmt_x f +++ " " +++ nl)]).
    split.
    + rewrite !forallb_app, (connects_no_announce _ Hev0). reflexivity.
    + rewrite <- !app_assoc. reflexivity.
Qed.

Lemma lines_asked_in_range (h f : Z) :
  - INT_MAX - 1 <= h * 3 <= INT_MAX -> lines_asked h f = allocated_rows h f.
Proof.
  unfold INT_MAX, lines_asked, allocated_rows. intros H.
  now rewrite to_int_small by lia.
Qed.

(** X10: when [create_dmabuf_buffer] returns 0 for a height of which
    three times is still an [int], the buffer object was asked for once,
    with the width given, with three halves of the height given for NV12,
    YUV420 and P010 and the height itself for every other format, and with
    1, 1, 2 or 4 bytes per pixel; the buffer carries the pitch and the
    memory the allocator gave, and the width, the height -- the one given,
    not the one allocated -- and the format given, with which the
    [wl_buffer] is created last of all, after the first plane and the
    further planes of the format have been added. *)
Theorem create_dmabuf_buffer_geometry (b : buffer) (w h f : Z) :
  fst (fst (create_dmabuf_buffer b w h f)) = 0 ->
  - INT_MAX - 1 <= h * 3 <= INT_MAX ->
  let b' := snd (fst (create_dmabuf_buffer b w h f)) in
  let ev := snd (create_dmabuf_buffer b w h f) in
  width b' = w /\ height b' = h /\ format b' = f /\
  bpp b' = allocated_bpp f /\
  (planar_yuv f = false -> bytes_per_pixel b' = 4) /\
  0 <= dmabuf_fd b' /\
  filter is_alloc ev =
    [drm_intel_bo_alloc_tiled_call w (allocated_rows h f)
       (Z.quot (allocated_bpp f) 8)] /\
  drm_intel_bo_alloc_tiled w (allocated_rows h f) (Z.quot (allocated_bpp f) 8)
  = Some (I915_TILING_NONE, stride b', mmap b') /\
  exists before,
    forallb (fun e => negb (announces e)) before = true /\
    ev = before
         ++ zwp_linux_buffer_params_v1_add (dmabuf_fd b') 0 0
              (uint32 (stride b'))
            :: more_planes f b'
         ++ [zwp_linux_buffer_params_v1_create_immed w h (uint32 f) 0;
             wl_buffer_add_listener].
Proof.
  intros Hret Hint.
  pose proof (create_dmabuf_buffer_spec b w h f Hret) as H.
  cbv zeta in H |- *.
  rewrite (lines_asked_in_range h f Hint) in H. exact H.
Qed.


Ltac events_goal Hev :=
  rewrite ?in_app_iff, ?existsb_app, ?forallb_app;
  rewrite ?(connects_no_alloc _ Hev), ?(connects_no_announce _ Hev);
  cbn [In existsb forallb is_alloc announces negb orb andb];
  try reflexivity;
  try solve [intuition (try discriminate; try congruence; try lia)].

(** X11: when [create_dmabuf_buffer] fails it returns -1 and has told
    the compositor nothing.  The buffer manager is destroyed and the render
    node closed exactly when the device had been connected, that is, when
    the node could be opened, the device is an i915 and a buffer manager
    could be made: a node that was opened on a device of another kind stays
    open.  The buffer object is given back exactly when its export had been
    tried. *)
Theorem create_dmabuf_buffer_failure (b : buffer) (w h f : Z) :
  fst (fst (create_dmabuf_buffer b w h f)) <> 0 ->
  let ev := snd (create_dmabuf_buffer b w h f) in
  fst (fst (create_dmabuf_buffer b w h f)) = -1 /\
  forallb (fun e => negb (announces e)) ev = true /\
  (existsb is_alloc ev = true <->
   0 <= open_render_node /\ drm_version_name = "i915"%string /\
   drm_intel_bufmgr_gem_init = true) /\
  (0 <= open_render_node -> In (open_call open_render_node) ev) /\
  (In (close_call open_render_node) ev <-> existsb is_alloc ev = true) /\
  (In drm_intel_bufmgr_destroy_call ev <-> existsb is_alloc ev = true) /\
  (In drm_intel_bo_unreference_call ev <->
   In drm_intel_bo_gem_export_to_prime_call ev).
Proof.
  cbv zeta. unfold create_dmabuf_buffer.
  pose proof (drm_connect_spec b) as Hc. cbv zeta in Hc.
  destruct (drm_connect b) as [[connected b1] ev0]. cbn [fst snd] in Hc.
  destruct Hc as (Hret & Hfd & _ & _ & Hone & Hopen & Hev).
  pose proof (fun e => not_connects ev0 e Hev) as Hnot.
  assert (Hclose : ~ In (close_call open_render_node) ev0)
    by (apply Hnot; reflexivity).
  assert (Hdestroy : ~ In drm_intel_bufmgr_destroy_call ev0)
    by (apply Hnot; reflexivity).
  assert (Hunref : ~ In drm_intel_bo_unreference_call ev0)
    by (apply Hnot; reflexivity).
  assert (Hexport : ~ In drm_intel_bo_gem_export_to_prime_call ev0)
    by (apply Hnot; reflexivity).
  destruct (Z.eqb_spec connected 0) as [->|Hconn].
  { cbn [fst snd]. intros _.
    assert (Hno : ~ (0 <= open_render_node /\
                     drm_version_name = "i915"%string /\
                     drm_intel_bufmgr_gem_init = true)).
    { intros H. apply Hone in H. discriminate H. }
    split; [reflexivity|]. split; [events_goal Hev|].
    split; [events_goal Hev|].
    split; [intros H; rewrite in_app_iff; left; now apply Hopen|].
    split; [events_goal Hev|].
    split; [events_goal Hev|].
    events_goal Hev. }
  assert (Hyes : 0 <= open_render_node /\
                 drm_version_name = "i915"%string /\
                 drm_intel_bufmgr_gem_init = true).
  { apply Hone. lia. }
  pose proof (allocation_geometry_spec h f
                (set_format f (set_height h (set_width w b1)))) as Hg.
  cbv zeta in Hg.
  set (b2 := allocation_geometry h f _) in *.
  destruct Hg as (_ & _ & _ & _ & _ & Hfd2 & _). buffer_simpl.
  unfold intel_alloc_bo, drm_shutdown, drm_device_destroy,
    intel_device_destroy, intel_free_bo.
  destruct (drm_intel_bo_alloc_tiled _ _ _) as [[[tiling pitch] memory]|].
  2:{ rewrite Z.eqb_refl. cbn [fst snd]. intros _. rewrite Hfd2, Hfd.
      split; [reflexivity|]. split; [events_goal Hev|].
      split; [events_goal Hev|].
      split; [intros H; rewrite !in_app_iff; left; now apply Hopen|].
      split; [events_goal Hev|].
      split; [events_goal Hev|].
      events_goal Hev. }
  destruct (Z.eqb_spec tiling I915_TILING_NONE) as [->|_]; cbn [negb].
  2:{ rewrite Z.eqb_refl. cbn [fst snd]. intros _. buffer_simpl.
      rewrite Hfd2, Hfd.
      split; [reflexivity|]. split; [events_goal Hev|].
      split; [events_goal Hev|].
      split; [intros H; rewrite !in_app_iff; left; now apply Hopen|].
      split; [events_goal Hev|].
      split; [events_goal Hev|].
      events_goal Hev. }
  change (1 =? 0) with false. cbv iota.
  unfold intel_bo_export_to_prime.
  destruct drm_intel_bo_gem_export_to_prime as [exported fd].
  destruct (Z.eqb_spec exported 0) as [->|_]; cbn [negb].
  2:{ cbn [fst snd]. intros _. buffer_simpl. rewrite Hfd2, Hfd.
      split; [reflexivity|]. split; [events_goal Hev|].
      split; [events_goal Hev|].
      split; [intros H; rewrite !in_app_iff; left; now apply Hopen|].
      split; [events_goal Hev|].
      split; [events_goal Hev|].
      events_goal Hev. }
  buffer_simpl.
  destruct (Z.ltb_spec fd 0) as [Hneg|Hpos].
  2:{ cbn [fst snd]. intros H. now contradiction H. }
  cbn [fst snd]. intros _. buffer_simpl. rewrite Hfd2, Hfd.
  split; [reflexivity|]. split; [events_goal Hev|].
  split; [events_goal Hev|].
  split; [intros H; rewrite !in_app_iff; left; now apply Hopen|].
  split; [events_goal Hev|].
  split; [events_goal Hev|].
  events_goal Hev.
Qed.
End CreateProps.

(** ** A buffer from its creation to its first frame *)

Lemma allocated_rows_planar (h f : Z) :
  0 <= h -> planar_yuv f = true -> allocated_rows h f = h + h / 2.
Proof.
  intros Hh Hp. unfold allocated_rows. rewrite Hp.
  rewrite Z.quot_div_nonneg by lia.
  pose proof (Z.div_mod h 2 ltac:(lia)).
  pose proof (Z.mod_pos_bound h 2 ltac:(lia)).
  pose proof (Z.div_mod (h * 3) 2 ltac:(lia)).
  pose proof (Z.mod_pos_bound (h * 3) 2 ltac:(lia)).
  lia.
Qed.

Section CreateFill.
Context {lib : libdrm} {heap : libc}.

(** X18: what [create_dmabuf_buffer] asks of the allocator is enough for
    [fill_buffer]: if the pitch holds a line of pixels and the memory holds
    the lines that were asked for, filling the buffer that was created
    reads and writes no byte outside the memory of the buffer and the block
    the frame is read into, whatever the format and whatever the file
    holds -- for YUV420 provided the height is even.  This holds for the
    sizes the code can compute in [int]: three times the height, and the
    bytes of a frame (for P010 the product of width, height, 2 and 3 that
    is then halved) do not exceed [INT_MAX]. *)
Theorem created_buffer_fills (b : buffer) (w h f : Z) (fp : FILE) :
  fst (fst (create_dmabuf_buffer b w h f)) = 0 ->
  let b' := snd (fst (create_dmabuf_buffer b w h f)) in
  0 <= w -> 0 <= h ->
  h * 3 <= INT_MAX ->
  frame_bytes w h f <= INT_MAX ->
  (f = DRM_FORMAT_YUV420 -> h mod 2 = 0) ->
  w * Z.quot (allocated_bpp f) 8 <= stride b' ->
  stride b' * allocated_rows h f <= Z.of_nat (List.length (mmap b')) ->
  stride b' * h * 5 < 18446744073709551616 ->
  exists r, fill_buffer b' fp = Some r.
Proof.
  intros Hret. cbv zeta.
  destruct (create_dmabuf_buffer_spec b w h f Hret)
    as (Hw & Hh & Hf & Hbpp & Hbytes & _).
  remember (snd (fst (create_dmabuf_buffer b w h f))) as b' eqn:Eb.
  clear Eb Hret.
  intros Hw0 Hh0 _ _ Heven Hpitch Hmem Hbig.
  unfold fill_buffer. rewrite Hf.
  assert (Hcpp : 0 <= Z.quot (allocated_bpp f) 8).
  { unfold allocated_bpp.
    destruct (f =? DRM_FORMAT_P010); [discriminate|].
    destruct (_ || _); discriminate. }
  assert (Hs0 : 0 <= stride b') by nia.
  unfold allocated_bpp, planar_yuv in *.
  assert (Hsh : stride b' * h <= stride b' * h * 5) by nia.
  destruct (Z.eqb_spec f DRM_FORMAT_YUV420) as [Ey|Ny].
  { rewrite Ey in *. change (DRM_FORMAT_YUV420 =? DRM_FORMAT_P010) with false in *.
    change (DRM_FORMAT_YUV420 =? DRM_FORMAT_NV12) with false in *.
    cbn [orb] in *. change (Z.quot 8 8) with 1 in Hpitch.
    rewrite allocated_rows_planar in Hmem by (try reflexivity; lia).
    destruct (copy_yuv420_to_dma_buf_extent fp b') as (? & ? & ? & E & _);
      rewrite ?Hw, ?Hh; try lia; auto.
    rewrite E. eauto. }
  destruct (Z.eqb_spec f DRM_FORMAT_P010) as [Ep|Np].
  { rewrite Ep in *. change (Z.quot 16 8) with 2 in Hpitch.
    rewrite allocated_rows_planar in Hmem by (try reflexivity; lia).
    apply copy_p010_to_dma_buf_defined; rewrite ?Hw, ?Hh; try lia; nia. }
  destruct (Z.eqb_spec f DRM_FORMAT_NV12) as [En|Nn].
  { rewrite En in *. cbn [orb] in *. change (Z.quot 8 8) with 1 in Hpitch.
    rewrite allocated_rows_planar in Hmem by (try reflexivity; lia).
    apply copy_nv12_to_dma_buf_defined; rewrite ?Hw, ?Hh; try lia; nia. }
  cbn [orb] in *. change (Z.quot 32 8) with 4 in Hpitch.
  specialize (Hbytes eq_refl).
  destruct (_ || _); [|eauto].
  unfold allocated_rows, planar_yuv in Hmem.
  destruct (Z.eqb_spec f DRM_FORMAT_NV12); [contradiction|].
  destruct (Z.eqb_spec f DRM_FORMAT_YUV420); [contradiction|].
  destruct (Z.eqb_spec f DRM_FORMAT_P010); [contradiction|].
  cbn [orb] in Hmem.
  apply copy_rgb_to_dma_buf_defined; rewrite ?Hw, ?Hh, ?Hbytes; try lia; nia.
Qed.
End CreateFill.

Section Planes.
Context {lib : libdrm} {heap : libc}.

(** X19: for a YUV420 buffer, [create_dmabuf_buffer] announces the third
    plane at offset [stride * height * 3 / 2], which is not below the end
    of the lines it asked the allocator for, and [fill_buffer] writes no
    byte at or after that offset. *)
Theorem yuv420_third_plane_never_written (b : buffer) (w h : Z) (fp : FILE) :
  fst (fst (create_dmabuf_buffer b w h DRM_FORMAT_YUV420)) = 0 ->
  let b' := snd (fst (create_dmabuf_buffer b w h DRM_FORMAT_YUV420)) in
  let ev := snd (create_dmabuf_buffer b w h DRM_FORMAT_YUV420) in
  0 <= w <= stride b' ->
  0 <= h -> h mod 2 = 0 ->
  stride b' * allocated_rows h DRM_FORMAT_YUV420
  <= Z.of_nat (List.length (mmap b')) ->
  stride b' < 4294967296 ->
  stride b' * h * 5 < 4294967296 ->
  In (zwp_linux_buffer_params_v1_add (dmabuf_fd b') 2
        (stride b' * h * 3 / 2) (stride b' / 2)) ev /\
  stride b' * allocated_rows h DRM_FORMAT_YUV420 <= stride b' * h * 3 / 2 /\
  exists fp' m log,
    fill_buffer b' fp = Some (fp', set_mmap m b', log) /\
    forall i, stride b' * h * 3 / 2 <= i -> load m i = load (mmap b') i.
Proof.
  intros Hret. cbv zeta.
  destruct (create_dmabuf_buffer_spec b w h DRM_FORMAT_YUV420 Hret)
    as (Hw & Hh & Hf & _ & _ & _ & _ & _ & before & _ & Hev).
  rewrite Hev.
  remember (snd (fst (create_dmabuf_buffer b w h DRM_FORMAT_YUV420))) as b'
    eqn:Eb.
  clear Eb Hret Hev.
  intros Hw0 Hh0 Heven Hmem Hs32 Hbig.
  assert (Hsh : 0 <= stride b' * h) by nia.
  assert (Hq : 0 <= stride b' * h * 3 / 2 <= stride b' * h * 3).
  { split; [apply Z.div_pos; lia|].
    pose proof (Z.mul_div_le (stride b' * h * 3) 2 ltac:(lia)). lia. }
  rewrite allocated_rows_planar in * by (try reflexivity; lia).
  split; [|split].
  - rewrite in_app_iff. right. right.
    unfold more_planes.
    change (DRM_FORMAT_YUV420 =? DRM_FORMAT_NV12) with false.
    change (DRM_FORMAT_YUV420 =? DRM_FORMAT_YUV420) with true.
    cbv iota. rewrite Hh. rewrite in_app_iff. left. right. left.
    rewrite (ulong_small (stride b' * h)) by lia.
    rewrite (ulong_small (stride b' * h * 3)) by lia.
    rewrite (uint32_small (stride b' * h * 3 / 2)) by lia.
    rewrite (uint32_small (stride b' / 2)).
    + reflexivity.
    + split; [apply Z.div_pos; lia|].
      pose proof (Z.mul_div_le (stride b') 2 ltac:(lia)). lia.
  - apply Z.div_le_lower_bound; [lia|].
    pose proof (Z.mul_div_le h 2 ltac:(lia)). nia.
  - unfold fill_buffer. rewrite Hf.
    change (DRM_FORMAT_YUV420 =? DRM_FORMAT_YUV420) with true. cbv iota.
    destruct (copy_yuv420_to_dma_buf_extent fp b')
      as (fp' & m & log & E & _ & Hrest); rewrite ?Hw, ?Hh in *; try lia.
    exists fp', m, log. split; [exact E|exact Hrest].
Qed.
End Planes.

(** ** The redraw cycle *)

Lemma nth_error_replace (A : Type) (l : list A) (i : nat) (x y : A) :
  nth_error l i = Some x ->
  nth_error (firstn i l ++ y :: skipn (S i) l) i = Some y.
Proof.
  intros H.
  assert (Hlt : (i < List.length l)%nat).
  { apply nth_error_Some. congruence. }
  rewrite nth_error_app2; rewrite length_firstn; [|lia].
  replace (i - Nat.min i (List.length l))%nat with O by lia.
  reflexivity.
Qed.

Lemma next_buffer_from_free (buffers : list buffer) (todo i j : nat) :
  next_buffer_from i todo buffers = Some j ->
  exists b, nth_error buffers j = Some b /\ busy b = 0 /\
            (i <= j < i + todo)%nat.
Proof.
  revert i. induction todo as [|todo IH]; intros i; cbn [next_buffer_from].
  - discriminate.
  - destruct (nth_error buffers i) as [b|] eqn:E; [|discriminate].
    destruct (Z.eqb_spec (busy b) 0) as [Hb|Hb].
    + intros H. injection H as <-. exists b. repeat split; try assumption; lia.
    + intros H. destruct (IH _ H) as (b' & ? & ? & ?).
      exists b'. repeat split; try assumption; lia.
Qed.

Lemma next_buffer_from_busy (buffers : list buffer) (todo i : nat) :
  (forall j b, (i <= j < i + todo)%nat -> nth_error buffers j = Some b ->
               busy b <> 0) ->
  next_buffer_from i todo buffers = None.
Proof.
  revert i. induction todo as [|todo IH]; intros i H; cbn [next_buffer_from].
  - reflexivity.
  - destruct (nth_error buffers i) as [b|] eqn:E; [|reflexivity].
    destruct (Z.eqb_spec (busy b) 0) as [Hb|Hb].
    + exfalso. apply (H i b); [lia|exact E|exact Hb].
    + apply IH. intros j b' Hj. apply H. lia.
Qed.

Section RedrawProps.
Context {lib : libdrm} {heap : libc}.

(** X20: while every buffer of the image is busy, [redraw_handler] reads
    nothing from the file, writes to no buffer and sends nothing to the
    compositor: it schedules another redraw and returns. *)
Theorem redraw_handler_waits_for_release (a : client_app) :
  (forall b, In b (image_buffers a) -> busy b <> 0) ->
  redraw_handler a =
  Some (mk_app (image_fp a) (image_buffers a)
               (events a ++ [widget_schedule_redraw])).
Proof.
  intros Hbusy. unfold redraw_handler, image_next_buffer.
  rewrite next_buffer_from_busy; [reflexivity|].
  intros j b _ Hj. apply Hbusy. eapply nth_error_In. exact Hj.
Qed.

(** X21: when [redraw_handler] commits a frame, the buffer it attached is
    the one [image_next_buffer] chose, and that buffer is busy afterwards:
    a further redraw leaves the file and the buffers alone and only
    schedules another redraw, and once [buffer_release] has run for the
    buffer, [image_next_buffer] chooses it again. *)
Theorem redraw_handler_commits_busy (a a' : client_app) :
  redraw_handler a = Some a' ->
  In wl_surface_commit (skipn (List.length (events a)) (events a')) ->
  exists i b',
    image_next_buffer (image_buffers a) = Some i /\
    In (wl_surface_attach i) (skipn (List.length (events a)) (events a')) /\
    nth_error (image_buffers a') i = Some b' /\
    busy b' = 1 /\
    redraw_handler a' =
      Some (mk_app (image_fp a') (image_buffers a')
                   (events a' ++ [widget_schedule_redraw])) /\
    image_next_buffer (image_buffers (buffer_release i a')) = Some i.
Proof.
  unfold redraw_handler at 1.
  destruct (image_next_buffer (image_buffers a)) as [i|] eqn:En.
  2:{ intros H. injection H as <-. cbn [events].
      rewrite skipn_app, skipn_all, Nat.sub_diag. cbn [skipn List.app In].
      intuition discriminate. }
  destruct (next_buffer_from_free _ _ _ _ En) as (b & Hb & Hfree & Hi).
  assert (i = O) by (unfold NUM_BUFFERS in Hi; lia). subst i.
  rewrite Hb. unfold intel_map_bo.
  destruct (drm_intel_gem_bo_map_gtt (events a) =? 0); cbn [negb].
  2:{ rewrite Z.eqb_refl. intros H. injection H as <-. cbn [events].
      rewrite skipn_app, skipn_all, Nat.sub_diag. cbn [skipn List.app In].
      intuition discriminate. }
  change (1 =? 0) with false. cbv iota.
  destruct (fill_buffer b (image_fp a)) as [[[fp b1] fill_events]|];
    [|discriminate].
  intros H. injection H as <-. cbn [events image_buffers image_fp].
  rewrite skipn_app, skipn_all, Nat.sub_diag. cbn [skipn List.app].
  intros _. exists O, (set_busy 1 b1).
  split; [reflexivity|]. split.
  { unfold intel_unmap_bo. cbn [List.app In]. right.
    rewrite in_app_iff. right. cbn [In]. right. left. reflexivity. }
  split; [reflexivity|]. split; [reflexivity|]. split.
  - unfold redraw_handler, image_next_buffer, NUM_BUFFERS.
    cbn [next_buffer_from firstn List.app nth_error image_buffers busy
         set_busy]. reflexivity.
  - unfold buffer_release, image_next_buffer, NUM_BUFFERS.
    cbn [image_buffers firstn List.app nth_error next_buffer_from busy
         set_busy]. reflexivity.
Qed.
End RedrawProps.

(** ** The further properties at work *)

Lemma dump_numbers_concatenated_program_witness :
  dump_text [("void main()" +++ nl +++ "{")%string; ("}" +++ nl)%string] =
  numbered 1 ["void main()"%string; "{}"%string] EmptyString.
Proof.
  apply dump_numbers_concatenated_program; reflexivity.
Defined.

Lemma fragment_programs_distinct_witness :
  mk_requirements SHADER_VARIANT_RGBA true =
  mk_requirements SHADER_VARIANT_RGBA true.
Proof.
  apply (fragment_programs_distinct
           (mk_requirements SHADER_VARIANT_RGBA true)
           (mk_requirements SHADER_VARIANT_RGBA true)
           ("#define DEF_GREEN_TINT true" +++ nl
            +++ "#define DEF_VARIANT SHADER_VARIANT_RGBA" +++ nl)
           ("#define DEF_GREEN_TINT true" +++ nl
            +++ "#define DEF_VARIANT SHADER_VARIANT_RGBA" +++ nl)
           "void main() {}");
    reflexivity.
Defined.

Section RejectingRuns.
#[local] Existing Instance Mock.rejecting.
#[local] Existing Instance Mock.sources.

Lemma compile_shader_rejected_witness :
  let w' := snd (compile_shader GL_VERTEX_SHADER ["x"%string] Mock.empty) in
  exists s hist msg,
    gl_calls (gl w') =
      GetShaderInfoLog s 512 :: GetShaderiv_COMPILE_STATUS s false :: hist /\
    msg = substring 0 511
            (driver_shader_info_log
               (GetShaderiv_COMPILE_STATUS s false :: hist) s) /\
    (String.length msg <= 511)%nat /\
    log_out w' =
      log_out Mock.empty
      ++ [("shader info: " +++ msg +++ nl)%string;
          ("shader source:" +++ nl)%string;
          dump_text ["x"%string] +++ nl] /\
    shader_scope_out w' = shader_scope_out Mock.empty /\
    shader_list w' = shader_list Mock.empty.
Proof.
  apply (compile_shader_rejected GL_VERTEX_SHADER ["x"%string] Mock.empty).
  reflexivity.
Defined.
End RejectingRuns.

Section AcceptingRuns.
#[local] Existing Instance Mock.accepting.
#[local] Existing Instance Mock.sources.

Lemma compile_shader_accepted_witness :
  let s := fst (compile_shader GL_VERTEX_SHADER ["x"%string] Mock.empty) in
  let w' := snd (compile_shader GL_VERTEX_SHADER ["x"%string] Mock.empty) in
  ~ In s (gl_shaders (gl Mock.empty)) /\
  ~ In s (gl_programs (gl Mock.empty)) /\
  gl_shaders (gl w') = s :: gl_shaders (gl Mock.empty) /\
  gl_programs (gl w') = gl_programs (gl Mock.empty) /\
  gl_calls (gl w') =
    [GetShaderiv_COMPILE_STATUS s true; CompileShader s;
     ShaderSource s ["x"%string]; CreateShader GL_VERTEX_SHADER s]
    ++ gl_calls (gl Mock.empty) /\
  log_out w' = log_out Mock.empty /\
  shader_scope_out w' = shader_scope_out Mock.empty /\
  shader_list w' = shader_list Mock.empty.
Proof.
  apply (compile_shader_accepted GL_VERTEX_SHADER ["x"%string] Mock.empty).
  vm_compute. discriminate.
Defined.

Lemma gl_shader_create_destroy_restores_witness :
  let R := mk_requirements SHADER_VARIANT_RGBA false in
  let w1 := snd (gl_shader_create R Mock.empty) in
  let w2 := snd (gl_shader_destroy 1 w1) in
  shader_list w2 = shader_list Mock.empty /\
  gl_programs (gl w2) = gl_programs (gl Mock.empty) /\
  gl_shaders (gl w2) = gl_shaders (gl Mock.empty) /\
  log_out w2 = log_out Mock.empty /\
  hd_error (gl_calls (gl w2)) = Some (DeleteProgram (program_name Mock.empty)).
Proof.
  apply (gl_shader_create_destroy_restores
           (mk_requirements SHADER_VARIANT_RGBA false) Mock.empty 1).
  reflexivity.
Defined.

Lemma gl_shader_destroy_unlinks_one_witness :
  let shader :=
    Shader.mk (mk_requirements SHADER_VARIANT_RGBA false) 3 1 2
              4 (3, 4, 4) 5 8 (mk_timespec 0 0) in
  let w := snd (gl_shader_create (mk_requirements SHADER_VARIANT_SOLID true)
                  (snd (gl_shader_create
                          (mk_requirements SHADER_VARIANT_RGBA false)
                          Mock.empty))) in
  let w' := snd (gl_shader_destroy 1 w) in
  shader_at 1 (shader_list w') = None /\
  (forall q, q <> 1 ->
             shader_at q (shader_list w') = shader_at q (shader_list w)) /\
  List.length (shader_list w') = (List.length (shader_list w) - 1)%nat /\
  gl_calls (gl w') = DeleteProgram (Shader.program shader) :: gl_calls (gl w) /\
  gl_shaders (gl w') = gl_shaders (gl w) /\
  log_out w' = log_out w /\
  shader_scope_out w' =
    shader_scope_out w ++
    (if shader_scope_enabled w
     then [("Deleting shader program for: "
            +++ fmt_s (create_shader_description_string (Shader.key shader))
            +++ nl)%string]
     else []).
Proof.
  cbv zeta.
  apply (gl_shader_destroy_unlinks_one 1
           (Shader.mk (mk_requirements SHADER_VARIANT_RGBA false) 3 1 2
                      4 (3, 4, 4) 5 8 (mk_timespec 0 0))
           (snd (gl_shader_create
                   (mk_requirements SHADER_VARIANT_SOLID true)
                   (snd (gl_shader_create
                           (mk_requirements SHADER_VARIANT_RGBA false)
                           Mock.empty))))).
  - unfold wl_list_ok. vm_compute.
    repeat constructor; cbn [In]; intuition discriminate.
  - vm_compute. reflexivity.
Defined.

Lemma gl_shader_create_uniform_locations_witness :
  let R := mk_requirements SHADER_VARIANT_Y_UV false in
  let w' := snd (gl_shader_create R Mock.empty) in
  exists shader hist,
    shader_at 1 (shader_list w') = Some shader /\
    gl_calls (gl w') =
      [GetUniformLocation (Shader.program shader) "unicolor";
       GetUniformLocation (Shader.program shader) "alpha";
       GetUniformLocation (Shader.program shader) "tex2";
       GetUniformLocation (Shader.program shader) "tex1";
       GetUniformLocation (Shader.program shader) "tex";
       GetUniformLocation (Shader.program shader) "proj"] ++ hist /\
    let prog := Shader.program shader in
    let asked names := map (GetUniformLocation prog) names ++ hist in
    Shader.proj_uniform shader = driver_uniform_location hist prog "proj" /\
    Shader.tex_uniforms shader =
      (driver_uniform_location (asked ["proj"%string]) prog "tex",
       driver_uniform_location (asked ["tex"; "proj"]%string) prog "tex1",
       driver_uniform_location (asked ["tex1"; "tex"; "proj"]%string)
         prog "tex2") /\
    Shader.alpha_uniform shader =
      driver_uniform_location (asked ["tex2"; "tex1"; "tex"; "proj"]%string)
        prog "alpha" /\
    Shader.color_uniform shader =
      driver_uniform_location
        (asked ["alpha"; "tex2"; "tex1"; "tex"; "proj"]%string)
        prog "unicolor".
Proof.
  apply (gl_shader_create_uniform_locations
           (mk_requirements SHADER_VARIANT_Y_UV false) Mock.empty 1).
  reflexivity.
Defined.
End AcceptingRuns.

Section ClientRuns.
#[local] Existing Instance MockClient.heap.
#[local] Existing Instance MockClient.i915.

(** A frame of two lines of two pixels in a buffer whose lines are four
    bytes apart. *)
Example nv12_frame :
  option_map (fun r => mmap (snd (fst r)))
    (copy_nv12_to_dma_buf (MockClient.file 6)
       (MockClient.mapped 2 2 4 DRM_FORMAT_NV12 0 12)) =
  Some [1; 2; 0; 0; 3; 4; 0; 0; 5; 6; 0; 0].
Proof. vm_compute. reflexivity. Qed.

(** The chroma planes of a frame of four lines of four pixels, woven into
    one. *)
Example nv12_from_yuv420p :
  option_map (fun r => skipn 16 (mmap (snd (fst r))))
    (convert_yuv420pTonv12_and_copy_to_dma_buf (MockClient.file 24)
       (MockClient.mapped 4 4 4 DRM_FORMAT_NV12 0 24)) =
  Some [17; 21; 18; 22; 19; 23; 20; 24].
Proof. vm_compute. reflexivity. Qed.

(** Five lines: the last line of the third plane does not fit the seven
    lines that were allocated. *)
Example yuv420_five_lines :
  copy_yuv420_to_dma_buf (MockClient.file 30)
    (MockClient.mapped 4 5 4 DRM_FORMAT_YUV420 0 28) = None.
Proof. vm_compute. reflexivity. Qed.

Lemma copy_nv12_to_dma_buf_lines_witness :
  let fp := MockClient.file 6 in
  let b := MockClient.mapped 2 2 4 DRM_FORMAT_NV12 0 12 in
  exists m,
    copy_nv12_to_dma_buf fp b =
      Some (mk_FILE (file_bytes fp) 6, set_mmap m b,
            [sizes_log 6 6 4; hkps b]) /\
    List.length m = 12%nat /\
    (forall row col,
       0 <= row < 3 -> 0 <= col < 2 ->
       load m (row * 4 + col) = load (file_bytes fp) (row * 2 + col)) /\
    (forall i,
       (forall row col, 0 <= row < 3 -> 0 <= col < 2 -> i <> row * 4 + col) ->
       load m i = load (mmap b) i).
Proof.
  cbv zeta.
  apply (copy_nv12_to_dma_buf_lines (MockClient.file 6)
           (MockClient.mapped 2 2 4 DRM_FORMAT_NV12 0 12));
    vm_compute; intuition discriminate.
Defined.

Lemma copy_nv12_to_dma_buf_short_file_witness :
  let fp := MockClient.file 3 in
  let b := MockClient.mapped 2 2 4 DRM_FORMAT_NV12 0 12 in
  exists m,
    copy_nv12_to_dma_buf fp b =
      Some (mk_FILE (file_bytes fp) (file_size_of fp), set_mmap m b,
            [sizes_log (file_size_of fp)
                       (width b * height b + width b * height b / 2)
                       (width b * height b);
             syslog ("Failed to read full frame. bytes_read = "
                     +++ fmt_d (file_size_of fp) +++ " " +++ nl);
             hkps b]) /\
    (forall row col,
       0 <= row < height b + height b / 2 -> 0 <= col < width b ->
       row * width b + col < file_size_of fp ->
       load m (row * stride b + col) =
       load (file_bytes fp) (row * width b + col)) /\
    (forall row col,
       0 <= row < height b + height b / 2 -> 0 <= col < width b ->
       file_size_of fp <= row * width b + col ->
       load m (row * stride b + col) =
       Some (indeterminate (Z.to_nat (row * width b + col)))).
Proof.
  cbv zeta.
  apply (copy_nv12_to_dma_buf_short_file (MockClient.file 3)
           (MockClient.mapped 2 2 4 DRM_FORMAT_NV12 0 12));
    vm_compute; intuition discriminate.
Defined.

(** Three bytes of a frame of six: the rest of the frame is what the block
    held before. *)
Example nv12_short_frame :
  option_map (fun r => mmap (snd (fst r)))
    (copy_nv12_to_dma_buf (MockClient.file 3)
       (MockClient.mapped 2 2 4 DRM_FORMAT_NV12 0 12)) =
  Some [1; 2; 0; 0; 3; 170; 0; 0; 170; 170; 0; 0].
Proof. vm_compute. reflexivity. Qed.

Lemma copy_p010_to_dma_buf_lines_witness :
  let fp := MockClient.file 12 in
  let b := MockClient.mapped 2 2 8 DRM_FORMAT_P010 0 24 in
  exists m,
    copy_p010_to_dma_buf fp b =
      Some (mk_FILE (file_bytes fp) 12, set_mmap m b, [hkps b]) /\
    List.length m = 24%nat /\
    (forall row col,
       0 <= row < 3 -> 0 <= col < 4 ->
       load m (row * 8 + col) = load (file_bytes fp) (0 + row * 4 + col)) /\
    (forall i,
       (forall row col, 0 <= row < 3 -> 0 <= col < 4 -> i <> row * 8 + col) ->
       load m i = load (mmap b) i).
Proof.
  cbv zeta.
  apply (copy_p010_to_dma_buf_lines (MockClient.file 12)
           (MockClient.mapped 2 2 8 DRM_FORMAT_P010 0 24));
    vm_compute; intuition discriminate.
Defined.

Lemma copy_rgb_to_dma_buf_bytes_witness :
  let fp := MockClient.file 16 in
  let b := MockClient.mapped 2 2 12 DRM_FORMAT_XRGB8888 4 24 in
  exists m,
    copy_rgb_to_dma_buf fp b =
      Some (mk_FILE (file_bytes fp) 16, set_mmap m b, []) /\
    List.length m = 24%nat /\
    (forall i, 0 <= i < 16 -> load m i = load (file_bytes fp) (0 + i)) /\
    (forall i, 16 <= i -> load m i = load (mmap b) i).
Proof.
  cbv zeta.
  apply (copy_rgb_to_dma_buf_bytes (MockClient.file 16)
           (MockClient.mapped 2 2 12 DRM_FORMAT_XRGB8888 4 24));
    vm_compute; intuition discriminate.
Defined.

Lemma copy_yuv420_to_dma_buf_packed_witness :
  let fp := MockClient.file 12 in
  let b := MockClient.mapped 2 4 2 DRM_FORMAT_YUV420 0 12 in
  exists m,
    copy_yuv420_to_dma_buf fp b =
      Some (mk_FILE (file_bytes fp) 12, set_mmap m b,
            [sizes_log 12 12 8; hkps b]) /\
    List.length m = 12%nat /\
    (forall i, 0 <= i < 12 -> load m i = load (file_bytes fp) i) /\
    (forall i, 12 <= i -> load m i = load (mmap b) i).
Proof.
  cbv zeta.
  apply (copy_yuv420_to_dma_buf_packed (MockClient.file 12)
           (MockClient.mapped 2 4 2 DRM_FORMAT_YUV420 0 12));
    vm_compute; intuition discriminate.
Defined.

Lemma convert_yuv420p_interleaves_chroma_witness :
  let fp := MockClient.file 24 in
  let b := MockClient.mapped 4 4 4 DRM_FORMAT_NV12 0 24 in
  exists m log,
    convert_yuv420pTonv12_and_copy_to_dma_buf fp b =
      Some (mk_FILE (file_bytes fp) 24, set_mmap m b, log) /\
    List.length m = 24%nat /\
    (forall row col,
       0 <= row < 4 -> 0 <= col < 4 ->
       load m (row * 4 + col) = load (file_bytes fp) (0 + row * 4 + col)) /\
    (forall row col,
       0 <= row < 2 -> 0 <= col < 2 ->
       load m (16 + row * 4 + 2 * col) =
       load (file_bytes fp) (0 + 16 + row * 2 + col) /\
       load m (16 + row * 4 + 2 * col + 1) =
       load (file_bytes fp) (0 + 16 + 4 + row * 2 + col)).
Proof.
  cbv zeta.
  apply (convert_yuv420p_interleaves_chroma (MockClient.file 24)
           (MockClient.mapped 4 4 4 DRM_FORMAT_NV12 0 24));
    vm_compute; intuition discriminate.
Defined.

Lemma create_dmabuf_buffer_geometry_witness :
  let r := create_dmabuf_buffer MockClient.blank 6 4 DRM_FORMAT_NV12 in
  let b' := snd (fst r) in
  width b' = 6 /\ height b' = 4 /\ format b' = DRM_FORMAT_NV12 /\
  bpp b' = 8 /\
  (planar_yuv DRM_FORMAT_NV12 = false -> bytes_per_pixel b' = 4) /\
  0 <= dmabuf_fd b' /\
  filter is_alloc (snd r) = [drm_intel_bo_alloc_tiled_call 6 6 1] /\
  drm_intel_bo_alloc_tiled 6 6 1
  = Some (I915_TILING_NONE, stride b', mmap b') /\
  exists before,
    forallb (fun e => negb (announces e)) before = true /\
    snd r = before
            ++ zwp_linux_buffer_params_v1_add (dmabuf_fd b') 0 0
                 (uint32 (stride b'))
               :: more_planes DRM_FORMAT_NV12 b'
            ++ [zwp_linux_buffer_params_v1_create_immed 6 4
                  (uint32 DRM_FORMAT_NV12) 0;
                wl_buffer_add_listener].
Proof.
  cbv zeta.
  apply (create_dmabuf_buffer_geometry MockClient.blank 6 4 DRM_FORMAT_NV12);
    vm_compute; intuition discriminate.
Defined.

Lemma created_buffer_fills_witness :
  exists r,
    fill_buffer
      (snd (fst (create_dmabuf_buffer MockClient.blank 6 4
                   DRM_FORMAT_YUV420)))
      (MockClient.file 10) = Some r.
Proof.
  apply (created_buffer_fills MockClient.blank 6 4 DRM_FORMAT_YUV420
           (MockClient.file 10));
    vm_compute; intuition discriminate.
Defined.

Lemma yuv420_third_plane_never_written_witness :
  let r := create_dmabuf_buffer MockClient.blank 6 4 DRM_FORMAT_YUV420 in
  let b' := snd (fst r) in
  In (zwp_linux_buffer_params_v1_add (dmabuf_fd b') 2
        (stride b' * 4 * 3 / 2) (stride b' / 2)) (snd r) /\
  stride b' * allocated_rows 4 DRM_FORMAT_YUV420 <= stride b' * 4 * 3 / 2 /\
  exists fp' m log,
    fill_buffer b' (MockClient.file 36) = Some (fp', set_mmap m b', log) /\
    forall i, stride b' * 4 * 3 / 2 <= i -> load m i = load (mmap b') i.
Proof.
  cbv zeta.
  apply (yuv420_third_plane_never_written MockClient.blank 6 4
           (MockClient.file 36));
    vm_compute; intuition discriminate.
Defined.

Lemma redraw_handler_waits_for_release_witness :
  let a := mk_app (MockClient.file 6)
             [set_busy 1 (MockClient.mapped 2 2 4 DRM_FORMAT_NV12 0 12)]
             [wl_surface_commit] in
  redraw_handler a =
  Some (mk_app (image_fp a) (image_buffers a)
               (events a ++ [widget_schedule_redraw])).
Proof.
  cbv zeta.
  apply (redraw_handler_waits_for_release
           (mk_app (MockClient.file 6)
              [set_busy 1 (MockClient.mapped 2 2 4 DRM_FORMAT_NV12 0 12)]
              [wl_surface_commit])).
  cbn [image_buffers In]. intros b [<-|[]]. vm_compute. discriminate.
Defined.

Lemma redraw_handler_commits_busy_witness :
  let a := mk_app (MockClient.file 6)
             [MockClient.mapped 2 2 4 DRM_FORMAT_NV12 0 12] [] in
  let a' := mk_app (mk_FILE (file_bytes (MockClient.file 6)) 6)
              [set_busy 1
                 (set_mmap [1; 2; 0; 0; 3; 4; 0; 0; 5; 6; 0; 0]
                    (MockClient.mapped 2 2 4 DRM_FORMAT_NV12 0 12))]
              [drm_intel_gem_bo_map_gtt_call;
               sizes_log 6 6 4;
               hkps (MockClient.mapped 2 2 4 DRM_FORMAT_NV12 0 12);
               drm_intel_gem_bo_unmap_gtt_call; wl_surface_attach 0;
               wl_surface_damage 0 0 2 2; wl_surface_commit] in
  exists i b',
    image_next_buffer (image_buffers a) = Some i /\
    In (wl_surface_attach i) (skipn (List.length (events a)) (events a')) /\
    nth_error (image_buffers a') i = Some b' /\
    busy b' = 1 /\
    redraw_handler a' =
      Some (mk_app (image_fp a') (image_buffers a')
                   (events a' ++ [widget_schedule_redraw])) /\
    image_next_buffer (image_buffers (buffer_release i a')) = Some i.
Proof.
  cbv zeta.
  apply (redraw_handler_commits_busy
           (mk_app (MockClient.file 6)
              [MockClient.mapped 2 2 4 DRM_FORMAT_NV12 0 12] [])).
  - vm_compute. reflexivity.
  - vm_compute. tauto.
Defined.
End ClientRuns.

Section UnsupportedRuns.
#[local] Existing Instance MockClient.amdgpu.

Lemma create_dmabuf_buffer_failure_witness :
  let r := create_dmabuf_buffer MockClient.blank 6 4 DRM_FORMAT_NV12 in
  fst (fst r) = -1 /\
  forallb (fun e => negb (announces e)) (snd r) = true /\
  (existsb is_alloc (snd r) = true <->
   0 <= open_render_node /\ drm_version_name = "i915"%string /\
   drm_intel_bufmgr_gem_init = true) /\
  (0 <= open_render_node -> In (open_call open_render_node) (snd r)) /\
  (In (close_call open_render_node) (snd r) <->
   existsb is_alloc (snd r) = true) /\
  (In drm_intel_bufmgr_destroy_call (snd r) <->
   existsb is_alloc (snd r) = true) /\
  (In drm_intel_bo_unreference_call (snd r) <->
   In drm_intel_bo_gem_export_to_prime_call (snd r)).
Proof.
  cbv zeta.
  apply (create_dmabuf_buffer_failure MockClient.blank 6 4 DRM_FORMAT_NV12).
  vm_compute. discriminate.
Defined.
End UnsupportedRuns.
